(** * AI-ETCH: zone splitting (area.py) and column renaming (rename.py)

    A shallow embedding of [split_zone_data_x] and of the methods of
    [ColumnRenameMapper], with the pandas operations they call, and the
    properties of the specification settled against that embedding.

    Conventions of the embedding:
    - a Python [str] is a Rocq [string] holding the bytes of its UTF-8
      encoding; where the code looks at single characters (the regex
      class [\d], matching with [re.IGNORECASE]) the bytes are decoded,
      with the character tables of Unicode 14.0 that Python 3.11 has;
    - a raised exception is the [Raise] result, carrying its class and
      its message; a function that prints or logs returns its output
      beside its result;
    - a DataFrame is its list of column labels and its rows; a cell is a
      [value]; a float cell is an exact rational kept in lowest terms. *)

From Stdlib Require Import ZArith QArith String Ascii List Bool Lia DecimalString.
From stdpp Require Import base list strings gmap.

Open Scope string_scope.
Open Scope list_scope.
Open Scope Z_scope.
Open Scope nat_scope.

(** ** Python results and exceptions *)

Module Py.

Inductive exn_class :=
| AttributeError | NameError | ValueError | KeyError | TypeError
| OverflowError | InvalidIndexError | MergeError.

Record exn := Exn { exn_cls : exn_class; exn_msg : string }.

Inductive result (A : Type) :=
| Ok (a : A)
| Raise (e : exn).
Arguments Ok {A} a.
Arguments Raise {A} e.

Definition bind {A B} (c : result A) (k : A -> result B) : result B :=
  match c with
  | Ok a => k a
  | Raise e => Raise e
  end.

(** [not xs] for a list *)
Definition is_nil {A} (xs : list A) : bool :=
  match xs with [] => true | _ :: _ => false end.

(** [for x in xs: acc = body(acc, x)], stopping at the first raise. *)
Fixpoint for_each {A S} (xs : list A) (body : S -> A -> result S) (acc : S)
  : result S :=
  match xs with
  | [] => Ok acc
  | x :: rest =>
      match body acc x with
      | Ok acc' => for_each rest body acc'
      | Raise e => Raise e
      end
  end.

(** [str(n)] for a non-negative integer. *)
Definition str_of_nat (n : nat) : string :=
  NilEmpty.string_of_uint (Nat.to_uint n).

(** The built-in [set] type: the attributes a set object has.  A loop
    over a set visits its [elements], in an order that is fixed but
    not that of insertion. *)
Definition set_attributes : list string :=
  [ "add"; "clear"; "copy"; "difference"; "difference_update"; "discard";
    "intersection"; "intersection_update"; "isdisjoint"; "issubset";
    "issuperset"; "pop"; "remove"; "symmetric_difference";
    "symmetric_difference_update"; "union"; "update" ].

Definition pyset : Type := gset string.

Definition set_add (x : string) (s : pyset) : pyset := {[x]} ∪ s.

(** [s.<attr>(x)] on a set [s], for the one-argument call the source
    makes: attribute lookup comes first and raises [AttributeError]
    for a name a set does not have; [add] inserts. *)
Definition set_call1 (attr : string) (s : pyset) (x : string)
  : result pyset :=
  if existsb (String.eqb attr) set_attributes then
    if String.eqb attr "add" then Ok (set_add x s)
    else Raise (Exn TypeError
                  ("set." +:+ attr +:+ "() called with one string argument"))
  else
    Raise (Exn AttributeError
             ("'set' object has no attribute '" +:+ attr +:+ "'")).

End Py.

Export Py.
Notation "'let*' x ':=' c 'in' k" := (Py.bind c (fun x => k))
  (at level 10, x pattern, c at level 99, k at level 200).

(** ** Python string operations and the regular expressions of area.py *)

Module PyStr.

(** [s.startswith(p)] *)
Fixpoint startswith (p s : string) : bool :=
  match p, s with
  | EmptyString, _ => true
  | String a p', String b s' => Ascii.eqb a b && startswith p' s'
  | String _ _, EmptyString => false
  end.

(** [sub in s] *)
Fixpoint contains (sub s : string) : bool :=
  startswith sub s ||
  match s with
  | EmptyString => false
  | String _ s' => contains sub s'
  end.

(** [s[n:]] *)
Fixpoint slice_from (n : nat) (s : string) : string :=
  match n, s with
  | O, _ => s
  | S n', String _ s' => slice_from n' s'
  | S _, EmptyString => EmptyString
  end.

(** The payload of a continuation byte [10xxxxxx] of UTF-8. *)
Definition continuation (c : ascii) : option N :=
  let n := N_of_ascii c in
  if ((128 <=? n) && (n <? 192))%N then Some (n - 128)%N else None.

(** The first character of [s], as its code point, and what follows
    it. *)
Definition decode_utf8 (s : string) : option (N * string) :=
  match s with
  | EmptyString => None
  | String a r =>
      let n := N_of_ascii a in
      if (n <? 128)%N then Some (n, r)
      else if (n <? 192)%N then None
      else if (n <? 224)%N then
        match r with
        | String b r1 =>
            match continuation b with
            | Some x => Some (((n - 192) * 64 + x)%N, r1)
            | None => None
            end
        | EmptyString => None
        end
      else if (n <? 240)%N then
        match r with
        | String b (String c r2) =>
            match continuation b, continuation c with
            | Some x, Some y =>
                Some ((((n - 224) * 64 + x) * 64 + y)%N, r2)
            | _, _ => None
            end
        | _ => None
        end
      else if (n <? 248)%N then
        match r with
        | String b (String c (String d r3)) =>
            match continuation b, continuation c, continuation d with
            | Some x, Some y, Some z =>
                Some (((((n - 240) * 64 + x) * 64 + y) * 64 + z)%N, r3)
            | _, _, _ => None
            end
        | _ => None
        end
      else None
  end.

(** The decimal digits of Unicode 14.0 (category Nd, what [\d] matches
    in a [str] pattern and [int] reads) come in 66 runs of ten, zero to
    nine: the code points of the zeros. *)
Definition decimal_zeros : list N :=
  [ 48; 1632; 1776; 1984; 2406; 2534; 2662; 2790; 2918; 3046; 3174;
    3302; 3430; 3558; 3664; 3792; 3872; 4160; 4240; 6112; 6160; 6470;
    6608; 6784; 6800; 6992; 7088; 7232; 7248; 42528; 43216; 43264;
    43472; 43504; 43600; 44016; 65296; 66720; 68912; 69734; 69872;
    69942; 70096; 70384; 70736; 70864; 71248; 71360; 71472; 71904;
    72016; 72784; 73040; 73120; 92768; 92864; 93008; 120782; 120792;
    120802; 120812; 120822; 123200; 123632; 125264; 130032 ]%N.

(** The value of a decimal digit. *)
Definition decimal_value (cp : N) : option N :=
  match List.find (fun z => ((z <=? cp) && (cp <? z + 10))%N) decimal_zeros with
  | Some z => Some (cp - z)%N
  | None => None
  end.

(** [\d] matched at the start of [s]: the digit's value, and what
    follows the digit. *)
Definition digit_here (s : string) : option (N * string) :=
  match decode_utf8 s with
  | Some (cp, rest) =>
      match decimal_value cp with
      | Some v => Some (v, rest)
      | None => None
      end
  | None => None
  end.

(** [\d*] matched at the start of [s]: the values of the digits of the
    longest run, and what follows it.  Every digit takes a byte at
    least, so [fuel] as large as the length of [s] is enough. *)
Fixpoint span_digits_upto (fuel : nat) (s : string) : list N * string :=
  match fuel with
  | O => ([], s)
  | S fuel' =>
      match digit_here s with
      | Some (v, rest) =>
          let '(ds, r) := span_digits_upto fuel' rest in (v :: ds, r)
      | None => ([], s)
      end
  end.

Definition span_digits (s : string) : list N * string :=
  span_digits_upto (String.length s) s.

(** [AREA(\d+)] matched at the start of [s]: the digits of the group,
    and what follows the match. *)
Definition match_area_here (s : string) : option (list N * string) :=
  if startswith "AREA" s then
    match span_digits (slice_from 4 s) with
    | ([], _) => None
    | (ds, rest) => Some (ds, rest)
    end
  else None.

(** [re.search(r'AREA\d+', s)] is not [None]. *)
Fixpoint re_search_area (s : string) : bool :=
  match match_area_here s with
  | Some _ => true
  | None =>
      match s with
      | EmptyString => false
      | String _ s' => re_search_area s'
      end
  end.

(** [re.search(r'AREA(\d+)', s)]: the digits of group 1 of the leftmost
    match. *)
Fixpoint re_extract_area (s : string) : option (list N) :=
  match match_area_here s with
  | Some (ds, _) => Some ds
  | None =>
      match s with
      | EmptyString => None
      | String _ s' => re_extract_area s'
      end
  end.

(** [re.sub(r'AREA\d+', '', s)]: every match, left to right, is
    removed.  [skip] counts the bytes of the current match that are
    still to be dropped. *)
Fixpoint re_sub_area_from (skip : nat) (s : string) : string :=
  match s with
  | EmptyString => EmptyString
  | String c s' =>
      match skip with
      | S k => re_sub_area_from k s'
      | O =>
          match match_area_here s with
          | Some (_, rest) =>
              re_sub_area_from (String.length s' - String.length rest) s'
          | None => String c (re_sub_area_from 0 s')
          end
      end
  end.

Definition re_sub_area (s : string) : string := re_sub_area_from 0 s.

(** [re.sub(r'_\d+$', '', s)].  Without [re.MULTILINE], [$] matches at
    the end of the string and just before a newline that ends it: the
    match is an underscore whose digits run up to there, and what is
    left after it is nothing or that newline. *)
Fixpoint re_sub_trailing_number (s : string) : string :=
  match s with
  | EmptyString => EmptyString
  | String c s' =>
      if Ascii.eqb c "_" then
        match span_digits s' with
        | (_ :: _, EmptyString) => EmptyString
        | (_ :: _, String "010" EmptyString) => String "010" EmptyString
        | _ => String c (re_sub_trailing_number s')
        end
      else String c (re_sub_trailing_number s')
  end.

(** [s.replace('__', '_')] *)
Fixpoint replace_double_underscore (s : string) : string :=
  match s with
  | String a (String b rest as t) =>
      if Ascii.eqb a "_" && Ascii.eqb b "_"
      then String "_" (replace_double_underscore rest)
      else String a (replace_double_underscore t)
  | _ => s
  end.

(** [s.split(sep)] for a one-character separator. *)
Fixpoint split (sep : ascii) (s : string) : list string :=
  match s with
  | EmptyString => [EmptyString]
  | String c s' =>
      if Ascii.eqb c sep then EmptyString :: split sep s'
      else
        match split sep s' with
        | h :: t => String c h :: t
        | [] => [String c EmptyString]
        end
  end.

(** [int(d)] for a string of decimal digits, given by their values. *)
Definition int_of_digits (ds : list N) : Z :=
  fold_left (fun acc d => (10 * acc + Z.of_N d)%Z) ds 0%Z.

Definition lower_ascii (c : ascii) : ascii :=
  let n := nat_of_ascii c in
  if (65 <=? n) && (n <=? 90) then ascii_of_nat (n + 32) else c.

(** The characters beyond its own two cases that an ASCII letter
    matches under [re.IGNORECASE] in a [str] pattern: U+0130 and U+0131
    for [i], U+017F for [s], U+212A for [k]. *)
Definition ignorecase_extra (p : ascii) : list string :=
  let l := lower_ascii p in
  if Ascii.eqb l "i" then
    [ String "196" (String "176" EmptyString);
      String "196" (String "177" EmptyString) ]
  else if Ascii.eqb l "s" then
    [ String "197" (String "191" EmptyString) ]
  else if Ascii.eqb l "k" then
    [ String "226" (String "132" (String "170" EmptyString)) ]
  else [].

(** What is left of [s] after its prefix [p], when it has it. *)
Fixpoint strip_prefix (p s : string) : option string :=
  match p, s with
  | EmptyString, _ => Some s
  | String a p', String b s' =>
      if Ascii.eqb a b then strip_prefix p' s' else None
  | String _ _, EmptyString => None
  end.

(** One ASCII letter or digit [p] of a pattern compiled with
    [re.IGNORECASE], matched at the start of [s]: what follows the
    character it matched. *)
Definition match_char_nocase (p : ascii) (s : string) : option string :=
  match s with
  | EmptyString => None
  | String c rest =>
      if Ascii.eqb (lower_ascii c) (lower_ascii p) then Some rest
      else
        match omap (fun alt => strip_prefix alt s) (ignorecase_extra p) with
        | r :: _ => Some r
        | [] => None
        end
  end.

(** [re.match(p, s, re.IGNORECASE)] is not [None], for a pattern of
    ASCII letters and digits. *)
Fixpoint startswith_nocase (p s : string) : bool :=
  match p with
  | EmptyString => true
  | String a p' =>
      match match_char_nocase a s with
      | Some rest => startswith_nocase p' rest
      | None => false
      end
  end.

(** [re.search(p, s, re.IGNORECASE)] is not [None], for such a
    pattern. *)
Fixpoint search_nocase (p s : string) : bool :=
  startswith_nocase p s ||
  match s with
  | EmptyString => false
  | String _ s' => search_nocase p s'
  end.

(** [', '.join(xs)] and the like. *)
Fixpoint join (sep : string) (xs : list string) : string :=
  match xs with
  | [] => EmptyString
  | [x] => x
  | x :: rest => x +:+ sep +:+ join sep rest
  end.

End PyStr.

(** ** pandas: cells, frames and the operations the two modules call

    The operations follow pandas 2.x.  A label is looked up at its first
    occurrence; where the source would meet a repeated label in a way
    that matters ([data["MODULE"]], the merge key) the repetition is
    tested and the error pandas gives is raised. *)

Module Pd.

#[warnings="-register-all"]
Inductive value :=
| VNull                      (* None / NaN *)
| VInt (z : Z)
| VFloat (q : Q)
| VStr (s : string)
| VList (l : list value).

Definition Q_eqb (a b : Q) : bool :=
  Z.eqb (Qnum a) (Qnum b) && Pos.eqb (Qden a) (Qden b).

Fixpoint value_eqb (a b : value) : bool :=
  match a, b with
  | VNull, VNull => true
  | VInt x, VInt y => Z.eqb x y
  | VFloat x, VFloat y => Q_eqb x y
  | VStr x, VStr y => String.eqb x y
  | VList x, VList y =>
      (fix all2 (x y : list value) : bool :=
         match x, y with
         | [], [] => true
         | h :: t, h' :: t' => value_eqb h h' && all2 t t'
         | _, _ => false
         end) x y
  | _, _ => false
  end.

Definition is_null (v : value) : bool :=
  match v with VNull => true | _ => false end.

(** A frame: the column labels in order, and the rows, each a list of
    cells in column order.  A frame without columns still has its
    rows (the length of its index). *)
Record DataFrame := Frame { columns : list string; rows : list (list value) }.

Definition mem (x : string) (xs : list string) : bool :=
  existsb (String.eqb x) xs.

Definition count_label (x : string) (xs : list string) : nat :=
  length (List.filter (String.eqb x) xs).

(** [xs.duplicated()]: true at every occurrence but the first. *)
Fixpoint duplicated_from (seen xs : list string) : list bool :=
  match xs with
  | [] => []
  | x :: rest => mem x seen :: duplicated_from (x :: seen) rest
  end.
Definition duplicated (xs : list string) : list bool := duplicated_from [] xs.

Definition is_unique (xs : list string) : bool :=
  negb (existsb (fun b => b) (duplicated xs)).

(** First-seen order, repetitions removed. *)
Fixpoint unique_from (seen xs : list string) : list string :=
  match xs with
  | [] => []
  | x :: rest =>
      if mem x seen then unique_from seen rest
      else x :: unique_from (x :: seen) rest
  end.
Definition unique (xs : list string) : list string := unique_from [] xs.

Definition labels_eqb (a b : list string) : bool :=
  (length a =? length b) && forallb (fun p => String.eqb (fst p) (snd p)) (combine a b).

(** Position of the first column labelled [name]. *)
Fixpoint position (name : string) (cols : list string) : option nat :=
  match cols with
  | [] => None
  | c :: rest =>
      if String.eqb name c then Some 0
      else option_map S (position name rest)
  end.

Definition cell (i : nat) (row : list value) : value := nth i row VNull.

(** [df.empty] *)
Definition empty (df : DataFrame) : bool :=
  match columns df, rows df with
  | [], _ | _, [] => true
  | _, _ => false
  end.

(** [df[name]] *)
Definition getitem (df : DataFrame) (name : string) : result (list value) :=
  match position name (columns df) with
  | Some i => Ok (map (cell i) (rows df))
  | None => Raise (Exn KeyError ("'" +:+ name +:+ "'"))
  end.

(** [df[names]] for a list of labels, on a frame whose labels are
    distinct: one column per name.  (Of a label that several columns
    carry pandas takes all of them.) *)
Definition select (df : DataFrame) (names : list string) : result DataFrame :=
  let* idx :=
    for_each names
      (fun acc name =>
         match position name (columns df) with
         | Some i => Ok (acc ++ [i])
         | None => Raise (Exn KeyError ("['" +:+ name +:+ "'] not in index"))
         end) [] in
  Ok (Frame names (map (fun row => map (fun i => cell i row) idx) (rows df))).

(** [df[mask]] for a boolean series *)
Definition mask_rows (mask : list bool) (df : DataFrame) : DataFrame :=
  Frame (columns df)
        (map snd (List.filter fst (combine mask (rows df)))).

Definition keep_cells {A} (keep : list bool) (xs : list A) : list A :=
  map snd (List.filter fst (combine keep xs)).

(** [df.drop(columns=names, errors='ignore')] *)
Definition drop_columns (names : list string) (df : DataFrame) : DataFrame :=
  let keep := map (fun c => negb (mem c names)) (columns df) in
  Frame (keep_cells keep (columns df)) (map (keep_cells keep) (rows df)).

(** [df.rename(columns=d)] *)
Definition rename_columns (d : gmap string string) (df : DataFrame) : DataFrame :=
  Frame (map (fun c => default c (d !! c)) (columns df)) (rows df).

(** [df[name] = v] for a scalar [v]: every column labelled [name] is
    overwritten; without one, a column is appended. *)
Definition assign_const (name : string) (v : value) (df : DataFrame) : DataFrame :=
  if mem name (columns df) then
    Frame (columns df)
          (map (fun row =>
                  map (fun p => if String.eqb (fst p) name then v else snd p)
                      (combine (columns df) row))
               (rows df))
  else
    Frame (columns df ++ [name]) (map (fun row => row ++ [v]) (rows df)).

(** [df[name] = vals] for a series of the frame's length. *)
Definition assign_column (name : string) (vals : list value) (df : DataFrame)
  : DataFrame :=
  if mem name (columns df) then
    Frame (columns df)
          (map (fun rv =>
                  map (fun p => if String.eqb (fst p) name then snd rv else snd p)
                      (combine (columns df) (fst rv)))
               (combine (rows df) vals))
  else
    Frame (columns df ++ [name])
          (map (fun rv => fst rv ++ [snd rv]) (combine (rows df) vals)).

(** [df.loc[mask, name] = v] for an existing column [name] *)
Definition assign_where (mask : list bool) (name : string) (v : value)
  (df : DataFrame) : DataFrame :=
  Frame (columns df)
        (map (fun mr : bool * list value =>
                if fst mr then
                  map (fun p => if String.eqb (fst p) name then v else snd p)
                      (combine (columns df) (snd mr))
                else snd mr)
             (combine mask (rows df))).

Definition remove_at {A} (i : nat) (xs : list A) : list A :=
  firstn i xs ++ skipn (S i) xs.

Definition requires_unique_msg : string :=
  "Reindexing only valid with uniquely valued Index objects".

(** The suffix [sfx] put on the labels of [cols] that [other] has
    too. *)
Definition suffix_labels (sfx : string) (other cols : list string)
  : list string :=
  map (fun c => if mem c other then c +:+ sfx else c) cols.

(** A label of [new] repeats an earlier one where the label of [old] at
    that place did not. *)
Definition made_duplicate (old new : list string) : bool :=
  existsb (fun p : bool * bool => fst p && negb (snd p))
          (combine (duplicated new) (duplicated old)).

(** Every left row beside every right row with the same key, the right
    key cell left out. *)
Definition join_rows (i j : nat) (lrows rrows : list (list value))
  : list (list value) :=
  flat_map
    (fun lr =>
       map (fun rr => lr ++ remove_at j rr)
           (List.filter (fun rr => value_eqb (cell i lr) (cell j rr)) rrows))
    lrows.

(** [pd.merge(left, right, on=key, how='inner')].  The key must label
    exactly one column on each side.  The right key column is dropped;
    a label both sides share gets the suffixes [_x] and [_y], and a
    repetition that the suffixes create is a [MergeError].  A left row
    is paired with every right row that has its key, NaN matching
    NaN. *)
Definition merge_inner (key : string) (left right : DataFrame)
  : result DataFrame :=
  match position key (columns left), position key (columns right) with
  | Some i, Some j =>
      if (1 <? count_label key (columns left))
         || (1 <? count_label key (columns right)) then
        Raise (Exn ValueError
                 ("The column label '" +:+ key +:+ "' is not unique."))
      else
        let rcols := remove_at j (columns right) in
        let lnew := suffix_labels "_x" rcols (columns left) in
        let rnew := suffix_labels "_y" (columns left) rcols in
        if made_duplicate (columns left) lnew || made_duplicate rcols rnew then
          Raise (Exn MergeError
                   "Passing 'suffixes' which cause duplicate columns is not allowed.")
        else
          Ok (Frame (lnew ++ rnew) (join_rows i j (rows left) (rows right)))
  | _, _ => Raise (Exn KeyError ("'" +:+ key +:+ "'"))
  end.

(** A frame's rows laid out on the columns [cols] (NaN where the frame
    has no such column). *)
Definition reindex_columns (cols : list string) (df : DataFrame)
  : list (list value) :=
  map (fun row =>
         map (fun c =>
                match position c (columns df) with
                | Some i => cell i row
                | None => VNull
                end) cols)
      (rows df).

(** [pd.concat(dfs, ignore_index=True)], rows under rows.  When the
    frames do not all have the same columns, the result has the
    columns of all of them in first-seen order and each frame is laid
    out on them, which pandas refuses for a frame with a repeated
    label. *)
Definition concat_rows (dfs : list DataFrame) : result DataFrame :=
  match dfs with
  | [] => Raise (Exn ValueError "No objects to concatenate")
  | first :: others =>
      if forallb (fun d => labels_eqb (columns first) (columns d)) others then
        Ok (Frame (columns first) (flat_map rows dfs))
      else
        let cols := unique (flat_map columns dfs) in
        let* parts :=
          for_each dfs
            (fun acc d =>
               if labels_eqb cols (columns d) then Ok (acc ++ rows d)
               else if is_unique (columns d)
                    then Ok (acc ++ reindex_columns cols d)
                    else Raise (Exn InvalidIndexError requires_unique_msg))
            [] in
        Ok (Frame cols parts)
  end.

End Pd.

(** ** area.py *)

Module Area.
Import Pd PyStr.

(** The index of a per-metric frame: (WAFER_ID, AREA) pairs. *)
Definition key : Type := value * Z.

Definition key_eqb (a b : key) : bool :=
  value_eqb (fst a) (fst b) && Z.eqb (snd a) (snd b).

Definition key_mem (k : key) (idx : list key) : bool := existsb (key_eqb k) idx.

Definition key_count (k : key) (idx : list key) : nat :=
  length (List.filter (key_eqb k) idx).

Fixpoint index_unique_from (seen idx : list key) : list key :=
  match idx with
  | [] => []
  | k :: rest =>
      if key_mem k seen then index_unique_from seen rest
      else k :: index_unique_from (k :: seen) rest
  end.
Definition index_unique (idx : list key) : list key := index_unique_from [] idx.

Definition has_duplicates (idx : list key) : bool :=
  negb (length (index_unique idx) =? length idx).

Definition index_eqb (a b : list key) : bool :=
  (length a =? length b) && forallb (fun p => key_eqb (fst p) (snd p)) (combine a b).

(** [self.union(other, sort=False)] on a MultiIndex: equal or empty
    operands are answered at once; an [other] without repetition
    appends what [self] lacks; otherwise every key is repeated as
    often as in the operand that has it most, in first-seen order. *)
Definition index_union (self other : list key) : list key :=
  if is_nil other || index_eqb self other then self
  else if is_nil self then other
  else if has_duplicates other then
    flat_map (fun k => repeat k (Nat.max (key_count k self) (key_count k other)))
             (index_unique (self ++ other))
  else self ++ List.filter (fun k => negb (key_mem k self)) other.

(** [melted.set_index(['WAFER_ID', 'AREA'])[[metric]]] *)
Record MetricFrame := MkMetric
  { mf_name : string; mf_index : list key; mf_values : list value }.

(** The frame [pd.concat(..., axis=1)] gives, before [reset_index]. *)
Record Combined := MkCombined
  { cb_index : list key; cb_columns : list (string * list value) }.

(** line 5 *)
Definition area_columns (df : DataFrame) : list string :=
  List.filter re_search_area (columns df).

(** line 6 *)
Definition other_columns (df : DataFrame) : list string :=
  List.filter (fun col => negb (mem col (area_columns df))) (columns df).

(** lines 17-18 *)
Definition metric_of (col : string) : string :=
  replace_double_underscore (re_sub_area (re_sub_trailing_number col)).

(** lines 14-19: [metrics = set()], then for every zone column
    [metrics.append(metric)]. *)
Definition collect_metrics (area_col : list string) : result pyset :=
  for_each area_col
    (fun metrics col => set_call1 "append" metrics (metric_of col)) ∅.

(** lines 24-31 *)
Definition metric_columns (area_col : list string) (metric : string)
  : list string :=
  let metric_find := split "_" metric in
  let metric_polish :=
    match metric_find with p :: _ => p | [] => EmptyString end in
  let metric_para :=
    if 0 <? String.length metric_polish
    then slice_from (String.length metric_polish + 1) metric
    else metric in
  if contains "AB_PRS" metric_para then
    List.filter
      (fun col => contains metric_polish col && contains "AB_PRS" col
                  && negb (contains "IL" col))
      area_col
  else
    List.filter
      (fun col => contains metric_polish col && contains metric_para col)
      area_col.

Definition int64_max : Z := 9223372036854775807.

(** [sys.get_int_max_str_digits()], as Python 3.11 starts with it. *)
Definition int_max_str_digits : nat := 4300.

(** line 42 for one melted row: the zone number of its source column.
    The cast reads the digits as a Python [int], which refuses more
    digits than the limit, and stores it as an int64. *)
Definition area_of_column (col : string) : result Z :=
  match re_extract_area col with
  | Some d =>
      if int_max_str_digits <? length d then
        Raise (Exn ValueError
                 ("Exceeds the limit (4300 digits) for integer string conversion: value has "
                  +:+ str_of_nat (length d)
                  +:+ " digits; use sys.set_int_max_str_digits() to increase the limit"))
      else
        let z := int_of_digits d in
        if (z <=? int64_max)%Z then Ok z
        else Raise (Exn OverflowError "Python int too large to convert to C long")
  | None => Raise (Exn ValueError "cannot convert float NaN to integer")
  end.

(** lines 36-44: melt the metric's columns beside WAFER_ID, one row
    per (source column, input row), column after column; key each row
    by (WAFER_ID, AREA) and keep the value. *)
Definition melt_metric (df : DataFrame) (metric : string)
  (metric_cols : list string) : result MetricFrame :=
  let* sub := select df (metric_cols ++ ["WAFER_ID"]) in
  if mem metric (columns sub) then
    Raise (Exn ValueError
             ("value_name (" +:+ metric
              +:+ ") cannot match an element in the DataFrame columns."))
  else if String.eqb metric "original_col" then
    Raise (Exn AttributeError "'DataFrame' object has no attribute 'str'")
  else
    let wafer_at := length metric_cols in
    let* melted :=
      for_each metric_cols
        (fun acc col =>
           let* area := area_of_column col in
           let* vals := getitem sub col in
           Ok (acc ++ map (fun p => ((cell wafer_at (fst p), area), snd p))
                          (combine (rows sub) vals)))
        [] in
    if String.eqb metric "AREA" then
      Raise (Exn KeyError "None of [Index(['AREA'])] are in the [columns]")
    else Ok (MkMetric metric (map fst melted) (map snd melted)).

(** lines 21-46 *)
Definition melt_all (df : DataFrame) (area_col : list string) (metrics : pyset)
  : result (list MetricFrame) :=
  for_each (elements metrics)
    (fun dfs_to_concat metric =>
       match metric_columns area_col metric with
       | [] => Ok dfs_to_concat
       | metric_cols =>
           let* melted := melt_metric df metric metric_cols in
           Ok (dfs_to_concat ++ [melted])
       end)
    [].

Definition lookup_key (k : key) (m : MetricFrame) : value :=
  match List.filter (fun p => key_eqb k (fst p))
                    (combine (mf_index m) (mf_values m)) with
  | p :: _ => snd p
  | [] => VNull
  end.

(** [pd.concat(frames, axis=1)]: the frames side by side on the union
    of their indexes.  A frame whose index is not that union is laid
    out on it, which pandas refuses when the frame's own index has a
    repeated key. *)
Definition concat_axis1 (frames : list MetricFrame) : result Combined :=
  match frames with
  | [] => Raise (Exn ValueError "No objects to concatenate")
  | first :: others =>
      let idx := fold_left index_union (map mf_index others) (mf_index first) in
      let* cols :=
        for_each frames
          (fun acc m =>
             if index_eqb idx (mf_index m) then
               Ok (acc ++ [(mf_name m, mf_values m)])
             else if has_duplicates (mf_index m) then
               Raise (Exn InvalidIndexError requires_unique_msg)
             else
               Ok (acc ++ [(mf_name m, map (fun k => lookup_key k m) idx)]))
          [] in
      Ok (MkCombined idx cols)
  end.

(** [.reset_index()]: the two index levels become the first columns. *)
Definition reset_index (c : Combined) : result DataFrame :=
  let names := map fst (cb_columns c) in
  if mem "AREA" names then
    Raise (Exn ValueError "cannot insert AREA, already exists")
  else if mem "WAFER_ID" names then
    Raise (Exn ValueError "cannot insert WAFER_ID, already exists")
  else
    Ok (Frame ("WAFER_ID" :: "AREA" :: names)
          (imap (fun i k =>
                   fst k :: VInt (snd k)
                   :: map (fun col => cell i (snd col)) (cb_columns c))
                (cb_index c))).

(** [d.copy()] *)
Definition copy (m : MetricFrame) : MetricFrame := m.

(** [pd.concat(frames, axis=1).reset_index()] *)
Definition concat_reset (frames : list MetricFrame) : result DataFrame :=
  let* c := concat_axis1 frames in reset_index c.

(** lines 52-56: the lists of frames handed to [pd.concat], call after
    call, beside [area_data] or the exception that leaves the [try]
    statement. *)
Definition combine_metrics_calls (dfs_to_concat : list MetricFrame)
  : list (list MetricFrame) * result DataFrame :=
  match concat_reset dfs_to_concat with
  | Ok area_data => ([dfs_to_concat], Ok area_data)
  | Raise _ =>
      let dfs_clean := map copy dfs_to_concat in
      ([dfs_to_concat; dfs_clean], concat_reset dfs_clean)
  end.

(** lines 52-56: [area_data], or the exception. *)
Definition combine_metrics (dfs_to_concat : list MetricFrame)
  : result DataFrame :=
  snd (combine_metrics_calls dfs_to_concat).

Definition indicator (i : nat) : string := "AREA" +:+ str_of_nat i.

(** [series == i] for an integer [i] *)
Definition equals_int (i : nat) (v : value) : bool :=
  match v with
  | VInt z => Z.eqb z (Z.of_nat i)
  | VFloat q => Qeq_bool q (inject_Z (Z.of_nat i))
  | _ => false
  end.

(** lines 61-62 *)
Definition init_indicators (df : DataFrame) : DataFrame :=
  fold_left (fun d i => assign_const (indicator i) (VInt 0) d) (seq 1 8) df.

(** lines 64-65 *)
Definition mark_indicators (df : DataFrame) : result DataFrame :=
  for_each (seq 1 8)
    (fun d i =>
       let* area := getitem d "AREA" in
       Ok (assign_where (map (equals_int i) area) (indicator i) (VInt 1) d))
    df.

(** lines 21-67: the function from the metrics on. *)
Definition reshape (df : DataFrame) (area_col other_col : list string)
  (metrics : pyset) : list string * result DataFrame :=
  match melt_all df area_col metrics with
  | Raise e => ([], Raise e)
  | Ok [] => (["划分失败"], Ok df)
  | Ok dfs_to_concat =>
      ([],
       let* area_data := combine_metrics dfs_to_concat in
       let* other_data := select df other_col in
       let* merged := merge_inner "WAFER_ID" area_data other_data in
       mark_indicators (init_indicators merged))
  end.

(** [split_zone_data_x(df)]: what it prints, and what it returns or
    raises. *)
Definition split_zone_data_x (df : DataFrame) : list string * result DataFrame :=
  let area_col := area_columns df in
  let other_col := other_columns df in
  if is_nil area_col then (["无AREA相关列"], Ok df)
  else
    let found :=
      "找到" +:+ str_of_nat (length area_col) +:+ "个AREA相关列，开始划分ZONE" in
    match collect_metrics area_col with
    | Raise e => ([found], Raise e)
    | Ok metrics =>
        let '(printed, r) := reshape df area_col other_col metrics in
        (found :: printed, r)
    end.

End Area.

(** ** rename.py *)

Module Rename.
Import Pd PyStr.

(** *** Logging: the records a call hands to [logger] *)

Inductive level := DEBUG | INFO | WARNING | ERROR.

Definition log_record : Type := level * string.

(** A computation that logs and then returns or raises. *)
Definition logged (A : Type) : Type := list log_record * result A.

Definition ret {A} (a : A) : logged A := ([], Ok a).

Definition log (lv : level) (msg : string) : logged unit := ([(lv, msg)], Ok tt).

Definition lift {A} (r : result A) : logged A := ([], r).

Definition and_then {A B} (c : logged A) (k : A -> logged B) : logged B :=
  match c with
  | (l, Ok a) => let '(l', r) := k a in (l ++ l', r)
  | (l, Raise e) => (l, Raise e)
  end.

Notation "'run' x ':=' c 'in' k" := (and_then c (fun x => k))
  (at level 10, x pattern, c at level 99, k at level 200).

(** *** The parameter-mapping table [para_info] *)

(** One row of [para_info]; [None] is a null field. *)
Record para_row := ParaRow
  { PARA_NAME_WITH_CODE : option string;
    FROM_SRC_FIELD : option string;
    PARA_NAME : option string }.

Definition para_table : Type := list para_row.

(** [series.str.contains(pat, na=False)] on one field, for a pattern
    without regex metacharacters. *)
Definition str_contains (pat : string) (field : option string) : bool :=
  match field with
  | Some s => contains pat s
  | None => false
  end.

(** [series.notna()] on one field *)
Definition notna (field : option string) : bool :=
  match field with Some _ => true | None => false end.

(** [dict(zip(keys, values))]: a later pair replaces an earlier one
    with the same key. *)
Definition dict_of_pairs (pairs : list (string * string)) : gmap string string :=
  fold_left (fun d p => <[fst p := snd p]> d) pairs ∅.

(** lines 150-153 (with ['P1_']) and 177-180 (with ['P2_']) *)
Definition build_rename_dict (marker : string) (para_info : para_table)
  : gmap string string :=
  let mapping :=
    List.filter (fun r => str_contains marker (PARA_NAME_WITH_CODE r)) para_info in
  let mapping :=
    List.filter (fun r => notna (FROM_SRC_FIELD r)) mapping in
  dict_of_pairs
    (omap (fun r =>
             match FROM_SRC_FIELD r, PARA_NAME_WITH_CODE r with
             | Some src, Some name => Some (src, name)
             | _, _ => None
             end) mapping).

(** [self.base_col] *)
Definition base_col : list string :=
  [ "PROC_EQP"; "PRODUCT"; "RECIPE";
    "PRE_GLB_RAW_VALUE"; "PST_GLB_RAW_VALUE";
    "PRE_M1_TIME"; "PST_M1_TIME";
    "LOT_ID"; "X_TIME"; "LOT" ].

(** The names bound in the module's global scope: what lines 2-7
    import or assign, and the class itself. *)
Definition module_globals : list string :=
  [ "Dict"; "Any"; "pd"; "get_logger"; "BaseMapper"; "MapperFactory";
    "logger"; "ColumnRenameMapper" ].

(** Evaluating a global name that is not a builtin. *)
Definition lookup_global (name : string) : result unit :=
  if mem name module_globals then Ok tt
  else Raise (Exn NameError ("name '" +:+ name +:+ "' is not defined")).

Definition str_of_Z (z : Z) : string := NilZero.string_of_int (Z.to_int z).

Definition hex_digit (n : nat) : ascii :=
  nth n [ "0"; "1"; "2"; "3"; "4"; "5"; "6"; "7"; "8"; "9";
          "a"; "b"; "c"; "d"; "e"; "f" ]%char "0"%char.

(** One byte of a string inside its [repr] between the quotes [quote]:
    the backslash, the quote and the control characters of ASCII are
    escaped.  A byte of a character beyond ASCII is kept, as [repr]
    keeps the printable ones among those characters. *)
Definition repr_byte (quote c : ascii) : string :=
  let n := nat_of_ascii c in
  if Ascii.eqb c "\" then "\\"
  else if Ascii.eqb c quote then String "\" (String c EmptyString)
  else if n =? 9 then "\t"
  else if n =? 10 then "\n"
  else if n =? 13 then "\r"
  else if (n <? 32) || (n =? 127) then
    "\x" +:+ String (hex_digit (n / 16)) (String (hex_digit (n mod 16)) EmptyString)
  else String c EmptyString.

(** [repr(s)]: between single quotes, unless [s] has a single quote
    and no double quote. *)
Definition py_repr (s : string) : string :=
  let double := "034"%char in
  let quote :=
    if contains "'" s && negb (contains (String double EmptyString) s)
    then double else "'"%char in
  String quote
    (String.concat EmptyString (map (repr_byte quote) (list_ascii_of_string s))
     +:+ String quote EmptyString).

(** [str(v)] of a cell.  The text of a float is not modelled digit by
    digit. *)
Fixpoint py_str (v : value) : string :=
  match v with
  | VNull => "nan"
  | VInt z => str_of_Z z
  | VFloat q => str_of_Z (Qnum q) +:+ "/" +:+ str_of_Z (Zpos (Qden q))
  | VStr s => s
  | VList l =>
      "[" +:+ join ", "
                (map (fun x => match x with
                               | VStr s => py_repr s
                               | _ => py_str x
                               end) l)
      +:+ "]"
  end.

(** [series.fillna(fill)] on one cell *)
Definition fillna (fill : value) (v : value) : value :=
  if is_null v then fill else v.

(** [series.str.contains(pat, case=False, na=False)] on one string:
    [pat] is compiled as a regular expression with [re.IGNORECASE] and
    searched for; the patterns of the code are ASCII letters. *)
Definition contains_nocase (pat s : string) : bool :=
  search_nocase pat s.

(** The [.str] accessor is refused on a series of numbers only. *)
Definition is_number (v : value) : bool :=
  match v with VInt _ | VFloat _ => true | _ => false end.

Definition str_accessor (col : list value) : result (list value) :=
  if negb (is_nil col) && forallb is_number col then
    Raise (Exn AttributeError "Can only use .str accessor with string values!")
  else Ok col.

(** [series.str.split(',')] on one cell: NaN for a cell that is not a
    string. *)
Definition str_split_cell (v : value) : value :=
  match v with
  | VStr s => VList (map VStr (split "," s))
  | _ => VNull
  end.

Definition Qsum (xs : list Q) : Q := fold_left Qplus xs (0 # 1)%Q.

(** [np.mean(xs)] for a non-empty list *)
Definition mean (xs : list Q) : Q :=
  Qred (Qsum xs / inject_Z (Z.of_nat (length xs)))%Q.

Section Mapper.

(** [BaseMapper.validate_input], defined in [base_mapper]. *)
Variable validate_input : DataFrame -> bool.

(** [self.para_info] *)
Variable para_info : para_table.

(** [float(s)]; [None] when it raises [ValueError]. *)
Variable py_float : string -> option Q.

(** [_rename_columns_polishAC] (marker ['P1_'], tag ["P1"]) and
    [_rename_columns_polishBD] (marker ['P2_'], tag ["P2"]).  On a
    typed mapping table nothing inside the [try] raises. *)
Definition rename_columns_with (marker tag : string) (df : DataFrame)
  : logged DataFrame :=
  if empty df || is_nil para_info then ret df
  else
    let rename_dict := build_rename_dict marker para_info in
    let df := rename_columns rename_dict df in
    run _ := log DEBUG (tag +:+ "列重命名: " +:+ str_of_nat (size rename_dict)
                        +:+ " 个列") in
    ret df.

Definition _rename_columns_polishAC := rename_columns_with "P1_" "P1".
Definition _rename_columns_polishBD := rename_columns_with "P2_" "P2".

(** lines 75-80: the rows whose module tag contains [marker]. *)
Definition module_subset (marker : string) (module_series : list string)
  (data : DataFrame) : DataFrame :=
  mask_rows (map (contains_nocase marker) module_series) data.

(** lines 104-112 and 115-123: one pairing. *)
Definition pair_modules (label : string) (left right : DataFrame)
  (result_dfs : list DataFrame) : logged (list DataFrame) :=
  if negb (empty left) && negb (empty right) then
    run merged := lift (merge_inner "WAFER_ID" left right) in
    let merged := assign_const "POLISH" (VStr label) merged in
    run _ := log INFO ("合并" +:+ label +:+ "模块: "
                       +:+ str_of_nat (length (rows merged)) +:+ " 行") in
    ret (result_dfs ++ [merged])
  else ret result_dfs.

(** [process(data)] *)
Definition process (data : DataFrame) : logged DataFrame :=
  if negb (validate_input data) then ret data
  else if negb (mem "MODULE" (columns data)) then
    run _ := log WARNING "缺少MODULE列，跳过重命名处理" in ret data
  else
    run module_col :=
      lift (if 1 <? count_label "MODULE" (columns data)
            then Raise (Exn AttributeError
                          "'DataFrame' object has no attribute 'str'")
            else getitem data "MODULE") in
    let module_series := map (fun v => py_str (fillna (VStr "") v)) module_col in
    let df_PolishA := module_subset "PolishA" module_series data in
    let df_PolishB := module_subset "PolishB" module_series data in
    let df_PolishC := module_subset "PolishC" module_series data in
    let df_PolishD := module_subset "PolishD" module_series data in
    run _ := log INFO
               ("拆分模块数据 - A:" +:+ str_of_nat (length (rows df_PolishA))
                +:+ ", B:" +:+ str_of_nat (length (rows df_PolishB))
                +:+ ", C:" +:+ str_of_nat (length (rows df_PolishC))
                +:+ ", D:" +:+ str_of_nat (length (rows df_PolishD))) in
    let df_PolishA := drop_columns ["MODULE"] df_PolishA in
    let df_PolishB := drop_columns ["MODULE"] df_PolishB in
    let df_PolishC := drop_columns ["MODULE"] df_PolishC in
    let df_PolishD := drop_columns ["MODULE"] df_PolishD in
    run df_polishA_renamed := _rename_columns_polishAC df_PolishA in
    run df_polishB_renamed := _rename_columns_polishBD df_PolishB in
    run df_polishC_renamed := _rename_columns_polishAC df_PolishC in
    run df_polishD_renamed := _rename_columns_polishBD df_PolishD in
    let df_polishB_renamed := drop_columns base_col df_polishB_renamed in
    let df_polishD_renamed := drop_columns base_col df_polishD_renamed in
    run result_dfs := pair_modules "AB" df_polishA_renamed df_polishB_renamed [] in
    run result_dfs := pair_modules "CD" df_polishC_renamed df_polishD_renamed
                        result_dfs in
    if is_nil result_dfs then
      run _ := log WARNING "没有可合并的模块数据" in ret (Frame [] [])
    else
      run merged := lift (concat_rows result_dfs) in
      run _ := log INFO ("列重命名完成，输出: ("
                         +:+ str_of_nat (length (rows merged)) +:+ ", "
                         +:+ str_of_nat (length (columns merged)) +:+ ")") in
      ret merged.

(** line 205 / 208 on one cell:
    [[float(i) for i in x if i != '']] *)
Definition parse_cell (x : value) : result value :=
  match x with
  | VList items =>
      let* floats :=
        for_each items
          (fun acc i =>
             match i with
             | VStr s =>
                 if String.eqb s "" then Ok acc
                 else match py_float s with
                      | Some q => Ok (acc ++ [VFloat (Qred q)])
                      | None =>
                          Raise (Exn ValueError
                                   ("could not convert string to float: "
                                    +:+ py_repr s))
                      end
             | _ => Raise (Exn TypeError "float() argument must be a string or a real number")
             end)
          [] in
      Ok (VList floats)
  | _ => Raise (Exn TypeError "'float' object is not iterable")
  end.

(** line 210 / 211 on one cell:
    [np.mean(x) if x else np.nan] *)
Definition mean_cell (x : value) : result value :=
  match x with
  | VList (_ :: _ as xs) =>
      let* _ := lookup_global "np" in
      Ok (VFloat (mean (omap (fun v => match v with
                                       | VFloat q => Some q
                                       | _ => None
                                       end) xs)))
  | _ =>
      let* _ := lookup_global "np" in
      Ok VNull
  end.

(** [series.apply(f)] *)
Definition apply_cells (f : value -> result value) (col : list value)
  : result (list value) :=
  for_each col (fun acc x => let* y := f x in Ok (acc ++ [y])) [].

(** line 204 / 207: [df[raw].fillna('').str.split(',')] *)
Definition split_raw (df : DataFrame) (raw : string) : result (list value) :=
  let* col :=
    if 1 <? count_label raw (columns df)
    then Raise (Exn AttributeError "'DataFrame' object has no attribute 'str'")
    else getitem df raw in
  let* col := str_accessor (map (fillna (VStr "")) col) in
  Ok (map str_split_cell col).

(** The [except] clause of [_cal_thk_from_raw_value]: [df] is the
    frame as the statements before the failure left it. *)
Definition thk_failed (e : exn) (df : DataFrame) : list log_record * DataFrame :=
  ([(ERROR, "PRE_GLB_STI_THK_70000和PST_GLB_CMP_THK_80000计算失败: "
            +:+ exn_msg e)], df).

(** [_cal_thk_from_raw_value(df)]: the records logged and the frame
    returned.  Each assignment [df[...] = ...] changes the frame in
    place, so a failure returns the frame with the assignments made
    before it. *)
Definition _cal_thk_from_raw_value (df : DataFrame)
  : list log_record * DataFrame :=
  if empty df then ([], df)
  else
    match split_raw df "PRE_GLB_RAW_VALUE" with
    | Raise e => thk_failed e df
    | Ok pre_split =>
    let df := assign_column "PRE_VALUE_LIST" pre_split df in
    match (let* c := getitem df "PRE_VALUE_LIST" in apply_cells parse_cell c) with
    | Raise e => thk_failed e df
    | Ok pre_list =>
    let df := assign_column "PRE_VALUE_LIST" pre_list df in
    match split_raw df "PST_GLB_RAW_VALUE" with
    | Raise e => thk_failed e df
    | Ok pst_split =>
    let df := assign_column "PST_VALUE_LIST" pst_split df in
    match (let* c := getitem df "PST_VALUE_LIST" in apply_cells parse_cell c) with
    | Raise e => thk_failed e df
    | Ok pst_list =>
    let df := assign_column "PST_VALUE_LIST" pst_list df in
    match (let* c := getitem df "PRE_VALUE_LIST" in apply_cells mean_cell c) with
    | Raise e => thk_failed e df
    | Ok pre_mean =>
    let df := assign_column "PRE_GLB_STI_THK_70000" pre_mean df in
    match (let* c := getitem df "PST_VALUE_LIST" in apply_cells mean_cell c) with
    | Raise e => thk_failed e df
    | Ok pst_mean =>
    let df := assign_column "PST_GLB_CMP_THK_80000" pst_mean df in
    let df := drop_columns ["PRE_VALUE_LIST"; "PST_VALUE_LIST"] df in
    ([(DEBUG, "PRE_GLB_STI_THK_70000和PST_GLB_CMP_THK_80000计算完成")], df)
    end end end end end end.

End Mapper.

(** [self.db]: an object whose [get_para_info] is [None] when it has no
    such attribute, and otherwise what the call returns or raises. *)
Record database := Db { get_para_info : option (result para_table) }.

(** [self.config]: its entry ['para_info'], when it has one, as
    [pd.DataFrame] makes a table of it or raises. *)
Record configuration := Config { config_para_info : option (result para_table) }.

(** The body of the [try] in [_load_para_info]. *)
Definition load_attempt (config : configuration) (db : option database)
  : logged para_table :=
  match db with
  | Some (Db (Some fetched)) =>
      run _ := log INFO "从数据库加载para_info" in lift fetched
  | _ =>
      match config_para_info config with
      | Some table =>
          run _ := log INFO "从配置加载para_info" in lift table
      | None =>
          run _ := log WARNING "未配置para_info，返回空映射" in ret []
      end
  end.

(** [_load_para_info()]: the records logged and the table returned; an
    exception inside the [try] gives the empty table. *)
Definition _load_para_info (config : configuration) (db : option database)
  : list log_record * para_table :=
  match load_attempt config db with
  | (lg, Ok table) => (lg, table)
  | (lg, Raise e) => (lg ++ [(ERROR, "加载para_info失败: " +:+ exn_msg e)], [])
  end.

End Rename.

(** ** Vocabulary of the specification, and the tables of its scenarios *)

Module Spec.
Import Pd PyStr Area Rename.

(** A zone-indexed column: its name has [AREA] directly followed by a
    decimal digit somewhere. *)
Definition zone_indexed (col : string) : Prop :=
  exists (pre post : string),
    col = pre +:+ "AREA" +:+ post /\ digit_here post <> None.

(** Every row has one cell per column. *)
Definition well_formed (df : DataFrame) : Prop :=
  Forall (fun row => length row = length (columns df)) (rows df).

(** The cell of [row] under the first column labelled [name]. *)
Definition lookup_cell (name : string) (df : DataFrame) (row : list value)
  : option value :=
  option_map (fun i => cell i row) (position name (columns df)).

(** The wafers a frame has rows for. *)
Definition wafer_ids (df : DataFrame) : list value :=
  match getitem df "WAFER_ID" with
  | Ok ids => ids
  | Raise _ => []
  end.

(** The rows of the mapping table that a marker selects and whose
    source field is not null. *)
Definition tagged_rows (marker : string) (t : para_table) : para_table :=
  List.filter
    (fun r => str_contains marker (PARA_NAME_WITH_CODE r)
              && notna (FROM_SRC_FIELD r)) t.

Definition source_fields (t : para_table) : list string :=
  omap FROM_SRC_FIELD t.

(** The (source field, canonical name) pairs of those rows, in the
    order of the table. *)
Definition tagged_pairs (marker : string) (t : para_table)
  : list (string * string) :=
  omap (fun r =>
          match FROM_SRC_FIELD r, PARA_NAME_WITH_CODE r with
          | Some src, Some name => Some (src, name)
          | _, _ => None
          end) (tagged_rows marker t).

(** A reading of decimal literals to stand for [float] in examples:
    [digits] or [digits.digits] in ASCII with an optional sign; any
    other text is refused. *)
Definition ascii_digit (c : ascii) : bool :=
  (48 <=? nat_of_ascii c) && (nat_of_ascii c <=? 57).

Fixpoint span_ascii_digits (s : string) : string * string :=
  match s with
  | String c s' =>
      if ascii_digit c then
        let '(d, r) := span_ascii_digits s' in (String c d, r)
      else (EmptyString, s)
  | EmptyString => (EmptyString, EmptyString)
  end.

Definition int_of_ascii_digits (d : string) : Z :=
  (fix go (s : string) (acc : Z) : Z :=
     match s with
     | EmptyString => acc
     | String c s' => go s' (10 * acc + (Z.of_nat (nat_of_ascii c) - 48))%Z
     end) d 0%Z.

Definition digits_only (s : string) : bool :=
  match span_ascii_digits s with
  | (_, EmptyString) => true
  | _ => false
  end.

Definition float_of_decimal (s : string) : option Q :=
  let '(neg, body) :=
    match s with
    | String "-" r => (true, r)
    | String "+" r => (false, r)
    | _ => (false, s)
    end in
  let '(whole, rest) := span_ascii_digits body in
  let frac :=
    match rest with
    | EmptyString => Some EmptyString
    | String "." f => if digits_only f then Some f else None
    | _ => None
    end in
  match frac with
  | Some f =>
      if (0 <? String.length whole + String.length f) then
        let n := int_of_ascii_digits (whole +:+ f) in
        let q := (n # Pos.of_nat (10 ^ String.length f))%Q in
        Some (if neg then Qopp q else q)
      else None
  | None => None
  end.

(** The scenario table of the specification. *)
Definition scenario : DataFrame :=
  Frame ["WAFER_ID"; "A_AREA1"; "A_AREA2"; "OTHER"]
        [ [VStr "W1"; VInt 11; VInt 12; VStr "x"];
          [VStr "W2"; VInt 21; VInt 22; VStr "y"] ].

(** A table with one metric measured in the zones 1 to 8. *)
Definition eight_zones : DataFrame :=
  Frame ["WAFER_ID"; "T_AREA1"; "T_AREA2"; "T_AREA3"; "T_AREA4";
         "T_AREA5"; "T_AREA6"; "T_AREA7"; "T_AREA8"]
        [ [VStr "W1"; VInt 1; VInt 2; VInt 3; VInt 4;
           VInt 5; VInt 6; VInt 7; VInt 8] ].

(** A table without zone-indexed columns. *)
Definition plain_table : DataFrame :=
  Frame ["WAFER_ID"; "AREA"; "RECIPE"]
        [ [VStr "W1"; VInt 3; VStr "r1"] ].

(** A zone column numbered with an Arabic-Indic digit three, U+0663. *)
Definition arabic_zone : DataFrame :=
  Frame ["WAFER_ID"; "T_AREA٣"] [ [VStr "W1"; VInt 7] ].

(** A module tag written with a long s, U+017F, beside a plain one. *)
Definition long_s_table : DataFrame :=
  Frame ["WAFER_ID"; "MODULE"; "THK"]
        [ [VStr "w1"; VStr "PoliſhA"; VInt 1];
          [VStr "w1"; VStr "polishb"; VInt 2] ].



(** Raw thickness fields of the specification's examples. *)
Definition raw_ok : DataFrame :=
  Frame ["WAFER_ID"; "PRE_GLB_RAW_VALUE"; "PST_GLB_RAW_VALUE"]
        [ [VStr "W1"; VStr "1.0,2.0,3.0"; VStr ""] ].

Definition raw_malformed : DataFrame :=
  Frame ["WAFER_ID"; "PRE_GLB_RAW_VALUE"; "PST_GLB_RAW_VALUE"]
        [ [VStr "W1"; VStr "1.0,x,3.0"; VStr "4.0"] ].

(** Group A measured on w1 and w2, group B on w2 and w3. *)
Definition group_a : DataFrame :=
  Frame ["WAFER_ID"; "P1_THK"] [ [VStr "w1"; VInt 1]; [VStr "w2"; VInt 2] ].

Definition group_b : DataFrame :=
  Frame ["WAFER_ID"; "P2_THK"] [ [VStr "w2"; VInt 3]; [VStr "w3"; VInt 4] ].

Definition modules_table : DataFrame :=
  Frame ["WAFER_ID"; "MODULE"; "THK"; "LOT"]
        [ [VStr "w1"; VStr "PolishA"; VInt 1; VStr "L"];
          [VStr "w2"; VStr "polisha"; VInt 2; VStr "L"];
          [VStr "w2"; VStr "PolishB"; VInt 3; VStr "L"];
          [VStr "w3"; VStr "PolishB"; VInt 4; VStr "L"] ].

Definition no_module_table : DataFrame :=
  Frame ["WAFER_ID"; "THK"] [ [VStr "w1"; VInt 1] ].

Definition mapping : para_table :=
  [ ParaRow (Some "P1_THK_70000") (Some "THK") (Some "THK_70000");
    ParaRow (Some "P2_THK_80000") (Some "THK") (Some "THK_80000");
    ParaRow (Some "P1_RATE") None (Some "RATE") ].

(** Two P1 rows that name the same source field. *)
Definition mapping_same_source : para_table :=
  [ ParaRow (Some "P1_THK_70000") (Some "THK") (Some "THK_70000");
    ParaRow (Some "P1_THK_70001") (Some "THK") (Some "THK_70001") ].

(** What the pairing "AB" makes of the two groups. *)
Definition group_ab : DataFrame :=
  Frame ["WAFER_ID"; "P1_THK"; "P2_THK"; "POLISH"]
        [ [VStr "w2"; VInt 2; VInt 3; VStr "AB"] ].

(** What [process] returns for [modules_table] with [mapping]. *)
Definition modules_out : DataFrame :=
  Frame ["WAFER_ID"; "P1_THK_70000"; "LOT"; "P2_THK_80000"; "POLISH"]
        [ [VStr "w2"; VInt 2; VStr "L"; VInt 3; VStr "AB"] ].

Definition modules_log : list log_record :=
  [ (INFO, "拆分模块数据 - A:2, B:2, C:0, D:0");
    (DEBUG, "P1列重命名: 1 个列");
    (DEBUG, "P2列重命名: 1 个列");
    (INFO, "合并AB模块: 1 行");
    (INFO, "列重命名完成，输出: (1, 5)") ].


(** A cell of the MODULE column mentions a marker: the test of lines
    75-80 on one cell. *)
Definition mentions (marker : string) (v : value) : bool :=
  contains_nocase marker (py_str (fillna (VStr "") v)).

(** The table has a row for wafer [w] whose module tag mentions
    [marker]. *)
Definition tagged_wafer (marker : string) (data : DataFrame) (w : value)
  : Prop :=
  exists row m,
    In row (rows data)
    /\ lookup_cell "WAFER_ID" data row = Some w
    /\ lookup_cell "MODULE" data row = Some m
    /\ mentions marker m = true.

Definition accept_all (_ : DataFrame) : bool := true.

Definition reject_all (_ : DataFrame) : bool := false.

(** The last character of a string. *)
Fixpoint last_char (s : string) : option ascii :=
  match s with
  | EmptyString => None
  | String c EmptyString => Some c
  | String _ s' => last_char s'
  end.




(** Every indicator column of [row] is 0 or 1, and it is 1 exactly
    under the row's AREA value. *)
Definition one_hot_row (df : DataFrame) (row : list value) : bool :=
  match lookup_cell "AREA" df row with
  | Some area =>
      forallb
        (fun k =>
           match lookup_cell (indicator k) df row with
           | Some (VInt z) => Z.eqb z (if equals_int k area then 1 else 0)
           | _ => false
           end)
        (seq 1 8)
  | None => false
  end.

(** What [metrics.append(...)] raises on a set. *)
Definition set_has_no_append : exn :=
  Exn AttributeError "'set' object has no attribute 'append'".

End Spec.

(** * Properties *)

(** Case analysis on the loop in the goal: its result, or the exception
    it stopped at. *)
Ltac case_for_each E :=
  match goal with
  | |- context [for_each ?xs ?body ?acc] =>
      destruct (for_each xs body acc) eqn:E
  end.

(** ** Strings *)

Module StrFacts.
Import PyStr Spec.

Lemma startswith_append (p s : string) : startswith p (p +:+ s) = true.
Proof.
  induction p as [|a p IH]; simpl; [reflexivity|].
  now rewrite Ascii.eqb_refl, IH.
Qed.

Lemma startswith_inv (p s : string) :
  startswith p s = true -> exists r, s = p +:+ r.
Proof.
  revert s; induction p as [|a p IH]; intros s H; simpl in *.
  - now exists s.
  - destruct s as [|b s]; [discriminate|].
    apply andb_true_iff in H as [Hab Hps].
    apply Ascii.eqb_eq in Hab; subst b.
    destruct (IH _ Hps) as [r ->]. now exists r.
Qed.

Lemma digit_here_shorter (s : string) (v : N) (rest : string) :
  digit_here s = Some (v, rest) -> String.length rest < String.length s.
Proof.
  unfold digit_here.
  destruct (decode_utf8 s) as [[cp r]|] eqn:D; [|discriminate].
  destruct (decimal_value cp); [|discriminate]. intros [= _ <-].
  unfold decode_utf8 in D. destruct s as [|a s]; [discriminate|]. simpl.
  repeat match type of D with
         | (if ?b then _ else _) = _ => destruct b
         | match ?x with _ => _ end = _ => destruct x
         end; try discriminate; injection D as _ <-; simpl; lia.
Qed.

(** More fuel than the length of the string changes nothing. *)
Lemma span_digits_upto_enough (n : nat) (s : string) :
  String.length s <= n -> span_digits_upto n s = span_digits s.
Proof.
  unfold span_digits.
  remember (String.length s) as m eqn:Hm. revert n s Hm.
  induction m as [m IH] using lt_wf_ind. intros n s Hm Hn.
  destruct (digit_here s) as [[v rest]|] eqn:D.
  - pose proof (digit_here_shorter _ _ _ D) as L.
    destruct n as [|n]; [lia|]. destruct m as [|m]; [lia|].
    simpl. rewrite D.
    rewrite (IH (String.length rest)) by lia.
    rewrite (IH (String.length rest) ltac:(lia) m rest eq_refl) by lia.
    reflexivity.
  - destruct n, m; simpl; now rewrite ?D.
Qed.

Lemma span_digits_step (s : string) (v : N) (rest : string) :
  digit_here s = Some (v, rest) ->
  span_digits s = (v :: fst (span_digits rest), snd (span_digits rest)).
Proof.
  intros D. pose proof (digit_here_shorter _ _ _ D) as L.
  unfold span_digits at 1.
  destruct (String.length s) as [|n] eqn:E; [lia|].
  simpl. rewrite D, span_digits_upto_enough by lia.
  now destruct (span_digits rest).
Qed.

Lemma span_digits_stop (s : string) :
  digit_here s = None -> span_digits s = ([], s).
Proof.
  intros D. unfold span_digits.
  destruct (String.length s); simpl; now rewrite ?D.
Qed.

Lemma match_area_here_inv (s : string) (ds : list N) (rest : string) :
  match_area_here s = Some (ds, rest) ->
  exists post, s = "AREA" +:+ post /\ digit_here post <> None
               /\ span_digits post = (ds, rest) /\ ds <> [].
Proof.
  unfold match_area_here.
  destruct (startswith "AREA" s) eqn:Hs; [|discriminate].
  apply startswith_inv in Hs as [r ->].
  change (slice_from 4 ("AREA" +:+ r)) with r.
  destruct (span_digits r) as [[|d ds'] r'] eqn:E; [discriminate|].
  intros [= <- <-]. exists r.
  split; [reflexivity|]. split; [|split; [exact E|discriminate]].
  intros D. rewrite (span_digits_stop _ D) in E. discriminate.
Qed.

Lemma match_area_here_digit (post : string) :
  digit_here post <> None ->
  exists x, match_area_here ("AREA" +:+ post) = Some x.
Proof.
  intros Hd. unfold match_area_here.
  change (startswith "AREA" ("AREA" +:+ post)) with true.
  change (slice_from 4 ("AREA" +:+ post)) with post. cbv iota.
  destruct (digit_here post) as [[v rest]|] eqn:D; [|congruence].
  rewrite (span_digits_step _ _ _ D). eauto.
Qed.

Lemma re_search_area_unfold (s : string) :
  re_search_area s =
  match match_area_here s with
  | Some _ => true
  | None =>
      match s with
      | EmptyString => false
      | String _ s' => re_search_area s'
      end
  end.
Proof. destruct s; reflexivity. Qed.

(** [re.search(r'AREA\d+', col)] finds a match exactly in the
    zone-indexed names. *)
Lemma re_search_area_spec (col : string) :
  re_search_area col = true <-> zone_indexed col.
Proof.
  split.
  - induction col as [|a col IH].
    + simpl. destruct (match_area_here "") as [[ds r]|] eqn:E; [|discriminate].
      intros _. apply match_area_here_inv in E as (post & E & _).
      discriminate.
    + intros H. cbn [re_search_area] in H.
      destruct (match_area_here (String a col)) as [[ds r]|] eqn:E.
      * apply match_area_here_inv in E as (post & E & Hd & _).
        exists EmptyString, post. now rewrite E.
      * destruct (IH H) as (pre & post & -> & Hd).
        now exists (String a pre), post.
  - intros (pre & post & -> & Hd).
    induction pre as [|a pre IH].
    + destruct (match_area_here_digit post Hd) as [x Hx].
      change ("" +:+ "AREA" +:+ post) with ("AREA" +:+ post).
      now rewrite re_search_area_unfold, Hx.
    + change (String a pre +:+ "AREA" +:+ post)
        with (String a (pre +:+ "AREA" +:+ post)).
      rewrite re_search_area_unfold.
      destruct (match_area_here _); [reflexivity|exact IH].
Qed.

Lemma not_zone_indexed (col : string) :
  re_search_area col = false <-> ~ zone_indexed col.
Proof.
  rewrite <- re_search_area_spec. destruct (re_search_area col); split; intros H.
  - discriminate.
  - now contradiction H.
  - discriminate.
  - reflexivity.
Qed.

End StrFacts.

(** ** area.py *)

Module AreaFacts.
Import Pd PyStr Area Spec StrFacts.

Lemma area_columns_nil (df : DataFrame) :
  area_columns df = [] <-> Forall (fun c => ~ zone_indexed c) (columns df).
Proof.
  unfold area_columns. induction (columns df) as [|c cs IH]; simpl.
  - split; intros; constructor.
  - destruct (re_search_area c) eqn:E.
    + split; [discriminate|]. intros H. inversion H as [|? ? Hc _]; subst.
      apply not_zone_indexed in Hc. congruence.
    + rewrite IH. split; intros H.
      * constructor; [now apply not_zone_indexed|exact H].
      * now inversion H.
Qed.

Lemma area_columns_cons (df : DataFrame) :
  Exists zone_indexed (columns df) -> area_columns df <> [].
Proof.
  intros Hex Hnil. apply area_columns_nil in Hnil.
  apply Exists_exists in Hex as (c & Hin & Hc).
  rewrite Forall_forall in Hnil. exact (Hnil c Hin Hc).
Qed.

(** Lines 14-19 raise at the first zone column. *)
Lemma collect_metrics_raises (col : string) (rest : list string) :
  collect_metrics (col :: rest) = Raise set_has_no_append.
Proof. reflexivity. Qed.

Lemma split_zone_with_zone_columns (df : DataFrame) :
  area_columns df <> [] ->
  snd (split_zone_data_x df) = Raise set_has_no_append.
Proof.
  intros H. unfold split_zone_data_x.
  destruct (area_columns df) as [|c cs]; [congruence|].
  cbn [is_nil]. now rewrite collect_metrics_raises.
Qed.

(** C9: a table without zone-indexed columns is returned as it is; the
    one thing printed is the notice that there are no AREA columns. *)
Theorem split_zone_identity (df : DataFrame) :
  Forall (fun c => ~ zone_indexed c) (columns df) ->
  split_zone_data_x df = (["无AREA相关列"], Ok df).
Proof.
  intros H. apply area_columns_nil in H.
  unfold split_zone_data_x. now rewrite H.
Qed.

Lemma plain_table_has_no_zone_column :
  Forall (fun c => ~ zone_indexed c) (columns plain_table).
Proof.
  apply area_columns_nil. reflexivity.
Qed.

Lemma split_zone_identity_witness :
  split_zone_data_x plain_table = (["无AREA相关列"], Ok plain_table).
Proof.
  apply (split_zone_identity plain_table).
  exact plain_table_has_no_zone_column.
Defined.

(** C2: the call returns exactly for the tables without a zone-indexed
    column; with one, [metrics.append] on the set raises
    [AttributeError], which reaches the caller. *)
Theorem split_zone_returns_iff_no_zone_column (df : DataFrame) :
  ((exists out, snd (split_zone_data_x df) = Ok out)
   <-> Forall (fun c => ~ zone_indexed c) (columns df))
  /\ (Exists zone_indexed (columns df) ->
      snd (split_zone_data_x df) = Raise set_has_no_append).
Proof.
  split; [split|].
  - intros [out Hout]. apply area_columns_nil.
    destruct (area_columns df) as [|c cs] eqn:E; [reflexivity|].
    rewrite split_zone_with_zone_columns in Hout; [discriminate|].
    rewrite E. discriminate.
  - intros H. exists df. now rewrite (split_zone_identity df H).
  - intros H. apply split_zone_with_zone_columns.
    now apply area_columns_cons.
Qed.

Lemma scenario_has_zone_column : Exists zone_indexed (columns scenario).
Proof.
  apply Exists_cons_tl, Exists_cons_hd.
  exists "A_", "1". split; [reflexivity|discriminate].
Qed.

Lemma split_zone_returns_iff_no_zone_column_witness :
  snd (split_zone_data_x scenario) = Raise set_has_no_append.
Proof.
  apply (proj2 (split_zone_returns_iff_no_zone_column scenario)).
  exact scenario_has_zone_column.
Defined.

(** C1: on the scenario table the call prints that it found two AREA
    columns and then raises the [AttributeError] of line 19; no table
    is returned. *)
Theorem split_zone_scenario_raises :
  split_zone_data_x scenario
  = (["找到2个AREA相关列，开始划分ZONE"], Raise set_has_no_append).
Proof. reflexivity. Qed.

(** Lines 21-67 on the scenario table, given the metric key that lines
    17-18 derive from its zone columns: the metric column is [A_]. *)
Lemma reshape_scenario :
  map metric_of (area_columns scenario) = ["A_"; "A_"]
  /\ reshape scenario (area_columns scenario) (other_columns scenario) {["A_"]}
     = ([],
        Ok (Frame
              ["WAFER_ID"; "AREA"; "A_"; "OTHER"; "AREA1"; "AREA2"; "AREA3";
               "AREA4"; "AREA5"; "AREA6"; "AREA7"; "AREA8"]
              [ [VStr "W1"; VInt 1; VInt 11; VStr "x";
                 VInt 1; VInt 0; VInt 0; VInt 0; VInt 0; VInt 0; VInt 0; VInt 0];
                [VStr "W2"; VInt 1; VInt 21; VStr "y";
                 VInt 1; VInt 0; VInt 0; VInt 0; VInt 0; VInt 0; VInt 0; VInt 0];
                [VStr "W1"; VInt 2; VInt 12; VStr "x";
                 VInt 0; VInt 1; VInt 0; VInt 0; VInt 0; VInt 0; VInt 0; VInt 0];
                [VStr "W2"; VInt 2; VInt 22; VStr "y";
                 VInt 0; VInt 1; VInt 0; VInt 0; VInt 0; VInt 0; VInt 0; VInt 0] ])).
Proof. split; vm_compute; reflexivity. Qed.

(** C6: on a table with the zones 1 to 8 the call raises at line 19,
    before any indicator column is made. *)
Theorem split_zone_eight_zones_raises :
  split_zone_data_x eight_zones
  = (["找到8个AREA相关列，开始划分ZONE"], Raise set_has_no_append).
Proof. reflexivity. Qed.

(** Lines 21-67 on that table, given its metric key: eight rows, each
    with one-hot indicators. *)
Lemma reshape_eight_zones_one_hot :
  exists out,
    reshape eight_zones (area_columns eight_zones) (other_columns eight_zones)
            {["T_"]} = ([], Ok out)
    /\ length (rows out) = 8
    /\ forallb (one_hot_row out) (rows out) = true.
Proof. eexists. vm_compute. repeat split; reflexivity. Qed.



Lemma copies_are_equal (frames : list MetricFrame) : map copy frames = frames.
Proof. induction frames; simpl; [reflexivity|]. now f_equal. Qed.

(** A digit of another script makes a zone column as well: the name
    is matched by line 5, line 19 raises, and line 42 would read the
    zone 3. *)
Lemma arabic_zone_raises :
  area_columns arabic_zone = ["T_AREA٣"]
  /\ split_zone_data_x arabic_zone
     = (["找到1个AREA相关列，开始划分ZONE"], Raise set_has_no_append)
  /\ area_of_column "T_AREA٣" = Ok 3%Z.
Proof. repeat split; vm_compute; reflexivity. Qed.

Lemma combine_metrics_eq (frames : list MetricFrame) :
  combine_metrics frames
  = match concat_reset frames with
    | Ok area_data => Ok area_data
    | Raise _ => concat_reset (map copy frames)
    end.
Proof.
  unfold combine_metrics, combine_metrics_calls.
  now destruct (concat_reset frames).
Qed.







End AreaFacts.

(** ** rename.py: the mapping dictionaries and the derived thickness *)

Module RenameFacts.
Import Pd PyStr Rename Spec.

Lemma fold_insert_dom (pairs : list (string * string)) (d : gmap string string) :
  dom (fold_left (fun d p => <[fst p := snd p]> d) pairs d)
  = dom d ∪ list_to_set (map fst pairs).
Proof.
  revert d. induction pairs as [|p pairs IH]; intros d; simpl.
  - now rewrite union_empty_r_L.
  - rewrite IH, dom_insert_L.
    rewrite (union_comm_L {[fst p]} (dom d)).
    symmetry. apply (assoc_L (∪)).
Qed.

Lemma dict_of_pairs_dom (pairs : list (string * string)) :
  dom (dict_of_pairs pairs) = list_to_set (map fst pairs).
Proof.
  unfold dict_of_pairs. now rewrite fold_insert_dom, dom_empty_L, union_empty_l_L.
Qed.

(** The keys of the dictionary are the source fields of the tagged
    rows. *)
Lemma build_rename_dict_dom (marker : string) (t : para_table) :
  dom (build_rename_dict marker t)
  = list_to_set (source_fields (tagged_rows marker t)).
Proof.
  unfold build_rename_dict. rewrite dict_of_pairs_dom. f_equal.
  unfold tagged_rows, source_fields.
  induction t as [|[name src pn] t IH]; simpl; [reflexivity|].
  destruct name as [n|]; simpl; [|exact IH].
  destruct (contains marker n); simpl; [|exact IH].
  destruct src as [s|]; simpl; [|exact IH].
  f_equal. exact IH.
Qed.

Lemma tagged_rows_sources_length (marker : string) (t : para_table) :
  length (source_fields (tagged_rows marker t)) = length (tagged_rows marker t).
Proof.
  unfold tagged_rows, source_fields.
  induction t as [|[name src pn] t IH]; simpl; [reflexivity|].
  destruct (str_contains marker name); simpl; [|exact IH].
  destruct src as [s|]; simpl; [|exact IH].
  f_equal. exact IH.
Qed.

Lemma tagged_rows_app (marker : string) (t1 t2 : para_table) :
  tagged_rows marker (t1 ++ t2) = tagged_rows marker t1 ++ tagged_rows marker t2.
Proof. unfold tagged_rows. apply List.filter_app. Qed.

Lemma build_rename_dict_app_null (marker : string) (t1 t2 : para_table)
  (r : para_row) :
  FROM_SRC_FIELD r = None ->
  build_rename_dict marker (t1 ++ r :: t2) = build_rename_dict marker (t1 ++ t2).
Proof.
  intros Hr. cbv beta zeta delta [build_rename_dict].
  rewrite !List.filter_app. simpl.
  destruct (str_contains marker (PARA_NAME_WITH_CODE r)); [|reflexivity].
  rewrite ?List.filter_app. simpl. now rewrite Hr.
Qed.

(** C8, as the code has it: the dictionary built for a marker has one
    entry per distinct source field among the rows whose canonical
    name contains the marker and whose source field is not null; when
    those source fields differ pairwise it has as many entries as
    there are such rows; a row with a null source field changes
    nothing. *)
Theorem rename_dict_entries (marker : string) (t : para_table) :
  size (build_rename_dict marker t)
  = size (list_to_set (source_fields (tagged_rows marker t)) : gset string)
  /\ (NoDup (source_fields (tagged_rows marker t)) ->
      size (build_rename_dict marker t) = length (tagged_rows marker t))
  /\ (forall t1 r t2,
        t = t1 ++ r :: t2 -> FROM_SRC_FIELD r = None ->
        build_rename_dict marker t = build_rename_dict marker (t1 ++ t2)
        /\ tagged_rows marker t = tagged_rows marker (t1 ++ t2)).
Proof.
  assert (Hsize : size (build_rename_dict marker t)
                  = size (list_to_set (source_fields (tagged_rows marker t))
                          : gset string)).
  { rewrite <- build_rename_dict_dom. symmetry. apply size_dom. }
  split; [exact Hsize|split].
  - intros Hnd. rewrite Hsize, size_list_to_set by exact Hnd.
    apply tagged_rows_sources_length.
  - intros t1 r t2 -> Hr. split.
    + now apply build_rename_dict_app_null.
    + rewrite !tagged_rows_app. f_equal. unfold tagged_rows. simpl.
      rewrite Hr. now rewrite andb_false_r.
Qed.

Lemma rename_dict_entries_witness :
  size (build_rename_dict "P1_" mapping) = 1
  /\ size (build_rename_dict "P2_" mapping) = 1.
Proof.
  split.
  - apply (proj1 (proj2 (rename_dict_entries "P1_" mapping))).
    vm_compute. repeat constructor. intros H; inversion H.
  - apply (proj1 (proj2 (rename_dict_entries "P2_" mapping))).
    vm_compute. repeat constructor. intros H; inversion H.
Defined.

(** Against C8 as stated: two P1 rows, no null source field, and a P1
    dictionary of one entry, the later row's. *)
Lemma rename_dict_same_source :
  length (List.filter (fun r => str_contains "P1_" (PARA_NAME_WITH_CODE r))
                      mapping_same_source) = 2
  /\ Forall (fun r => FROM_SRC_FIELD r <> None) mapping_same_source
  /\ size (build_rename_dict "P1_" mapping_same_source) = 1
  /\ build_rename_dict "P1_" mapping_same_source !! "THK" = Some "P1_THK_70001".
Proof.
  repeat split; try reflexivity.
  repeat constructor; discriminate.
Qed.

(** C3: on the field ["1.0,2.0,3.0"] the three numbers are parsed, but
    the mean is never stored: [np] is not a name of the module, the
    [NameError] is caught, and the frame comes back with the two list
    columns and without the derived columns.  The empty field of the
    other column meets the same error. *)
Theorem thickness_mean_not_stored :
  _cal_thk_from_raw_value float_of_decimal raw_ok
  = ([(ERROR, "PRE_GLB_STI_THK_70000和PST_GLB_CMP_THK_80000计算失败: name 'np' is not defined")],
     Frame ["WAFER_ID"; "PRE_GLB_RAW_VALUE"; "PST_GLB_RAW_VALUE";
            "PRE_VALUE_LIST"; "PST_VALUE_LIST"]
           [ [VStr "W1"; VStr "1.0,2.0,3.0"; VStr "";
              VList [VFloat (1 # 1); VFloat (2 # 1); VFloat (3 # 1)];
              VList []] ]).
Proof. vm_compute. reflexivity. Qed.

(** C4: on the field ["1.0,x,3.0"] the [ValueError] is caught and
    logged at level ERROR, and the frame returned is the input with
    the column [PRE_VALUE_LIST] of line 204 added to it. *)
Theorem thickness_parse_failure_leaves_column :
  _cal_thk_from_raw_value float_of_decimal raw_malformed
  = ([(ERROR, "PRE_GLB_STI_THK_70000和PST_GLB_CMP_THK_80000计算失败: could not convert string to float: 'x'")],
     Frame (columns raw_malformed ++ ["PRE_VALUE_LIST"])
           [ [VStr "W1"; VStr "1.0,x,3.0"; VStr "4.0";
              VList [VStr "1.0"; VStr "x"; VStr "3.0"]] ])
  /\ snd (_cal_thk_from_raw_value float_of_decimal raw_malformed) <> raw_malformed.
Proof. split; [vm_compute; reflexivity|]. vm_compute. discriminate. Qed.

End RenameFacts.

(** ** pandas frames *)

Module PdFacts.
Import Pd PyStr Spec.

Lemma Q_eqb_eq (a b : Q) : Q_eqb a b = true <-> a = b.
Proof.
  destruct a as [n d], b as [n' d']. unfold Q_eqb. simpl.
  rewrite andb_true_iff, Z.eqb_eq, Pos.eqb_eq.
  split; [intros [-> ->]; reflexivity|intros [= -> ->]; now split].
Qed.

(** [value_eqb] decides equality of cells. *)
Lemma value_eqb_eq : forall a b : value, value_eqb a b = true <-> a = b.
Proof.
  fix IH 1.
  intros [|z|q|s|l] [|z'|q'|s'|l']; simpl;
    try (split; [discriminate|discriminate]); try (split; reflexivity).
  - rewrite Z.eqb_eq. split; [now intros ->|now intros [= ->]].
  - rewrite Q_eqb_eq. split; [now intros ->|now intros [= ->]].
  - rewrite String.eqb_eq. split; [now intros ->|now intros [= ->]].
  - revert l'.
    refine ((fix IHl (l : list value) :
               forall l',
                 (fix all2 (x y : list value) : bool :=
                    match x, y with
                    | [], [] => true
                    | h :: t, h' :: t' => value_eqb h h' && all2 t t'
                    | _, _ => false
                    end) l l' = true <-> VList l = VList l' :=
               match l with
               | [] => fun l' => _
               | h :: t => fun l' => _
               end) l).
    + destruct l'; split; (reflexivity || discriminate).
    + destruct l' as [|h' t']; [split; discriminate|].
      rewrite andb_true_iff, (IH h h'), (IHl t t').
      split; [now intros [-> [= ->]]|now intros [= -> ->]].
Qed.

Lemma value_eqb_refl (a : value) : value_eqb a a = true.
Proof. now apply value_eqb_eq. Qed.

Lemma mem_In (x : string) (xs : list string) : mem x xs = true <-> In x xs.
Proof.
  unfold mem. rewrite existsb_exists. split.
  - intros (y & Hy & E). apply String.eqb_eq in E. now subst.
  - intros H. exists x. split; [exact H|apply String.eqb_refl].
Qed.

Lemma mem_false (x : string) (xs : list string) : mem x xs = false <-> ~ In x xs.
Proof.
  rewrite <- mem_In. destruct (mem x xs); split; intros H; congruence.
Qed.

Lemma position_Some (name : string) (cols : list string) (i : nat) :
  position name cols = Some i -> i < length cols /\ nth i cols EmptyString = name.
Proof.
  revert i. induction cols as [|c cols IH]; intros i; simpl; [discriminate|].
  destruct (String.eqb name c) eqn:E.
  - intros [= <-]. apply String.eqb_eq in E. split; [lia|now subst].
  - destruct (position name cols) as [k|]; [|discriminate].
    intros [= <-]. destruct (IH k eq_refl). split; [lia|assumption].
Qed.

Lemma position_In (name : string) (cols : list string) :
  In name cols <-> exists i, position name cols = Some i.
Proof.
  induction cols as [|c cols IH]; simpl.
  - split; [tauto|intros [i H]; discriminate].
  - destruct (String.eqb name c) eqn:E.
    + apply String.eqb_eq in E. split; [eauto|auto].
    + apply String.eqb_neq in E. rewrite IH. split.
      * intros [H|[i H]]; [congruence|]. rewrite H. simpl. eauto.
      * intros [i H]. right. destruct (position name cols); [eauto|discriminate].
Qed.

Lemma position_None (name : string) (cols : list string) :
  position name cols = None <-> ~ In name cols.
Proof.
  rewrite position_In. destruct (position name cols) as [i|]; split.
  - discriminate.
  - intros H. contradiction H. eauto.
  - intros _ [i H]. discriminate.
  - reflexivity.
Qed.

Lemma position_app_l (name : string) (l1 l2 : list string) (i : nat) :
  position name l1 = Some i -> position name (l1 ++ l2) = Some i.
Proof.
  revert i. induction l1 as [|c l1 IH]; intros i; simpl; [discriminate|].
  destruct (String.eqb name c); [auto|].
  destruct (position name l1) as [k|]; [|discriminate].
  intros [= <-]. now rewrite (IH k eq_refl).
Qed.

Lemma position_app_r (name : string) (l1 l2 : list string) :
  ~ In name l1 ->
  position name (l1 ++ l2) = option_map (Nat.add (length l1)) (position name l2).
Proof.
  induction l1 as [|c l1 IH]; simpl; intros H.
  - destruct (position name l2); reflexivity.
  - destruct (String.eqb name c) eqn:E.
    + apply String.eqb_eq in E. subst. tauto.
    + rewrite IH by tauto. destruct (position name l2); reflexivity.
Qed.

(** Relabelling that neither makes nor unmakes [name] keeps its place. *)
Lemma position_map (f : string -> string) (name : string) (cols : list string) :
  (forall c, In c cols -> (f c = name <-> c = name)) ->
  position name (map f cols) = position name cols.
Proof.
  induction cols as [|c cols IH]; simpl; intros H; [reflexivity|].
  rewrite IH by auto.
  destruct (String.eqb name c) eqn:E.
  - apply String.eqb_eq in E.
    assert (f c = name) as -> by (apply H; auto).
    now rewrite String.eqb_refl.
  - apply String.eqb_neq in E.
    destruct (String.eqb name (f c)) eqn:E'; [|reflexivity].
    apply String.eqb_eq in E'. symmetry in E'.
    assert (c = name) by (apply H; auto). congruence.
Qed.

Lemma cell_app_l (i : nat) (r1 r2 : list value) :
  i < length r1 -> cell i (r1 ++ r2) = cell i r1.
Proof. intros H. unfold cell. now apply app_nth1. Qed.

Lemma cell_map {A} (f : A -> value) (d : A) (i : nat) (xs : list A) :
  i < length xs -> cell i (map f xs) = f (nth i xs d).
Proof.
  intros H. unfold cell.
  rewrite (nth_indep _ VNull (f d)) by now rewrite length_map.
  apply map_nth.
Qed.

Lemma last_char_append (c sfx : string) :
  sfx <> EmptyString -> last_char (c +:+ sfx) = last_char sfx.
Proof.
  intros H. induction c as [|a c IH]; simpl; [reflexivity|].
  rewrite <- IH. destruct (c +:+ sfx) eqn:E; [|reflexivity].
  destruct c; simpl in E; [contradiction|discriminate].
Qed.

Lemma suffix_x_not (name c : string) :
  last_char name <> Some "x"%char -> c +:+ "_x" <> name.
Proof.
  intros H E. apply H. rewrite <- E. now rewrite last_char_append.
Qed.

Lemma suffix_y_not (name c : string) :
  last_char name <> Some "y"%char -> c +:+ "_y" <> name.
Proof.
  intros H E. apply H. rewrite <- E. now rewrite last_char_append.
Qed.

Lemma count_label_zero (x : string) (xs : list string) :
  count_label x xs = 0 -> ~ In x xs.
Proof.
  unfold count_label. induction xs as [|c xs IH]; simpl; [tauto|].
  destruct (String.eqb x c) eqn:E; simpl; [discriminate|].
  apply String.eqb_neq in E. intros H [H'|H']; [congruence|tauto].
Qed.

Lemma remove_at_cons {A} (k : nat) (x : A) (xs : list A) :
  remove_at (S k) (x :: xs) = x :: remove_at k xs.
Proof. reflexivity. Qed.

Lemma remove_at_In {A} (i : nat) (x : A) (xs : list A) :
  In x (remove_at i xs) -> In x xs.
Proof.
  revert i. induction xs as [|y xs IH]; intros i H.
  - destruct i; exact H.
  - destruct i as [|k].
    + right. exact H.
    + rewrite remove_at_cons in H. destruct H as [H|H]; [now left|].
      right. exact (IH k H).
Qed.

Lemma remove_at_length {A} (i : nat) (xs : list A) :
  i < length xs -> length (remove_at i xs) = length xs - 1.
Proof.
  intros H. unfold remove_at.
  rewrite length_app, length_firstn, length_skipn. lia.
Qed.

(** With the key on one column only, no other column has its label. *)
Lemma key_not_in_rest (key : string) (cols : list string) (j : nat) :
  position key cols = Some j -> count_label key cols <= 1 ->
  ~ In key (remove_at j cols).
Proof.
  revert j. induction cols as [|c cols IH]; intros j; simpl; [discriminate|].
  unfold count_label. simpl.
  destruct (String.eqb key c) eqn:E.
  - intros [= <-] H. simpl in H. change (remove_at 0 (c :: cols)) with cols.
    apply count_label_zero. unfold count_label. lia.
  - destruct (position key cols) as [k|] eqn:P; [|discriminate].
    intros [= <-] H. rewrite remove_at_cons.
    apply String.eqb_neq in E. intros [H'|H']; [congruence|].
    exact (IH k eq_refl H H').
Qed.

Lemma In_join_rows (i j : nat) (L R : list (list value)) (row : list value) :
  In row (join_rows i j L R) <->
  exists lr rr, In lr L /\ In rr R /\ cell i lr = cell j rr
                /\ row = lr ++ remove_at j rr.
Proof.
  unfold join_rows. rewrite in_flat_map. split.
  - intros (lr & Hl & H). apply in_map_iff in H as (rr & <- & H).
    apply filter_In in H as [Hr E]. apply value_eqb_eq in E.
    now exists lr, rr.
  - intros (lr & rr & Hl & Hr & E & ->). exists lr. split; [exact Hl|].
    apply in_map_iff. exists rr. split; [reflexivity|].
    apply filter_In. split; [exact Hr|]. now apply value_eqb_eq.
Qed.

(** What a merge that returns has checked and built. *)
Lemma merge_inner_Ok (key : string) (l r m : DataFrame) :
  merge_inner key l r = Ok m ->
  exists i j,
    position key (columns l) = Some i /\ position key (columns r) = Some j
    /\ count_label key (columns r) <= 1
    /\ columns m = suffix_labels "_x" (remove_at j (columns r)) (columns l)
                   ++ suffix_labels "_y" (columns l) (remove_at j (columns r))
    /\ rows m = join_rows i j (rows l) (rows r).
Proof.
  unfold merge_inner.
  destruct (position key (columns l)) as [i|]; [|discriminate].
  destruct (position key (columns r)) as [j|]; [|discriminate].
  destruct (1 <? count_label key (columns l)) eqn:Cl; [discriminate|].
  destruct (1 <? count_label key (columns r)) eqn:Cr; [discriminate|].
  cbn [orb]. cbv zeta.
  destruct (_ || _); [discriminate|].
  intros [= <-]. exists i, j. apply Nat.ltb_ge in Cr. auto.
Qed.

Lemma suffix_labels_length (sfx : string) (other cols : list string) :
  length (suffix_labels sfx other cols) = length cols.
Proof. apply length_map. Qed.

Lemma suffix_labels_In (sfx : string) (other cols : list string) (c : string) :
  In c (suffix_labels sfx other cols) ->
  exists c0, In c0 cols /\ (c = c0 \/ c = c0 +:+ sfx).
Proof.
  unfold suffix_labels. rewrite in_map_iff. intros (c0 & <- & H).
  exists c0. split; [exact H|]. destruct (mem c0 other); auto.
Qed.

(** The labels of a merged frame come from the two sides, as they are
    or with a suffix. *)
Lemma merge_inner_columns (key : string) (l r m : DataFrame) (c : string) :
  merge_inner key l r = Ok m -> In c (columns m) ->
  exists c0, (In c0 (columns l) \/ In c0 (columns r))
             /\ (c = c0 \/ c = c0 +:+ "_x" \/ c = c0 +:+ "_y").
Proof.
  intros H Hc. apply merge_inner_Ok in H as (i & j & _ & _ & _ & Hcols & _).
  rewrite Hcols in Hc. apply in_app_or in Hc as [Hc|Hc];
    apply suffix_labels_In in Hc as (c0 & H0 & [E|E]); exists c0.
  - auto.
  - auto.
  - apply remove_at_In in H0. auto.
  - apply remove_at_In in H0. auto.
Qed.

Lemma merge_inner_well_formed (key : string) (l r m : DataFrame) :
  well_formed l -> well_formed r -> merge_inner key l r = Ok m -> well_formed m.
Proof.
  intros Wl Wr H.
  apply merge_inner_Ok in H as (i & j & Pi & Pj & _ & Hcols & Hrows).
  unfold well_formed in *. rewrite Hcols, Hrows. apply List.Forall_forall.
  intros row Hrow. apply In_join_rows in Hrow as (lr & rr & Hl & Hr & _ & ->).
  rewrite List.Forall_forall in Wl, Wr.
  apply position_Some in Pj as [Pj _].
  rewrite !length_app, !suffix_labels_length.
  rewrite !remove_at_length by (rewrite ?(Wr rr Hr); exact Pj).
  now rewrite (Wl lr Hl), (Wr rr Hr).
Qed.

(** The merged frame keeps the key where the left frame has it. *)
Lemma merge_inner_key_position (key : string) (l r m : DataFrame) :
  last_char key <> Some "x"%char ->
  merge_inner key l r = Ok m ->
  exists i j,
    position key (columns l) = Some i /\ position key (columns r) = Some j
    /\ position key (columns m) = Some i
    /\ rows m = join_rows i j (rows l) (rows r).
Proof.
  intros Hx H.
  apply merge_inner_Ok in H as (i & j & Pi & Pj & Cj & Hcols & Hrows).
  exists i, j. repeat split; try assumption.
  rewrite Hcols. apply position_app_l.
  unfold suffix_labels. rewrite position_map; [exact Pi|].
  intros c _. destruct (mem c (remove_at j (columns r))) eqn:E; [|tauto].
  split.
  - intros E'. now apply suffix_x_not in E'.
  - intros ->. apply mem_In in E. now apply key_not_in_rest in E.
Qed.

Lemma wafer_ids_eq (df : DataFrame) (i : nat) :
  position "WAFER_ID" (columns df) = Some i ->
  wafer_ids df = map (cell i) (rows df).
Proof. intros H. unfold wafer_ids, getitem. now rewrite H. Qed.

(** An inner join on WAFER_ID has rows for exactly the wafers that both
    sides have rows for. *)
Lemma merge_inner_wafers (l r m : DataFrame) (w : value) :
  well_formed l ->
  merge_inner "WAFER_ID" l r = Ok m ->
  In w (wafer_ids m) <-> In w (wafer_ids l) /\ In w (wafer_ids r).
Proof.
  intros Wl H.
  apply merge_inner_key_position in H as (i & j & Pi & Pj & Pm & Hrows);
    [|discriminate].
  rewrite (wafer_ids_eq m i Pm), (wafer_ids_eq l i Pi), (wafer_ids_eq r j Pj).
  rewrite Hrows, !in_map_iff.
  unfold well_formed in Wl. rewrite List.Forall_forall in Wl.
  apply position_Some in Pi as [Pi _].
  split.
  - intros (row & <- & Hrow).
    apply In_join_rows in Hrow as (lr & rr & Hl & Hr & E & ->).
    rewrite cell_app_l by now rewrite (Wl lr Hl).
    split; [now exists lr|exists rr; split; [now symmetry|exact Hr]].
  - intros [(lr & <- & Hl) (rr & E & Hr)].
    exists (lr ++ remove_at j rr). split.
    + apply cell_app_l. now rewrite (Wl lr Hl).
    + apply In_join_rows. exists lr, rr. repeat split; auto.
Qed.

Lemma combine_cell (name : string) (v : value) (cols : list string)
  (row : list value) (i : nat) :
  length row = length cols -> i < length cols ->
  cell i (map (fun p : string * value =>
                 if String.eqb (fst p) name then v else snd p)
              (combine cols row))
  = if String.eqb (nth i cols EmptyString) name then v else cell i row.
Proof.
  intros Hlen Hi.
  rewrite (cell_map _ (EmptyString, VNull)).
  - rewrite combine_nth by now symmetry. reflexivity.
  - rewrite length_combine. lia.
Qed.

Lemma assign_const_columns (name : string) (v : value) (df : DataFrame)
  (c : string) :
  In c (columns (assign_const name v df)) -> In c (columns df) \/ c = name.
Proof.
  unfold assign_const. destruct (mem name (columns df)); simpl; [auto|].
  intros H. apply in_app_or in H as [H|[H|[]]]; auto.
Qed.

Lemma assign_const_well_formed (name : string) (v : value) (df : DataFrame) :
  well_formed df -> well_formed (assign_const name v df).
Proof.
  unfold well_formed, assign_const. rewrite !List.Forall_forall. intros W.
  destruct (mem name (columns df)); simpl;
    intros row' Hrow'; apply in_map_iff in Hrow' as (row & <- & Hrow);
    specialize (W row Hrow).
  - rewrite length_map, length_combine. lia.
  - rewrite !length_app. simpl. lia.
Qed.

(** After [df[name] = v] every row has [v] under [name]. *)
Lemma assign_const_lookup (name : string) (v : value) (df : DataFrame) :
  well_formed df ->
  Forall (fun row => lookup_cell name (assign_const name v df) row = Some v)
         (rows (assign_const name v df)).
Proof.
  unfold well_formed, assign_const, lookup_cell.
  rewrite !List.Forall_forall. intros W.
  destruct (mem name (columns df)) eqn:M; simpl.
  - apply mem_In, position_In in M as [p P]. rewrite P. simpl.
    intros row' Hrow'. apply in_map_iff in Hrow' as (row & <- & Hrow).
    specialize (W row Hrow). destruct (position_Some _ _ _ P) as [Hp Hn].
    rewrite combine_cell by assumption.
    now rewrite Hn, String.eqb_refl.
  - apply mem_false in M. rewrite position_app_r by exact M. simpl.
    rewrite String.eqb_refl. simpl.
    intros row' Hrow'. apply in_map_iff in Hrow' as (row & <- & Hrow).
    specialize (W row Hrow). unfold cell. rewrite app_nth2 by lia.
    now replace (length (columns df) + 0 - length row) with 0 by lia.
Qed.

(** [df[name] = v] leaves the other columns as they are. *)
Lemma assign_const_getitem_other (name other : string) (v : value)
  (df : DataFrame) :
  other <> name -> well_formed df ->
  getitem (assign_const name v df) other = getitem df other.
Proof.
  unfold well_formed, assign_const, getitem. intros Hne W.
  rewrite List.Forall_forall in W.
  destruct (mem name (columns df)) eqn:M; simpl.
  - destruct (position other (columns df)) as [i|] eqn:P; [|reflexivity].
    f_equal. rewrite map_map. apply map_ext_in. intros row Hrow.
    destruct (position_Some _ _ _ P) as [Hi Hn].
    rewrite combine_cell by auto. rewrite Hn.
    apply String.eqb_neq in Hne. now rewrite Hne.
  - destruct (position other (columns df)) as [i|] eqn:P.
    + rewrite (position_app_l _ _ _ _ P). f_equal.
      rewrite map_map. apply map_ext_in. intros row Hrow.
      apply cell_app_l. rewrite (W row Hrow).
      now apply position_Some in P.
    + apply position_None in P. rewrite position_app_r by exact P. simpl.
      apply String.eqb_neq in Hne. now rewrite Hne.
Qed.

Lemma assign_const_wafer_ids (name : string) (v : value) (df : DataFrame) :
  name <> "WAFER_ID" -> well_formed df ->
  wafer_ids (assign_const name v df) = wafer_ids df.
Proof.
  intros Hne W. unfold wafer_ids.
  rewrite assign_const_getitem_other; auto.
Qed.

Lemma empty_no_wafers (df : DataFrame) : empty df = true -> wafer_ids df = [].
Proof.
  unfold empty, wafer_ids, getitem.
  destruct (columns df) as [|c cs]; [reflexivity|].
  destruct (rows df) as [|row rs]; [|discriminate].
  intros _. destruct (position _ _); reflexivity.
Qed.


Lemma assign_const_has_column (name : string) (v : value) (df : DataFrame) :
  In name (columns (assign_const name v df)).
Proof.
  unfold assign_const. destruct (mem name (columns df)) eqn:M; simpl.
  - now apply mem_In.
  - apply in_or_app. right. now left.
Qed.

Lemma mask_rows_well_formed (mask : list bool) (df : DataFrame) :
  well_formed df -> well_formed (mask_rows mask df).
Proof.
  unfold well_formed, mask_rows. rewrite !List.Forall_forall. simpl.
  intros W row H. apply in_map_iff in H as ([b row'] & <- & H).
  apply filter_In in H as [H _]. apply in_combine_r in H. auto.
Qed.

Lemma keep_cells_length {A B} (keep : list bool) (xs : list A) (ys : list B) :
  length xs = length ys ->
  length (keep_cells keep xs) = length (keep_cells keep ys).
Proof.
  unfold keep_cells. rewrite !length_map.
  revert xs ys. induction keep as [|b keep IH]; intros xs ys H; [reflexivity|].
  destruct xs as [|x xs], ys as [|y ys]; try discriminate; [reflexivity|].
  simpl. destruct b; simpl; auto.
Qed.

Lemma keep_cells_labels (f : string -> bool) (cols : list string) (c : string) :
  In c (keep_cells (map f cols) cols) -> In c cols /\ f c = true.
Proof.
  unfold keep_cells. induction cols as [|x cols IH]; simpl; [tauto|].
  destruct (f x) eqn:E; simpl.
  - intros [<-|H]; [auto|]. destruct (IH H). auto.
  - intros H. destruct (IH H). auto.
Qed.

Lemma drop_columns_columns (names : list string) (df : DataFrame) (c : string) :
  In c (columns (drop_columns names df)) -> In c (columns df) /\ ~ In c names.
Proof.
  unfold drop_columns. simpl. intros H.
  apply keep_cells_labels in H as [H E]. split; [exact H|].
  apply negb_true_iff in E. now apply mem_false.
Qed.

Lemma drop_columns_well_formed (names : list string) (df : DataFrame) :
  well_formed df -> well_formed (drop_columns names df).
Proof.
  unfold well_formed, drop_columns. rewrite !List.Forall_forall. simpl.
  intros W row H. apply in_map_iff in H as (row' & <- & H).
  apply keep_cells_length. auto.
Qed.

Lemma rename_columns_well_formed (d : gmap string string) (df : DataFrame) :
  well_formed df -> well_formed (rename_columns d df).
Proof.
  unfold well_formed, rename_columns. simpl. now rewrite length_map.
Qed.

Lemma labels_eqb_eq (a b : list string) : labels_eqb a b = true -> a = b.
Proof.
  unfold labels_eqb. rewrite andb_true_iff, Nat.eqb_eq.
  revert b. induction a as [|x a IH]; intros [|y b] [Hlen H];
    try discriminate; [reflexivity|].
  simpl in *. apply andb_true_iff in H as [E H].
  apply String.eqb_eq in E. subst. f_equal. apply IH. split; [lia|exact H].
Qed.

Lemma unique_from_In (seen xs : list string) (x : string) :
  In x (unique_from seen xs) <-> In x xs /\ ~ In x seen.
Proof.
  revert seen. induction xs as [|y xs IH]; intros seen; simpl; [tauto|].
  destruct (mem y seen) eqn:M.
  - apply mem_In in M. rewrite IH. split.
    + tauto.
    + intros [[<-|H] Hs]; tauto.
  - apply mem_false in M. simpl. rewrite IH. simpl. split.
    + intros [<-|[H Hs]]; [tauto|]. split; [tauto|]. tauto.
    + intros [[<-|H] Hs]; [tauto|].
      destruct (String.eqb y x) eqn:E.
      * apply String.eqb_eq in E. tauto.
      * apply String.eqb_neq in E. right. split; [exact H|]. tauto.
Qed.

Lemma unique_In (xs : list string) (x : string) : In x (unique xs) <-> In x xs.
Proof. unfold unique. rewrite unique_from_In. simpl. tauto. Qed.

(** The rows that the row-wise concat collects, frame by frame. *)
Lemma concat_layout (cols : list string) (dfs : list DataFrame)
  (acc parts : list (list value)) (row : list value) :
  for_each dfs
    (fun acc d =>
       if labels_eqb cols (columns d) then Ok (acc ++ rows d)
       else if is_unique (columns d)
            then Ok (acc ++ reindex_columns cols d)
            else Raise (Exn InvalidIndexError requires_unique_msg))
    acc = Ok parts ->
  In row parts ->
  In row acc
  \/ exists d, In d dfs
               /\ ((columns d = cols /\ In row (rows d))
                   \/ In row (reindex_columns cols d)).
Proof.
  revert acc. induction dfs as [|d dfs IH]; intros acc; simpl.
  - intros [= <-]. auto.
  - destruct (labels_eqb cols (columns d)) eqn:E.
    + intros H Hrow. destruct (IH _ H Hrow) as [Hacc|(d' & Hd' & H')].
      * apply in_app_or in Hacc as [Hacc|Hacc]; [auto|].
        right. exists d. apply labels_eqb_eq in E. auto.
      * right. exists d'. auto.
    + destruct (is_unique (columns d)); [|discriminate].
      intros H Hrow. destruct (IH _ H Hrow) as [Hacc|(d' & Hd' & H')].
      * apply in_app_or in Hacc as [Hacc|Hacc]; [auto|].
        right. exists d. auto.
      * right. exists d'. auto.
Qed.

(** A label of the concatenated frame is a label of one of the
    frames. *)
Lemma concat_rows_columns (dfs : list DataFrame) (out : DataFrame) (c : string) :
  concat_rows dfs = Ok out -> In c (columns out) ->
  exists d, In d dfs /\ In c (columns d).
Proof.
  unfold concat_rows. destruct dfs as [|first others]; [discriminate|].
  destruct (forallb _ others).
  - intros [= <-]. simpl. intros H. exists first. split; [now left|exact H].
  - case_for_each E; [|discriminate].
    unfold bind. intros [= <-]. cbn [columns]. intros H.
    apply (proj1 (unique_In _ _)) in H.
    apply in_app_or in H as [H|H].
    + exists first. split; [now left|exact H].
    + apply (proj1 (in_flat_map _ _ _)) in H as (d & Hd & H).
      exists d. split; [now right|exact H].
Qed.

(** A row of the concatenated frame is a row of one of the frames, with
    the same cell under every label of that frame. *)
Lemma concat_rows_rows (dfs : list DataFrame) (out : DataFrame)
  (row' : list value) :
  concat_rows dfs = Ok out -> In row' (rows out) ->
  exists d row,
    In d dfs /\ In row (rows d)
    /\ forall name, In name (columns d) ->
                    lookup_cell name out row' = lookup_cell name d row.
Proof.
  unfold concat_rows. destruct dfs as [|first others]; [discriminate|].
  destruct (forallb _ others) eqn:All.
  - intros [= <-]. cbn [rows]. intros H.
    change (In row' (flat_map rows (first :: others))) in H.
    apply (proj1 (in_flat_map _ _ _)) in H as (d & Hd & H).
    exists d, row'. repeat split; try assumption.
    intros name _. unfold lookup_cell. cbn [columns].
    destruct Hd as [<-|Hd]; [reflexivity|].
    rewrite forallb_forall in All. now rewrite (labels_eqb_eq _ _ (All d Hd)).
  - remember (unique (flat_map columns (first :: others))) as cols eqn:Hcols.
    case_for_each E; [|discriminate].
    unfold bind. intros [= <-]. cbn [rows]. intros H.
    destruct (concat_layout _ _ _ _ _ E H) as [[]|(d & Hd & [[Hc Hr]|Hr])].
    + exists d, row'. repeat split; try assumption.
      intros name _. unfold lookup_cell. cbn [columns]. now rewrite Hc.
    + unfold reindex_columns in Hr.
      apply in_map_iff in Hr as (row & <- & Hrow).
      exists d, row. repeat split; try assumption.
      intros name Hn.
      unfold lookup_cell. cbn [columns].
      assert (Hc : In name cols).
      { rewrite Hcols. apply unique_In, in_flat_map. now exists d. }
      apply position_In in Hc as [p P]. apply position_In in Hn as [q Q].
      rewrite P, Q. simpl. f_equal.
      destruct (position_Some _ _ _ P) as [Hp Hnth].
      rewrite (cell_map _ EmptyString) by exact Hp. now rewrite Hnth, Q.
Qed.
Lemma getitem_length (df : DataFrame) (name : string) (col : list value) :
  getitem df name = Ok col -> length col = length (rows df).
Proof.
  unfold getitem. destruct (position name (columns df)); [|discriminate].
  intros [= <-]. apply length_map.
Qed.

Lemma getitem_Ok (df : DataFrame) (name : string) (col : list value) :
  getitem df name = Ok col <->
  exists i, position name (columns df) = Some i /\ col = map (cell i) (rows df).
Proof.
  unfold getitem. destruct (position name (columns df)) as [i|]; split.
  - intros [= <-]. now exists i.
  - intros (j & [= <-] & ->). reflexivity.
  - discriminate.
  - intros (j & H & _). discriminate.
Qed.

End PdFacts.

(** ** rename.py: pairing the modules *)

Module ProcessFacts.
Import Pd PyStr Rename Spec PdFacts.

(** What one pairing step has done when it returns. *)
Lemma pair_modules_Ok (label : string) (l r : DataFrame)
  (acc : list DataFrame) (lg : list log_record) (out : list DataFrame) :
  pair_modules label l r acc = (lg, Ok out) ->
  (out = acc /\ (empty l = true \/ empty r = true))
  \/ (exists m, merge_inner "WAFER_ID" l r = Ok m
                /\ out = acc ++ [assign_const "POLISH" (VStr label) m]).
Proof.
  unfold pair_modules.
  destruct (empty l) eqn:El; simpl.
  { intros [= _ <-]. left. auto. }
  destruct (empty r) eqn:Er; simpl.
  { intros [= _ <-]. left. auto. }
  unfold lift, and_then.
  destruct (merge_inner "WAFER_ID" l r) as [m|e]; [|discriminate].
  simpl. intros [= _ <-]. right. now exists m.
Qed.

(** C7: a pairing that returns adds at most one frame, labelled with
    the pairing's literal in every row, and that frame has rows for
    exactly the wafers that both renamed subsets have rows for. *)
Theorem pairing_keeps_common_wafers (label : string) (left right : DataFrame)
  (acc : list DataFrame) (lg : list log_record) (out : list DataFrame) :
  well_formed left -> well_formed right ->
  pair_modules label left right acc = (lg, Ok out) ->
  exists produced,
    out = acc ++ produced
    /\ length produced <= 1
    /\ Forall (fun d =>
                 Forall (fun row =>
                           lookup_cell "POLISH" d row = Some (VStr label))
                        (rows d)) produced
    /\ forall w, In w (flat_map wafer_ids produced)
                 <-> In w (wafer_ids left) /\ In w (wafer_ids right).
Proof.
  intros Wl Wr H. apply pair_modules_Ok in H as [[-> E]|(m & Hm & ->)].
  - exists []. rewrite app_nil_r.
    split; [reflexivity|]. split; [simpl; lia|]. split; [constructor|].
    intros w. simpl. split; [tauto|].
    intros [Hl Hr]. destruct E as [E|E]; apply empty_no_wafers in E.
    + now rewrite E in Hl.
    + now rewrite E in Hr.
  - exists [assign_const "POLISH" (VStr label) m].
    assert (Wm : well_formed m)
      by exact (merge_inner_well_formed _ _ _ _ Wl Wr Hm).
    split; [reflexivity|]. split; [simpl; lia|]. split.
    + constructor; [|constructor]. now apply assign_const_lookup.
    + intros w. simpl.
      rewrite app_nil_r, assign_const_wafer_ids by (auto; discriminate).
      now apply merge_inner_wafers.
Qed.

Lemma fold_insert_lookup (pairs : list (string * string))
  (d : gmap string string) (k v : string) :
  fold_left (fun d p => <[fst p := snd p]> d) pairs d !! k = Some v ->
  In (k, v) pairs \/ d !! k = Some v.
Proof.
  revert d. induction pairs as [|[k' v'] pairs IH]; intros d; simpl; [auto|].
  intros H. destruct (IH _ H) as [H'|H']; [auto|].
  apply lookup_insert_Some in H' as [[-> ->]|[_ H']]; auto.
Qed.

(** Every canonical name in the dictionary of a marker contains the
    marker. *)
Lemma build_rename_dict_values (marker : string) (t : para_table)
  (k v : string) :
  build_rename_dict marker t !! k = Some v -> contains marker v = true.
Proof.
  unfold build_rename_dict, dict_of_pairs. intros H.
  apply fold_insert_lookup in H as [H|H]; [|now rewrite lookup_empty in H].
  induction t as [|[name src pn] t IH]; simpl in H; [contradiction|].
  destruct name as [n|]; simpl in H; [|auto].
  destruct (contains marker n) eqn:E; simpl in H; [|auto].
  destruct src as [s|]; simpl in H; [|auto].
  destruct H as [[= <- <-]|H]; auto.
Qed.

Lemma and_then_Ok {A B} (c : logged A) (k : A -> logged B)
  (lg : list log_record) (b : B) :
  and_then c k = (lg, Ok b) ->
  exists l1 a l2, c = (l1, Ok a) /\ k a = (l2, Ok b).
Proof.
  unfold and_then. destruct c as [l1 [a|e]]; [|discriminate].
  destruct (k a) as [l2 r] eqn:E. intros [= _ ->]. now exists l1, a, l2.
Qed.

(** A subset without a MODULE column keeps none through the renaming of
    its columns. *)
Lemma renamed_clean (para_info : para_table) (marker tag : string)
  (df df' : DataFrame) (lg : list log_record) :
  contains marker "MODULE" = false ->
  well_formed df -> ~ In "MODULE" (columns df) ->
  rename_columns_with para_info marker tag df = (lg, Ok df') ->
  well_formed df' /\ ~ In "MODULE" (columns df').
Proof.
  intros Hm W N. unfold rename_columns_with.
  destruct (empty df || is_nil para_info).
  - intros [= _ <-]. auto.
  - simpl. intros [= _ <-]. split; [now apply rename_columns_well_formed|].
    unfold rename_columns. simpl. intros H.
    apply in_map_iff in H as (c & E & Hc).
    destruct (build_rename_dict marker para_info !! c) as [v|] eqn:L; simpl in E.
    + apply build_rename_dict_values in L. congruence.
    + congruence.
Qed.

Lemma subset_clean (marker : string) (series : list string) (data : DataFrame) :
  well_formed data ->
  well_formed (drop_columns ["MODULE"] (module_subset marker series data))
  /\ ~ In "MODULE"
         (columns (drop_columns ["MODULE"] (module_subset marker series data))).
Proof.
  intros W. split.
  - now apply drop_columns_well_formed, mask_rows_well_formed.
  - intros H. apply drop_columns_columns in H as [_ H]. apply H. now left.
Qed.

Lemma dropped_clean (names : list string) (df : DataFrame) :
  well_formed df /\ ~ In "MODULE" (columns df) ->
  well_formed (drop_columns names df)
  /\ ~ In "MODULE" (columns (drop_columns names df)).
Proof.
  intros [W N]. split; [now apply drop_columns_well_formed|].
  intros H. now apply drop_columns_columns in H as [H _].
Qed.

(** The frames a pairing adds carry its label and no MODULE column. *)
Lemma pair_modules_labelled (label : string) (l r : DataFrame)
  (acc out : list DataFrame) (lg : list log_record) (P : DataFrame -> Prop) :
  well_formed l /\ ~ In "MODULE" (columns l) ->
  well_formed r /\ ~ In "MODULE" (columns r) ->
  (forall d,
      ~ In "MODULE" (columns d) -> In "POLISH" (columns d) ->
      Forall (fun row => lookup_cell "POLISH" d row = Some (VStr label)) (rows d) ->
      P d) ->
  Forall P acc ->
  pair_modules label l r acc = (lg, Ok out) ->
  Forall P out.
Proof.
  intros [Wl Nl] [Wr Nr] HP Hacc H.
  apply pair_modules_Ok in H as [[-> _]|(m & Hm & ->)]; [exact Hacc|].
  apply Forall_app. split; [exact Hacc|]. constructor; [|constructor].
  assert (Wm : well_formed m)
    by exact (merge_inner_well_formed _ _ _ _ Wl Wr Hm).
  apply HP.
  - intros H. apply assign_const_columns in H as [H|H]; [|discriminate].
    apply (merge_inner_columns _ _ _ _ _ Hm) in H as (c0 & Hc0 & E).
    destruct E as [<-|[E|E]].
    + tauto.
    + symmetry in E. now apply suffix_x_not in E.
    + symmetry in E. now apply suffix_y_not in E.
  - apply assign_const_has_column.
  - now apply assign_const_lookup.
Qed.

(** C10, as the code has it: for an input that passes validation and
    has a MODULE column, the table that [process] returns has no MODULE
    column, and each of its rows has "AB" or "CD" under POLISH. *)
Theorem process_output_polish (validate_input : DataFrame -> bool)
  (para_info : para_table) (data out : DataFrame) (lg : list log_record) :
  well_formed data ->
  validate_input data = true ->
  In "MODULE" (columns data) ->
  process validate_input para_info data = (lg, Ok out) ->
  ~ In "MODULE" (columns out)
  /\ Forall (fun row =>
               lookup_cell "POLISH" out row = Some (VStr "AB")
               \/ lookup_cell "POLISH" out row = Some (VStr "CD"))
            (rows out).
Proof.
  intros W V M. unfold process. rewrite V. apply mem_In in M. rewrite M.
  cbn [negb]. intros H.
  apply and_then_Ok in H as (l0 & module_col & l0' & _ & H). cbv zeta in H.
  apply and_then_Ok in H as (l1 & [] & l1' & _ & H).
  apply and_then_Ok in H as (la & a & la' & Ha & H).
  apply and_then_Ok in H as (lb & b & lb' & Hb & H).
  apply and_then_Ok in H as (lc & c & lc' & Hc & H).
  apply and_then_Ok in H as (ld & d & ld' & Hd & H).
  apply and_then_Ok in H as (l2 & r1 & l2' & H1 & H).
  apply and_then_Ok in H as (l3 & r2 & l3' & H2 & H).
  set (good := fun d : DataFrame =>
         ~ In "MODULE" (columns d) /\ In "POLISH" (columns d)
         /\ Forall (fun row =>
                      lookup_cell "POLISH" d row = Some (VStr "AB")
                      \/ lookup_cell "POLISH" d row = Some (VStr "CD"))
                   (rows d)).
  pose proof (fun marker => subset_clean marker
                (map (fun v => py_str (fillna (VStr "") v)) module_col) data W)
    as Hsub.
  unfold _rename_columns_polishAC, _rename_columns_polishBD in Ha, Hb, Hc, Hd.
  apply (renamed_clean _ "P1_" _ _ _ _ eq_refl
           (proj1 (Hsub _)) (proj2 (Hsub _))) in Ha.
  apply (renamed_clean _ "P2_" _ _ _ _ eq_refl
           (proj1 (Hsub _)) (proj2 (Hsub _))) in Hb.
  apply (renamed_clean _ "P1_" _ _ _ _ eq_refl
           (proj1 (Hsub _)) (proj2 (Hsub _))) in Hc.
  apply (renamed_clean _ "P2_" _ _ _ _ eq_refl
           (proj1 (Hsub _)) (proj2 (Hsub _))) in Hd.
  apply (dropped_clean base_col) in Hb, Hd.
  assert (G1 : Forall good r1).
  { apply (pair_modules_labelled _ _ _ _ _ _ good Ha Hb) in H1; auto.
    intros x N I F. repeat split; auto.
    eapply List.Forall_impl; [|exact F]. cbv beta. auto. }
  assert (G2 : Forall good r2).
  { apply (pair_modules_labelled _ _ _ _ _ _ good Hc Hd) in H2; auto.
    intros x N I F. repeat split; auto.
    eapply List.Forall_impl; [|exact F]. cbv beta. auto. }
  rewrite List.Forall_forall in G2.
  destruct (is_nil r2).
  - apply and_then_Ok in H as (l4 & [] & l4' & _ & H).
    injection H as _ <-. simpl. split; [tauto|constructor].
  - apply and_then_Ok in H as (l4 & merged & l4' & Hcat & H).
    apply and_then_Ok in H as (l5 & [] & l5' & _ & H).
    injection H as _ <-. injection Hcat as _ Hcat. split.
    + intros Hin.
      destruct (concat_rows_columns _ _ _ Hcat Hin) as (x & Hx & Hc').
      now apply (G2 x Hx).
    + apply List.Forall_forall. intros row Hrow.
      destruct (concat_rows_rows _ _ _ Hcat Hrow) as (x & row0 & Hx & Hr & E).
      destruct (G2 x Hx) as (_ & Hp & F).
      rewrite List.Forall_forall in F. rewrite (E "POLISH" Hp). now apply F.
Qed.

Lemma group_a_well_formed : well_formed group_a.
Proof. repeat constructor. Qed.

Lemma group_b_well_formed : well_formed group_b.
Proof. repeat constructor. Qed.

Lemma pairing_keeps_common_wafers_witness :
  exists produced,
    [group_ab] = [] ++ produced
    /\ length produced <= 1
    /\ Forall (fun d =>
                 Forall (fun row =>
                           lookup_cell "POLISH" d row = Some (VStr "AB"))
                        (rows d)) produced
    /\ forall w, In w (flat_map wafer_ids produced)
                 <-> In w (wafer_ids group_a) /\ In w (wafer_ids group_b).
Proof.
  apply (pairing_keeps_common_wafers "AB" group_a group_b []
           [(INFO, "合并AB模块: 1 行")] [group_ab]).
  - exact group_a_well_formed.
  - exact group_b_well_formed.
  - reflexivity.
Defined.

(** The example of the specification: group A has rows for w1 and w2,
    group B for w2 and w3; the pairing "AB" has wafer w2 only. *)
Lemma pairing_example :
  wafer_ids group_a = [VStr "w1"; VStr "w2"]
  /\ wafer_ids group_b = [VStr "w2"; VStr "w3"]
  /\ pair_modules "AB" group_a group_b []
     = ([(INFO, "合并AB模块: 1 行")], Ok [group_ab])
  /\ wafer_ids group_ab = [VStr "w2"].
Proof. repeat split; reflexivity. Qed.

(** The same example through [process]: rows tagged PolishA for w1 and
    w2, rows tagged PolishB for w2 and w3. *)
Lemma process_example :
  process accept_all mapping modules_table = (modules_log, Ok modules_out).
Proof. vm_compute. reflexivity. Qed.

Lemma modules_table_well_formed : well_formed modules_table.
Proof. repeat constructor. Qed.

Lemma process_output_polish_witness :
  ~ In "MODULE" (columns modules_out)
  /\ Forall (fun row =>
               lookup_cell "POLISH" modules_out row = Some (VStr "AB")
               \/ lookup_cell "POLISH" modules_out row = Some (VStr "CD"))
            (rows modules_out).
Proof.
  apply (process_output_polish accept_all mapping modules_table modules_out
           modules_log).
  - exact modules_table_well_formed.
  - reflexivity.
  - simpl. tauto.
  - vm_compute. reflexivity.
Defined.

(** Against C10 as stated: a table without a MODULE column comes back as
    it is, with a row and without a POLISH column; a table that fails
    validation comes back as it is, with its MODULE column. *)
Lemma process_returns_input_unlabelled :
  process accept_all mapping no_module_table
  = ([(WARNING, "缺少MODULE列，跳过重命名处理")], Ok no_module_table)
  /\ rows no_module_table <> []
  /\ Forall (fun row => lookup_cell "POLISH" no_module_table row = None)
            (rows no_module_table)
  /\ process reject_all mapping modules_table = ([], Ok modules_table)
  /\ In "MODULE" (columns modules_table).
Proof.
  repeat split; try reflexivity.
  - discriminate.
  - repeat constructor.
  - simpl. tauto.
Qed.

End ProcessFacts.

(** ** area.py: the indicator columns of lines 61-65 *)

Module IndicatorFacts.
Import Pd PyStr Area Spec PdFacts.

(** After [df[name] = v] the column [name] is [v] in every row. *)
Lemma assign_const_getitem_same (name : string) (v : value) (df : DataFrame) :
  well_formed df ->
  getitem (assign_const name v df) name = Ok (map (fun _ => v) (rows df)).
Proof.
  intros W. pose proof (assign_const_lookup name v df W) as L.
  pose proof (assign_const_has_column name v df) as Hin.
  apply position_In in Hin as [p P].
  apply getitem_Ok. exists p. split; [exact P|].
  rewrite List.Forall_forall in L. unfold lookup_cell in L. rewrite P in L.
  assert (E : forall row, In row (rows (assign_const name v df)) -> cell p row = v).
  { intros row Hrow. specialize (L row Hrow). simpl in L. congruence. }
  revert E. unfold assign_const. destruct (mem name (columns df)); simpl;
    intros E; rewrite map_map; apply map_ext_in; intros row Hrow;
    symmetry; apply E; apply in_map_iff; now exists row.
Qed.

Lemma assign_where_well_formed (mask : list bool) (name : string) (v : value)
  (df : DataFrame) :
  well_formed df -> well_formed (assign_where mask name v df).
Proof.
  unfold well_formed, assign_where. rewrite !List.Forall_forall. simpl.
  intros W row H. apply in_map_iff in H as ([b row'] & <- & H).
  apply in_combine_r in H. specialize (W row' H). simpl.
  destruct b; [|exact W]. rewrite length_map, length_combine. lia.
Qed.

Lemma assign_where_cells (mask : list bool) (name : string) (v : value)
  (df : DataFrame) (i : nat) :
  well_formed df -> i < length (columns df) ->
  map (cell i) (rows (assign_where mask name v df))
  = map (fun p : bool * list value =>
           if fst p && String.eqb (nth i (columns df) EmptyString) name
           then v else cell i (snd p))
        (combine mask (rows df)).
Proof.
  unfold well_formed, assign_where. rewrite List.Forall_forall. simpl.
  intros W Hi. rewrite map_map. apply map_ext_in. intros [b row] H.
  apply in_combine_r in H. specialize (W row H). simpl.
  destruct b; [|reflexivity]. simpl. now apply combine_cell.
Qed.

Lemma map_snd_combine {A B C} (f : B -> C) (xs : list A) (ys : list B) :
  length xs = length ys ->
  map (fun p : A * B => f (snd p)) (combine xs ys) = map f ys.
Proof.
  revert ys. induction xs as [|x xs IH]; intros [|y ys] H; try discriminate;
    [reflexivity|].
  simpl. f_equal. apply IH. simpl in H. lia.
Qed.

(** [df.loc[mask, name] = v] leaves the other columns as they are. *)
Lemma assign_where_getitem_other (mask : list bool) (name other : string)
  (v : value) (df : DataFrame) :
  other <> name -> well_formed df -> length mask = length (rows df) ->
  getitem (assign_where mask name v df) other = getitem df other.
Proof.
  intros Hne W Hlen. unfold getitem at 1 2.
  change (columns (assign_where mask name v df)) with (columns df).
  destruct (position other (columns df)) as [i|] eqn:P; [|reflexivity].
  destruct (position_Some _ _ _ P) as [Hi Hn]. f_equal.
  rewrite assign_where_cells by assumption. rewrite Hn.
  apply String.eqb_neq in Hne. rewrite Hne.
  rewrite <- (map_snd_combine (cell i) mask (rows df) Hlen).
  apply map_ext. intros [b row]. simpl. now rewrite andb_false_r.
Qed.

(** ... and puts [v] in the column [name] where the mask holds. *)
Lemma assign_where_getitem_same (mask : list bool) (name : string) (v : value)
  (df : DataFrame) (col : list value) :
  well_formed df -> getitem df name = Ok col ->
  getitem (assign_where mask name v df) name
  = Ok (map (fun p : bool * value => if fst p then v else snd p)
            (combine mask col)).
Proof.
  intros W H. apply getitem_Ok in H as (i & P & ->).
  apply getitem_Ok. exists i. split; [exact P|].
  destruct (position_Some _ _ _ P) as [Hi Hn].
  rewrite assign_where_cells by assumption. rewrite Hn, String.eqb_refl.
  generalize (rows df). induction mask as [|b mask IH]; intros [|row rs];
    try reflexivity.
  simpl. rewrite andb_true_r. f_equal. apply IH.
Qed.

Lemma assign_where_rows_length (mask : list bool) (name : string) (v : value)
  (df : DataFrame) :
  length mask = length (rows df) ->
  length (rows (assign_where mask name v df)) = length (rows df).
Proof.
  intros H. unfold assign_where. simpl. rewrite length_map, length_combine. lia.
Qed.

Lemma assign_const_rows_length (name : string) (v : value) (df : DataFrame) :
  length (rows (assign_const name v df)) = length (rows df).
Proof.
  unfold assign_const. destruct (mem name (columns df)); simpl;
    now rewrite length_map.
Qed.

(** Lines 61-62 for any list of zone numbers with distinct labels. *)
Lemma init_columns (ks : list nat) (df : DataFrame) :
  well_formed df -> List.NoDup (map indicator ks) ->
  let df' := fold_left (fun d i => assign_const (indicator i) (VInt 0) d) ks df in
  well_formed df'
  /\ (forall other, ~ In other (map indicator ks) ->
                    getitem df' other = getitem df other)
  /\ (forall k, In k ks ->
                getitem df' (indicator k) = Ok (map (fun _ => VInt 0) (rows df))).
Proof.
  revert df. induction ks as [|k ks IH]; intros df W ND; simpl.
  - repeat split; [exact W|tauto].
  - inversion ND as [|? ? Hk ND']; subst.
    set (d1 := assign_const (indicator k) (VInt 0) df).
    assert (W1 : well_formed d1) by now apply assign_const_well_formed.
    destruct (IH d1 W1 ND') as (W' & Ho & Hs). split; [exact W'|]. split.
    + intros other Hn. rewrite Ho by tauto.
      apply assign_const_getitem_other; [|exact W].
      intros ->. apply Hn. now left.
    + intros k' [<-|Hk'].
      * rewrite Ho by exact Hk. now apply assign_const_getitem_same.
      * rewrite (Hs k' Hk'). f_equal.
        unfold d1. clear. unfold assign_const.
        destruct (mem _ _); simpl; rewrite map_map; reflexivity.
Qed.

Lemma mark_zero_column (f : value -> bool) (areas : list value) {A} (xs : list A) :
  length xs = length areas ->
  map (fun p : bool * value => if fst p then VInt 1 else snd p)
      (combine (map f areas) (map (fun _ => VInt 0) xs))
  = map (fun a => VInt (if f a then 1 else 0)) areas.
Proof.
  revert xs. induction areas as [|a areas IH]; intros [|x xs] H;
    try discriminate; [reflexivity|].
  simpl. rewrite IH by (simpl in H; lia). now destruct (f a).
Qed.

(** Lines 64-65 for any list of zone numbers with distinct labels,
    on a frame whose indicator columns are all 0. *)
Lemma mark_columns (ks : list nat) (df : DataFrame) (areas : list value)
  (zeros : list value) :
  well_formed df -> getitem df "AREA" = Ok areas ->
  List.NoDup (map indicator ks) -> ~ In "AREA" (map indicator ks) ->
  zeros = map (fun _ => VInt 0) areas ->
  (forall k, In k ks -> getitem df (indicator k) = Ok zeros) ->
  exists out,
    for_each ks
      (fun d i =>
         let* area := getitem d "AREA" in
         Ok (assign_where (map (equals_int i) area) (indicator i) (VInt 1) d))
      df = Ok out
    /\ well_formed out
    /\ (forall other, ~ In other (map indicator ks) ->
                      getitem out other = getitem df other)
    /\ (forall k, In k ks ->
                  getitem out (indicator k)
                  = Ok (map (fun a => VInt (if equals_int k a then 1 else 0))
                            areas)).
Proof.
  revert df. induction ks as [|k ks IH]; intros df W HA ND NA Hz Z; simpl.
  - exists df. repeat split; [exact W|tauto].
  - rewrite HA. cbn [bind].
    inversion ND as [|? ? Hk ND']; subst.
    set (d1 := assign_where (map (equals_int k) areas) (indicator k) (VInt 1) df).
    assert (Hlen : length (map (equals_int k) areas) = length (rows df)).
    { rewrite length_map. now apply getitem_length in HA. }
    assert (HAk : "AREA" <> indicator k) by (intros E; apply NA; now left).
    assert (W1 : well_formed d1) by now apply assign_where_well_formed.
    assert (HA1 : getitem d1 "AREA" = Ok areas).
    { unfold d1. now rewrite assign_where_getitem_other by assumption. }
    destruct (IH d1 W1 HA1 ND') as (out & Hout & Wout & Ho & Hs);
      [intros H; apply NA; now right|reflexivity| |].
    { intros k' Hk'. unfold d1.
      rewrite assign_where_getitem_other;
        [apply Z; now right| |exact W|exact Hlen].
      intros E. apply Hk. rewrite <- E. now apply in_map. }
    exists out. split; [exact Hout|]. split; [exact Wout|]. split.
    + intros other Hn. rewrite Ho by (simpl in Hn; tauto).
      unfold d1. apply assign_where_getitem_other; [|exact W|exact Hlen].
      intros ->. apply Hn. now left.
    + intros k' [<-|Hk']; [|now apply Hs].
      rewrite Ho by exact Hk. unfold d1.
      rewrite (assign_where_getitem_same _ _ _ _ _ W (Z k (or_introl eq_refl))).
      f_equal. now apply mark_zero_column.
Qed.

Lemma map_pointwise {A B} (f g : A -> B) (xs : list A) (x : A) :
  map f xs = map g xs -> In x xs -> f x = g x.
Proof.
  induction xs as [|y xs IH]; simpl; [tauto|].
  intros [= E E'] [<-|H]; auto.
Qed.

Lemma indicator_labels_distinct :
  List.NoDup (map indicator (seq 1 8)) /\ ~ In "AREA" (map indicator (seq 1 8)).
Proof.
  split.
  - repeat (constructor; [simpl; intuition discriminate|]). constructor.
  - simpl. intuition discriminate.
Qed.

(** Lines 61-65 on a frame with an AREA column: every row of the frame
    they give has 0 or 1 under each of AREA1..AREA8, and 1 exactly under
    the label of its AREA value. *)
Lemma indicators_one_hot (m : DataFrame) :
  well_formed m -> In "AREA" (columns m) ->
  exists out,
    mark_indicators (init_indicators m) = Ok out
    /\ getitem out "AREA" = getitem m "AREA"
    /\ forallb (one_hot_row out) (rows out) = true.
Proof.
  intros W HA. destruct indicator_labels_distinct as [ND NA].
  apply position_In in HA as [q0 Q0].
  assert (HAm : getitem m "AREA" = Ok (map (cell q0) (rows m)))
    by (apply getitem_Ok; eauto).
  set (areas := map (cell q0) (rows m)) in *.
  destruct (init_columns (seq 1 8) m W ND) as (W0 & Ho0 & Hs0).
  fold (init_indicators m) in W0, Ho0, Hs0.
  assert (HA0 : getitem (init_indicators m) "AREA" = Ok areas)
    by now rewrite Ho0.
  destruct (mark_columns (seq 1 8) (init_indicators m) areas
              (map (fun _ => VInt 0) areas) W0 HA0 ND NA eq_refl)
    as (out & Hout & Wout & Ho & Hs).
  { intros k Hk. rewrite (Hs0 k Hk). f_equal. unfold areas.
    now rewrite map_map. }
  fold (mark_indicators (init_indicators m)) in Hout.
  exists out. split; [exact Hout|].
  assert (HAo : getitem out "AREA" = Ok areas) by now rewrite Ho.
  split; [congruence|].
  apply getitem_Ok in HAo as (q & Q & Eq).
  apply forallb_forall. intros row Hrow.
  unfold one_hot_row, lookup_cell. rewrite Q. cbn [option_map].
  apply forallb_forall. intros k Hk.
  specialize (Hs k Hk). apply getitem_Ok in Hs as (p & P & Ep).
  rewrite P. cbn [option_map]. rewrite Eq, map_map in Ep. symmetry in Ep.
  rewrite (map_pointwise _ _ _ row Ep Hrow). apply Z.eqb_refl.
Qed.

Lemma for_each_positions (df : DataFrame) (names : list string)
  (acc idx : list nat) :
  for_each names
    (fun acc name =>
       match position name (columns df) with
       | Some i => Ok (acc ++ [i])
       | None => Raise (Exn KeyError ("['" +:+ name +:+ "'] not in index"))
       end) acc = Ok idx ->
  length idx = length acc + length names.
Proof.
  revert acc. induction names as [|n names IH]; intros acc; simpl.
  - intros [= <-]. lia.
  - destruct (position n (columns df)); [|discriminate].
    intros H. apply IH in H. rewrite length_app in H. simpl in H. lia.
Qed.

Lemma select_well_formed (df out : DataFrame) (names : list string) :
  select df names = Ok out -> well_formed out.
Proof.
  unfold select.
  case_for_each E; [|discriminate].
  simpl. intros [= <-]. unfold well_formed. simpl.
  apply List.Forall_forall. intros row H.
  apply in_map_iff in H as (row0 & <- & _).
  rewrite length_map. now apply for_each_positions in E.
Qed.

Lemma reset_index_well_formed (c : Combined) (out : DataFrame) :
  reset_index c = Ok out -> well_formed out.
Proof.
  unfold reset_index. repeat case_match; try discriminate.
  intros [= <-]. unfold well_formed. simpl.
  apply List.Forall_forall. intros row Hrow.
  apply list_elem_of_In, elem_of_lookup_imap in Hrow as (i & k & -> & _).
  simpl. now rewrite !length_map.
Qed.

Lemma combine_metrics_well_formed (frames : list MetricFrame) (out : DataFrame) :
  combine_metrics frames = Ok out -> well_formed out.
Proof.
  rewrite AreaFacts.combine_metrics_eq, AreaFacts.copies_are_equal.
  destruct (concat_reset frames) as [d|e] eqn:E; [|discriminate].
  intros [= <-]. unfold concat_reset in E.
  destruct (concat_axis1 frames); [|discriminate].
  now apply reset_index_well_formed in E.
Qed.

Lemma mark_indicators_needs_area (df out : DataFrame) :
  mark_indicators df = Ok out -> In "AREA" (columns df).
Proof.
  unfold mark_indicators. simpl.
  destruct (getitem df "AREA") as [a|e] eqn:E; [|discriminate].
  intros _. apply getitem_Ok in E as (i & P & _).
  apply position_In. eauto.
Qed.

(** X6: every table that lines 21-67 return after a reshape has one-hot
    indicators in each of its rows. *)
Lemma reshape_one_hot (df out : DataFrame) (area_col other_col : list string)
  (metrics : pyset) :
  reshape df area_col other_col metrics = ([], Ok out) ->
  forallb (one_hot_row out) (rows out) = true.
Proof.
  unfold reshape.
  destruct (melt_all df area_col metrics) as [[|f fs]|e]; try discriminate.
  intros [= H].
  destruct (combine_metrics (f :: fs)) as [area_data|] eqn:E1; [|discriminate].
  destruct (select df other_col) as [other_data|] eqn:E2; [|discriminate].
  simpl in H.
  destruct (merge_inner "WAFER_ID" area_data other_data) as [merged|] eqn:E3;
    [|discriminate].
  simpl in H.
  apply combine_metrics_well_formed in E1.
  apply select_well_formed in E2.
  pose proof (merge_inner_well_formed _ _ _ _ E1 E2 E3) as W.
  assert (HA : In "AREA" (columns merged)).
  { apply mark_indicators_needs_area in H.
    destruct (indicator_labels_distinct) as [ND NA].
    destruct (init_columns (seq 1 8) merged W ND) as (_ & Ho & _).
    fold (init_indicators merged) in Ho.
    apply position_In in H as [i P].
    assert (G : getitem (init_indicators merged) "AREA"
                = Ok (map (cell i) (rows (init_indicators merged))))
      by (apply getitem_Ok; eauto).
    rewrite (Ho "AREA" NA) in G. apply getitem_Ok in G as (j & Pj & _).
    apply position_In. eauto. }
  destruct (indicators_one_hot merged W HA) as (out' & Hout & _ & Hone).
  rewrite Hout in H. injection H as <-. exact Hone.
Qed.

End IndicatorFacts.

(** ** rename.py: the derived thickness on any table *)

Module ThicknessFacts.
Import Pd PyStr Rename Spec PdFacts.

Lemma mean_cell_raises (x : value) :
  mean_cell x = Raise (Exn NameError "name 'np' is not defined").
Proof. destruct x as [| | | |[|y l]]; reflexivity. Qed.

Lemma apply_cells_mean_raises (col : list value) :
  col <> [] ->
  apply_cells mean_cell col = Raise (Exn NameError "name 'np' is not defined").
Proof.
  destruct col as [|x col]; [congruence|]. intros _.
  unfold apply_cells. simpl. now rewrite mean_cell_raises.
Qed.

Lemma for_each_collect_length {A B} (f : A -> result B) (xs : list A)
  (acc out : list B) :
  for_each xs (fun acc x => let* y := f x in Ok (acc ++ [y])) acc = Ok out ->
  length out = length acc + length xs.
Proof.
  revert acc. induction xs as [|x xs IH]; intros acc; simpl.
  - intros [= <-]. lia.
  - destruct (f x) as [y|e]; simpl; [|discriminate].
    intros H. apply IH in H. rewrite length_app in H. simpl in H. lia.
Qed.

Lemma apply_cells_length (f : value -> result value) (col out : list value) :
  apply_cells f col = Ok out -> length out = length col.
Proof. intros H. now apply for_each_collect_length in H. Qed.

Lemma split_raw_length (df : DataFrame) (raw : string) (col : list value) :
  split_raw df raw = Ok col -> length col = length (rows df).
Proof.
  unfold split_raw.
  destruct (1 <? count_label raw (columns df)); [discriminate|].
  destruct (getitem df raw) as [c|e] eqn:E; [|discriminate]. simpl.
  unfold str_accessor. destruct (_ && _); [discriminate|]. simpl.
  intros [= <-]. rewrite !length_map. now apply getitem_length in E.
Qed.

Lemma assign_column_rows (name : string) (vals : list value) (df : DataFrame) :
  length vals = length (rows df) ->
  length (rows (assign_column name vals df)) = length (rows df).
Proof.
  intros H. unfold assign_column.
  destruct (mem name (columns df)); simpl;
    rewrite length_map, length_combine; lia.
Qed.

Lemma assign_column_columns (name : string) (vals : list value)
  (df : DataFrame) (c : string) :
  In c (columns (assign_column name vals df)) -> In c (columns df) \/ c = name.
Proof.
  unfold assign_column. destruct (mem name (columns df)); simpl; [auto|].
  intros H. apply in_app_or in H as [H|[H|[]]]; auto.
Qed.

(** X13: the derived thickness is never stored, whatever the table and
    whatever [float] accepts: a table with rows always leaves through
    the [except] clause, and the frame it gets back has at most the two
    list columns more than it had. *)
Lemma thickness_always_fails (py_float : string -> option Q) (df : DataFrame) :
  empty df = false ->
  exists e df',
    _cal_thk_from_raw_value py_float df = thk_failed e df'
    /\ forall c, In c (columns df') ->
                 In c (columns df) \/ c = "PRE_VALUE_LIST" \/ c = "PST_VALUE_LIST".
Proof.
  intros Hne. unfold _cal_thk_from_raw_value. rewrite Hne.
  assert (Hrows : rows df <> []).
  { unfold empty in Hne. destruct (columns df), (rows df); congruence. }
  destruct (split_raw df "PRE_GLB_RAW_VALUE") as [c1|e] eqn:E1;
    [|exists e, df; auto].
  apply split_raw_length in E1.
  set (d1 := assign_column "PRE_VALUE_LIST" c1 df).
  assert (L1 : length (rows d1) = length (rows df))
    by now apply assign_column_rows.
  assert (C1 : forall c, In c (columns d1) ->
                         In c (columns df) \/ c = "PRE_VALUE_LIST"
                         \/ c = "PST_VALUE_LIST").
  { intros c H. apply assign_column_columns in H. tauto. }
  destruct (let* c := getitem d1 "PRE_VALUE_LIST" in apply_cells (parse_cell py_float) c)
    as [c2|e] eqn:E2; [|exists e, d1; auto].
  destruct (getitem d1 "PRE_VALUE_LIST") as [g2|] eqn:G2; [|discriminate].
  simpl in E2. apply apply_cells_length in E2. apply getitem_length in G2.
  set (d2 := assign_column "PRE_VALUE_LIST" c2 d1).
  assert (L2 : length (rows d2) = length (rows df))
    by (unfold d2; rewrite assign_column_rows; congruence).
  assert (C2 : forall c, In c (columns d2) ->
                         In c (columns df) \/ c = "PRE_VALUE_LIST"
                         \/ c = "PST_VALUE_LIST").
  { intros c H. apply assign_column_columns in H as [H|H]; auto. }
  destruct (split_raw d2 "PST_GLB_RAW_VALUE") as [c3|e] eqn:E3;
    [|exists e, d2; auto].
  apply split_raw_length in E3.
  set (d3 := assign_column "PST_VALUE_LIST" c3 d2).
  assert (L3 : length (rows d3) = length (rows df))
    by (unfold d3; rewrite assign_column_rows; congruence).
  assert (C3 : forall c, In c (columns d3) ->
                         In c (columns df) \/ c = "PRE_VALUE_LIST"
                         \/ c = "PST_VALUE_LIST").
  { intros c H. apply assign_column_columns in H as [H|H]; auto. }
  destruct (let* c := getitem d3 "PST_VALUE_LIST" in apply_cells (parse_cell py_float) c)
    as [c4|e] eqn:E4; [|exists e, d3; auto].
  destruct (getitem d3 "PST_VALUE_LIST") as [g4|] eqn:G4; [|discriminate].
  simpl in E4. apply apply_cells_length in E4. apply getitem_length in G4.
  set (d4 := assign_column "PST_VALUE_LIST" c4 d3).
  assert (L4 : length (rows d4) = length (rows df))
    by (unfold d4; rewrite assign_column_rows; congruence).
  assert (C4 : forall c, In c (columns d4) ->
                         In c (columns df) \/ c = "PRE_VALUE_LIST"
                         \/ c = "PST_VALUE_LIST").
  { intros c H. apply assign_column_columns in H as [H|H]; auto. }
  destruct (getitem d4 "PRE_VALUE_LIST") as [g5|e] eqn:G5; simpl.
  - rewrite apply_cells_mean_raises.
    + eexists _, d4. split; [reflexivity|exact C4].
    + apply getitem_length in G5. intros ->. simpl in G5.
      destruct (rows df); [congruence|]. simpl in *. lia.
  - exists e, d4. auto.
Qed.

End ThicknessFacts.

(** ** area.py: column discovery, zone numbers and the melt *)

Module AreaExtra.
Import Pd PyStr Area Spec StrFacts PdFacts AreaFacts.

Lemma other_columns_filter (df : DataFrame) :
  other_columns df
  = List.filter (fun c => negb (re_search_area c)) (columns df).
Proof.
  unfold other_columns. apply filter_ext_in. intros c Hc. f_equal.
  unfold area_columns. destruct (re_search_area c) eqn:E.
  - apply mem_In, filter_In. auto.
  - apply mem_false. intros H. apply filter_In in H as [_ H]. congruence.
Qed.

(** X1: lines 5-6 split the columns in two: [area_col] has exactly the
    zone-indexed ones, [other_col] exactly the rest, and no column is
    lost or taken twice. *)
Theorem columns_partition (df : DataFrame) :
  (forall c, In c (area_columns df) <-> In c (columns df) /\ zone_indexed c)
  /\ (forall c, In c (other_columns df)
                <-> In c (columns df) /\ ~ zone_indexed c)
  /\ length (area_columns df) + length (other_columns df)
     = length (columns df).
Proof.
  rewrite other_columns_filter. unfold area_columns.
  split; [|split].
  - intros c. rewrite filter_In, re_search_area_spec. reflexivity.
  - intros c. rewrite filter_In, negb_true_iff, not_zone_indexed. reflexivity.
  - apply filter_length.
Qed.

Lemma int_of_digits_nonneg (ds : list N) (acc : Z) :
  (0 <= acc)%Z ->
  (0 <= fold_left (fun acc d => (10 * acc + Z.of_N d)%Z) ds acc)%Z.
Proof.
  revert acc. induction ds as [|d ds IH]; intros acc Hacc; [exact Hacc|].
  simpl. apply IH. lia.
Qed.

Lemma re_extract_area_found (s : string) :
  re_search_area s = true ->
  exists ds, re_extract_area s = Some ds /\ ds <> [].
Proof.
  induction s as [|a s IH].
  - intros H. vm_compute in H. discriminate.
  - rewrite re_search_area_unfold. cbn [re_extract_area].
    destruct (match_area_here (String a s)) as [[ds rest]|] eqn:E.
    + intros _. exists ds. split; [reflexivity|].
      now apply match_area_here_inv in E as (post & _ & _ & _ & Hds).
    + exact IH.
Qed.

(** X2: line 42 finds a zone number in every column that line 5
    selected: for a zone-indexed column the extraction gives a number
    between 0 and the largest int64, or the number is too large for an
    int64, or its digits are more than the 4300 that [int] reads; it
    never comes back without a match. *)
Theorem zone_number_extracted (col : string) :
  zone_indexed col ->
  (exists z, area_of_column col = Ok z /\ (0 <= z <= int64_max)%Z)
  \/ area_of_column col
     = Raise (Exn OverflowError "Python int too large to convert to C long")
  \/ (exists ds msg,
        re_extract_area col = Some ds /\ 4300 < length ds
        /\ area_of_column col = Raise (Exn ValueError msg)).
Proof.
  intros H. apply re_search_area_spec, re_extract_area_found in H
    as (ds & E & _).
  unfold area_of_column. rewrite E.
  destruct (int_max_str_digits <? length ds) eqn:Lim.
  - right. right. apply Nat.ltb_lt in Lim. eauto.
  - destruct (int_of_digits ds <=? int64_max)%Z eqn:L;
      [left|right; now left].
    eexists. split; [reflexivity|]. split.
    + apply int_of_digits_nonneg. lia.
    + now apply Z.leb_le.
Qed.

Lemma zone_number_extracted_witness :
  (exists z, area_of_column "A_AREA1" = Ok z /\ (0 <= z <= int64_max)%Z)
  \/ area_of_column "A_AREA1"
     = Raise (Exn OverflowError "Python int too large to convert to C long")
  \/ (exists ds msg,
        re_extract_area "A_AREA1" = Some ds /\ 4300 < length ds
        /\ area_of_column "A_AREA1" = Raise (Exn ValueError msg)).
Proof.
  apply (zone_number_extracted "A_AREA1").
  exists "A_", "1". split; [reflexivity|discriminate].
Defined.

Lemma select_positions (df : DataFrame) (names : list string)
  (acc idx : list nat) :
  for_each names
    (fun acc name =>
       match position name (columns df) with
       | Some i => Ok (acc ++ [i])
       | None => Raise (Exn KeyError ("['" +:+ name +:+ "'] not in index"))
       end) acc = Ok idx ->
  exists found,
    idx = acc ++ found
    /\ Forall2 (fun name i => position name (columns df) = Some i) names found.
Proof.
  revert acc. induction names as [|n names IH]; intros acc; simpl.
  - intros [= <-]. exists []. split; [now rewrite app_nil_r|constructor].
  - destruct (position n (columns df)) as [i|] eqn:P; [|discriminate].
    intros H. apply IH in H as (found & -> & F).
    exists (i :: found). split; [now rewrite <- app_assoc|].
    now constructor.
Qed.

(** What [df[names]] is when it returns. *)
Lemma select_Ok (df sub : DataFrame) (names : list string) :
  select df names = Ok sub ->
  exists idx,
    Forall2 (fun name i => position name (columns df) = Some i) names idx
    /\ sub = Frame names (map (fun row => map (fun i => cell i row) idx) (rows df)).
Proof.
  unfold select. case_for_each E; [|discriminate].
  simpl. intros [= <-].
  apply select_positions in E as (found & -> & F). now exists found.
Qed.

Lemma select_missing (df : DataFrame) (names : list string) (name : string)
  (acc : list nat) :
  Forall (fun c => In c (columns df)) names -> ~ In name (columns df) ->
  for_each (names ++ [name])
    (fun acc name =>
       match position name (columns df) with
       | Some i => Ok (acc ++ [i])
       | None => Raise (Exn KeyError ("['" +:+ name +:+ "'] not in index"))
       end) acc
  = Raise (Exn KeyError ("['" +:+ name +:+ "'] not in index")).
Proof.
  intros F N. revert acc. induction F as [|c names Hc F IH]; intros acc; simpl.
  - apply position_None in N. now rewrite N.
  - apply position_In in Hc as [i P]. rewrite P. apply IH.
Qed.

(** X3: without a WAFER_ID column the melt of line 36 raises a
    [KeyError], whatever the metric and its columns. *)
Theorem melt_metric_needs_wafer_id (df : DataFrame) (metric : string)
  (metric_cols : list string) :
  metric_cols <> [] ->
  Forall (fun c => In c (columns df)) metric_cols ->
  ~ In "WAFER_ID" (columns df) ->
  melt_metric df metric metric_cols
  = Raise (Exn KeyError "['WAFER_ID'] not in index").
Proof.
  intros _ F N. unfold melt_metric, select.
  now rewrite (select_missing df metric_cols "WAFER_ID" [] F N).
Qed.

Lemma melt_metric_needs_wafer_id_witness :
  melt_metric (Frame ["LOT"; "A_AREA1"] [ [VStr "L"; VInt 1] ]) "A_" ["A_AREA1"]
  = Raise (Exn KeyError "['WAFER_ID'] not in index").
Proof.
  apply (melt_metric_needs_wafer_id
           (Frame ["LOT"; "A_AREA1"] [ [VStr "L"; VInt 1] ]) "A_" ["A_AREA1"]).
  - discriminate.
  - apply List.Forall_cons; [simpl; tauto|apply List.Forall_nil].
  - simpl. intuition discriminate.
Defined.

Lemma melt_loop (sub : DataFrame) (wafer_at : nat) (cols : list string)
  (acc melted : list (key * value)) :
  for_each cols
    (fun acc col =>
       let* area := area_of_column col in
       let* vals := getitem sub col in
       Ok (acc ++ map (fun p : list value * value =>
                         ((cell wafer_at (fst p), area), snd p))
                      (combine (rows sub) vals)))
    acc = Ok melted ->
  exists added,
    melted = acc ++ added
    /\ length added = length cols * length (rows sub)
    /\ forall k v, In (k, v) added ->
         (exists col, In col cols /\ area_of_column col = Ok (snd k))
         /\ exists row, In row (rows sub) /\ fst k = cell wafer_at row.
Proof.
  revert acc. induction cols as [|col cols IH]; intros acc; simpl.
  - intros [= <-]. exists []. rewrite app_nil_r.
    split; [reflexivity|]. split; [reflexivity|]. intros k v [].
  - destruct (area_of_column col) as [area|] eqn:A; [|discriminate]. simpl.
    destruct (getitem sub col) as [vals|] eqn:G; [|discriminate]. simpl.
    intros H. apply IH in H as (added & -> & L & P).
    apply getitem_length in G.
    exists (map (fun p : list value * value =>
                   ((cell wafer_at (fst p), area), snd p))
                (combine (rows sub) vals) ++ added).
    split; [now rewrite <- app_assoc|]. split.
    + unfold key in *. rewrite length_app, length_map, length_combine. lia.
    + intros k v Hin. apply in_app_or in Hin as [Hin|Hin].
      * apply in_map_iff in Hin as ([row x] & [= <- <-] & Hin).
        apply in_combine_l in Hin. split; [|now exists row].
        exists col. split; [now left|exact A].
      * destruct (P k v Hin) as [(c & Hc & Ac) R]. split; [|exact R].
        exists c. split; [now right|exact Ac].
Qed.

(** X4: on a table whose labels are distinct, the frame that lines
    36-44 make for a metric from distinct columns other than WAFER_ID
    has one row per source column and input row; each row is keyed by
    the WAFER_ID of an input row and the zone number of one of the
    metric's columns, and the frame has the metric's name. *)
Theorem melt_metric_rows (df : DataFrame) (metric : string)
  (metric_cols : list string) (m : MetricFrame) :
  List.NoDup (columns df) ->
  List.NoDup metric_cols -> ~ In "WAFER_ID" metric_cols ->
  melt_metric df metric metric_cols = Ok m ->
  mf_name m = metric
  /\ length (mf_index m) = length metric_cols * length (rows df)
  /\ length (mf_values m) = length (mf_index m)
  /\ forall k, In k (mf_index m) ->
       In (fst k) (wafer_ids df)
       /\ exists col, In col metric_cols /\ area_of_column col = Ok (snd k).
Proof.
  intros _ _ _. unfold melt_metric.
  destruct (select df (metric_cols ++ ["WAFER_ID"])) as [sub|] eqn:S;
    [|discriminate]. simpl.
  destruct (mem metric (columns sub)); [discriminate|].
  destruct (String.eqb metric "original_col"); [discriminate|].
  case_for_each E; [|discriminate]. simpl.
  destruct (String.eqb metric "AREA"); [discriminate|].
  intros [= <-]. simpl.
  apply melt_loop in E as (added & -> & L & P). simpl in *.
  apply select_Ok in S as (idx & F & ->). simpl in *.
  rewrite length_map in L. rewrite !length_map.
  apply Forall2_app_inv_l in F as (idx1 & idx2 & F1 & F2 & ->).
  inversion F2 as [|? iw ? ? Pw F2']; subst. inversion F2'; subst.
  split; [reflexivity|]. split; [exact L|]. split; [reflexivity|].
  intros k H. split.
  - apply in_map_iff in H as ([k' v] & <- & Hin). simpl.
    destruct (P k' v Hin) as [_ (row & Hrow & ->)].
    apply in_map_iff in Hrow as (row0 & <- & Hrow0).
    rewrite (wafer_ids_eq df iw Pw).
    apply in_map_iff. exists row0. split; [|exact Hrow0].
    rewrite (cell_map _ 0).
    + rewrite app_nth2; rewrite (List.Forall2_length F1); [|lia].
      now rewrite Nat.sub_diag.
    + rewrite length_app, (List.Forall2_length F1). simpl. lia.
  - apply in_map_iff in H as ([k' v] & <- & Hin). simpl.
    now destruct (P k' v Hin).
Qed.

Lemma melt_metric_rows_witness :
  let m := MkMetric "A_"
             [(VStr "W1", 1%Z); (VStr "W2", 1%Z); (VStr "W1", 2%Z); (VStr "W2", 2%Z)]
             [VInt 11; VInt 21; VInt 12; VInt 22] in
  mf_name m = "A_"
  /\ length (mf_index m) = length ["A_AREA1"; "A_AREA2"] * length (rows scenario)
  /\ length (mf_values m) = length (mf_index m)
  /\ forall k, In k (mf_index m) ->
       In (fst k) (wafer_ids scenario)
       /\ exists col, In col ["A_AREA1"; "A_AREA2"]
                      /\ area_of_column col = Ok (snd k).
Proof.
  apply (melt_metric_rows scenario "A_" ["A_AREA1"; "A_AREA2"]).
  - repeat (apply List.NoDup_cons; [simpl; intuition discriminate|]).
    apply List.NoDup_nil.
  - repeat (apply List.NoDup_cons; [simpl; intuition discriminate|]).
    apply List.NoDup_nil.
  - simpl. intuition discriminate.
  - vm_compute. reflexivity.
Defined.

Lemma string_app_assoc (a b c : string) :
  (a +:+ b) +:+ c = a +:+ (b +:+ c).
Proof.
  induction a as [|x a IH]; [reflexivity|].
  change (String x ((a +:+ b) +:+ c) = String x (a +:+ (b +:+ c))).
  now f_equal.
Qed.

Lemma contains_unfold (sub s : string) :
  contains sub s
  = startswith sub s
    || match s with
       | EmptyString => false
       | String _ s' => contains sub s'
       end.
Proof. destruct s; reflexivity. Qed.

(** [sub in s] holds exactly when [s] is [sub] with something before
    and something after it. *)
Lemma contains_spec (sub s : string) :
  contains sub s = true <-> exists pre post, s = pre +:+ sub +:+ post.
Proof.
  split.
  - induction s as [|a s IH]; rewrite contains_unfold; intros H;
      apply orb_true_iff in H as [H|H]; try discriminate.
    + apply startswith_inv in H as [r ->]. now exists EmptyString, r.
    + apply startswith_inv in H as [r ->]. now exists EmptyString, r.
    + destruct (IH H) as (pre & post & ->). now exists (String a pre), post.
  - intros (pre & post & ->). induction pre as [|a pre IH].
    + change (EmptyString +:+ sub +:+ post) with (sub +:+ post).
      now rewrite contains_unfold, startswith_append.
    + change (String a pre +:+ sub +:+ post)
        with (String a (pre +:+ sub +:+ post)).
      rewrite contains_unfold, IH. apply orb_true_r.
Qed.

Lemma contains_trans (a b c : string) :
  contains a b = true -> contains b c = true -> contains a c = true.
Proof.
  rewrite !contains_spec. intros (p1 & q1 & ->) (p2 & q2 & ->).
  exists (p2 +:+ p1), (q1 +:+ q2). now rewrite !string_app_assoc.
Qed.

Lemma zone_indexed_contains_area (col : string) :
  zone_indexed col -> contains "AREA" col = true.
Proof.
  intros (pre & post & -> & _). apply contains_spec.
  now exists pre, post.
Qed.

Lemma split_without_separator (g : string) :
  contains "_" g = false -> split "_" (g +:+ "_") = [g; EmptyString].
Proof.
  induction g as [|c g IH]; [reflexivity|].
  rewrite contains_unfold. intros H. apply orb_false_iff in H as [Hc Hg].
  change (startswith "_" (String c g))
    with (Ascii.eqb "_" c && startswith EmptyString g) in Hc.
  replace (startswith EmptyString g) with true in Hc by now destruct g.
  rewrite andb_true_r, Ascii.eqb_sym in Hc.
  change (String c g +:+ "_") with (String c (g +:+ "_")).
  cbn [split]. now rewrite Hc, (IH Hg).
Qed.

Lemma slice_from_append (g s : string) (n : nat) :
  slice_from (String.length g + n) (g +:+ s) = slice_from n s.
Proof. induction g as [|c g IH]; simpl; [reflexivity|exact IH]. Qed.

Lemma filter_all {A} (f : A -> bool) (xs : list A) :
  (forall x, In x xs -> f x = true) -> List.filter f xs = xs.
Proof.
  induction xs as [|x xs IH]; simpl; intros H; [reflexivity|].
  rewrite (H x) by now left. f_equal. apply IH. auto.
Qed.

(** X5: lines 24-31 for a metric key [g_] whose prefix [g] is a piece
    of the word AREA (such as [A], the key of a column [A_AREA1]): the
    qualifier is empty, and every zone column contains the prefix, so
    the metric takes all the zone columns of the table, those of other
    metrics included. *)
Theorem prefix_inside_area_takes_every_column (g : string)
  (area_col : list string) :
  g <> EmptyString -> contains "_" g = false -> contains g "AREA" = true ->
  Forall zone_indexed area_col ->
  metric_columns area_col (g +:+ "_") = area_col.
Proof.
  intros Hne Hsep Hg Hz. unfold metric_columns.
  rewrite split_without_separator by exact Hsep.
  assert (Hlen : (0 <? String.length g) = true).
  { destruct g; [congruence|reflexivity]. }
  rewrite Hlen, slice_from_append. change (slice_from 1 "_") with EmptyString.
  change (contains "AB_PRS" "") with false. cbv iota.
  apply filter_all. intros col Hcol.
  rewrite List.Forall_forall in Hz.
  rewrite (contains_trans g "AREA" col Hg
             (zone_indexed_contains_area col (Hz col Hcol))).
  now destruct col.
Qed.

Lemma prefix_inside_area_takes_every_column_witness :
  metric_columns ["A_AREA1"; "B_AREA1"] "A_" = ["A_AREA1"; "B_AREA1"].
Proof.
  apply (prefix_inside_area_takes_every_column "A" ["A_AREA1"; "B_AREA1"]).
  - discriminate.
  - reflexivity.
  - reflexivity.
  - apply List.Forall_cons; [|apply List.Forall_cons; [|apply List.Forall_nil]].
    + exists "A_", "1". split; [reflexivity|discriminate].
    + exists "B_", "1". split; [reflexivity|discriminate].
Defined.

Lemma reshape_one_hot_witness :
  let out :=
    Frame
      ["WAFER_ID"; "AREA"; "A_"; "OTHER"; "AREA1"; "AREA2"; "AREA3";
       "AREA4"; "AREA5"; "AREA6"; "AREA7"; "AREA8"]
      [ [VStr "W1"; VInt 1; VInt 11; VStr "x";
         VInt 1; VInt 0; VInt 0; VInt 0; VInt 0; VInt 0; VInt 0; VInt 0];
        [VStr "W2"; VInt 1; VInt 21; VStr "y";
         VInt 1; VInt 0; VInt 0; VInt 0; VInt 0; VInt 0; VInt 0; VInt 0];
        [VStr "W1"; VInt 2; VInt 12; VStr "x";
         VInt 0; VInt 1; VInt 0; VInt 0; VInt 0; VInt 0; VInt 0; VInt 0];
        [VStr "W2"; VInt 2; VInt 22; VStr "y";
         VInt 0; VInt 1; VInt 0; VInt 0; VInt 0; VInt 0; VInt 0; VInt 0] ] in
  forallb (one_hot_row out) (rows out) = true.
Proof.
  intros out.
  apply (IndicatorFacts.reshape_one_hot scenario out (area_columns scenario)
           (other_columns scenario) {["A_"]}).
  vm_compute. reflexivity.
Defined.

End AreaExtra.

(** ** rename.py: the dictionaries, the token parser and the loader *)

Module RenameExtra.
Import Pd PyStr Rename Spec PdFacts RenameFacts ProcessFacts.

Lemma fold_insert_absent (pairs : list (string * string))
  (d : gmap string string) (k : string) :
  ~ In k (map fst pairs) ->
  fold_left (fun d p => <[fst p := snd p]> d) pairs d !! k = d !! k.
Proof.
  revert d. induction pairs as [|[k' v'] pairs IH]; intros d H; simpl;
    [reflexivity|].
  simpl in H. rewrite IH by tauto. apply lookup_insert_ne. tauto.
Qed.

Lemma build_rename_dict_tagged (marker : string) (t : para_table) :
  build_rename_dict marker t = dict_of_pairs (tagged_pairs marker t).
Proof.
  unfold build_rename_dict, tagged_pairs, tagged_rows. f_equal.
  induction t as [|[name src pn] t IH]; simpl; [reflexivity|].
  destruct (str_contains marker name); simpl; [|exact IH].
  destruct src as [s|]; simpl; [|exact IH].
  destruct name as [n|]; simpl; [|exact IH].
  f_equal. exact IH.
Qed.

Lemma tagged_pairs_app (marker : string) (t1 t2 : para_table) :
  tagged_pairs marker (t1 ++ t2)
  = tagged_pairs marker t1 ++ tagged_pairs marker t2.
Proof.
  unfold tagged_pairs. rewrite tagged_rows_app. apply omap_app.
Qed.

Lemma tagged_pairs_sources (marker : string) (t : para_table) :
  map fst (tagged_pairs marker t) = source_fields (tagged_rows marker t).
Proof.
  unfold tagged_pairs, source_fields, tagged_rows.
  induction t as [|[name src pn] t IH]; simpl; [reflexivity|].
  destruct name as [n|]; simpl; [|exact IH].
  destruct (contains marker n); simpl; [|exact IH].
  destruct src as [s|]; simpl; [|exact IH].
  f_equal. exact IH.
Qed.

Lemma In_omap {A B} (f : A -> option B) (xs : list A) (y : B) :
  In y (omap f xs) <-> exists x, In x xs /\ f x = Some y.
Proof.
  induction xs as [|x xs IH]; simpl.
  - split; [tauto|]. intros (x & [] & _).
  - destruct (f x) as [b|] eqn:E; simpl; rewrite IH; split.
    + intros [<-|(x' & H & E')]; [exists x; auto|exists x'; auto].
    + intros (x' & [<-|H] & E'); [left; congruence|right; eauto].
    + intros (x' & H & E'). exists x'. auto.
    + intros (x' & [<-|H] & E'); [congruence|eauto].
Qed.

Lemma tagged_pairs_In (marker : string) (t : para_table) (k v : string) :
  In (k, v) (tagged_pairs marker t) <->
  exists r, In r t /\ FROM_SRC_FIELD r = Some k
            /\ PARA_NAME_WITH_CODE r = Some v /\ contains marker v = true.
Proof.
  unfold tagged_pairs, tagged_rows. rewrite In_omap. split.
  - intros ([name src pn] & H & E). apply filter_In in H as [H C]. simpl in *.
    destruct src as [s|], name as [n|]; try discriminate.
    injection E as <- <-. apply andb_true_iff in C as [C _].
    eexists. split; [exact H|]. now repeat split.
  - intros ([name src pn] & H & E1 & E2 & C). simpl in *. subst.
    exists (ParaRow (Some v) (Some k) pn). split; [|reflexivity].
    apply filter_In. split; [exact H|]. simpl. now rewrite C.
Qed.

(** X7: a later row wins.  When the last tagged row that names a
    source field gives it the canonical name [name], the dictionary
    maps the source field to [name], whatever earlier rows said. *)
Theorem rename_dict_last_wins (marker : string) (t1 t2 : para_table)
  (r : para_row) (src name : string) :
  FROM_SRC_FIELD r = Some src -> PARA_NAME_WITH_CODE r = Some name ->
  contains marker name = true ->
  ~ In src (source_fields (tagged_rows marker t2)) ->
  build_rename_dict marker (t1 ++ r :: t2) !! src = Some name.
Proof.
  intros Hs Hn Hc Hlast. rewrite build_rename_dict_tagged.
  change (r :: t2) with ([r] ++ t2). rewrite !tagged_pairs_app.
  unfold dict_of_pairs. rewrite !fold_left_app.
  rewrite fold_insert_absent by now rewrite tagged_pairs_sources.
  unfold tagged_pairs, tagged_rows. simpl. rewrite Hs, Hn. simpl.
  rewrite Hc. simpl. rewrite Hs, Hn. simpl. apply lookup_insert_eq.
Qed.

Lemma rename_dict_last_wins_witness :
  build_rename_dict "P1_" mapping_same_source !! "THK" = Some "P1_THK_70001".
Proof.
  apply (rename_dict_last_wins "P1_"
           [ParaRow (Some "P1_THK_70000") (Some "THK") (Some "THK_70000")] []
           (ParaRow (Some "P1_THK_70001") (Some "THK") (Some "THK_70001"))
           "THK" "P1_THK_70001").
  - reflexivity.
  - reflexivity.
  - reflexivity.
  - simpl. tauto.
Defined.

(** X8: every entry of the dictionary comes from a row of the table:
    it maps the row's source field to the row's canonical name, and
    that name contains the marker; and the source fields that have an
    entry are those of the tagged rows that have one. *)
Theorem rename_dict_entries_from_rows (marker : string) (t : para_table)
  (src : string) :
  (forall name,
      build_rename_dict marker t !! src = Some name ->
      contains marker name = true
      /\ exists r, In r t /\ FROM_SRC_FIELD r = Some src
                   /\ PARA_NAME_WITH_CODE r = Some name)
  /\ (is_Some (build_rename_dict marker t !! src)
      <-> In src (source_fields (tagged_rows marker t))).
Proof.
  split.
  - intros name H. rewrite build_rename_dict_tagged in H.
    apply fold_insert_lookup in H as [H|H]; [|now rewrite lookup_empty in H].
    apply tagged_pairs_In in H as (r & Hr & E1 & E2 & C). eauto.
  - rewrite <- elem_of_dom, build_rename_dict_dom, elem_of_list_to_set.
    apply list_elem_of_In.
Qed.

Lemma rename_dict_entries_from_rows_witness :
  contains "P1_" "P1_THK_70000" = true
  /\ exists r, In r mapping /\ FROM_SRC_FIELD r = Some "THK"
               /\ PARA_NAME_WITH_CODE r = Some "P1_THK_70000".
Proof.
  apply (proj1 (rename_dict_entries_from_rows "P1_" mapping "THK")).
  vm_compute. reflexivity.
Defined.

Section Tokens.

Variable py_float : string -> option Q.
Variable body : list value -> value -> result (list value).

Hypothesis body_string :
  forall acc s,
    body acc (VStr s)
    = if String.eqb s "" then Ok acc
      else match py_float s with
           | Some q => Ok (acc ++ [VFloat (Qred q)])
           | None =>
               Raise (Exn ValueError
                        ("could not convert string to float: " +:+ py_repr s))
           end.




End Tokens.



(** X10: where the mapping table comes from.  A database object with
    [get_para_info] decides alone: what it returns is the table, and
    when it raises the table is empty, the configuration not being
    consulted.  Without such an object the configuration's entry is the
    table, and without an entry, or when making a table of it raises,
    the table is empty.  Whenever a table with rows comes back, nothing
    was logged above level INFO. *)
Theorem load_para_info_sources (config : configuration) (db : option database) :
  (forall fetched,
      db = Some (Db (Some fetched)) ->
      snd (_load_para_info config db)
      = match fetched with Ok table => table | Raise _ => [] end)
  /\ (db = None \/ db = Some (Db None) ->
      snd (_load_para_info config db)
      = match config_para_info config with
        | Some (Ok table) => table
        | _ => []
        end)
  /\ (snd (_load_para_info config db) <> [] ->
      Forall (fun rec => fst rec = INFO) (fst (_load_para_info config db))).
Proof.
  unfold _load_para_info, load_attempt. split; [|split].
  - intros fetched ->. now destruct fetched.
  - intros [->| ->]; destruct (config_para_info config) as [[t|e]|];
      reflexivity.
  - destruct db as [[[[t|e]|]]|]; simpl;
      try destruct (config_para_info config) as [[t|e]|]; simpl;
      intros H; try congruence; repeat constructor.
Qed.

Lemma load_para_info_sources_witness :
  snd (_load_para_info (Config (Some (Ok mapping)))
         (Some (Db (Some (Raise (Exn ValueError "connection lost"))))))
  = [].
Proof.
  apply (proj1 (load_para_info_sources (Config (Some (Ok mapping)))
                  (Some (Db (Some (Raise (Exn ValueError "connection lost"))))))
           (Raise (Exn ValueError "connection lost"))).
  reflexivity.
Defined.

Lemma assign_column_well_formed (name : string) (vals : list value)
  (df : DataFrame) :
  well_formed df -> well_formed (assign_column name vals df).
Proof.
  unfold well_formed, assign_column. rewrite !List.Forall_forall. intros W.
  destruct (mem name (columns df)); simpl;
    intros row' Hrow'; apply in_map_iff in Hrow' as ([row v] & <- & Hrow);
    apply in_combine_l in Hrow; specialize (W row Hrow); simpl.
  - rewrite length_map, length_combine. lia.
  - rewrite !length_app. simpl. lia.
Qed.

Lemma map_fst_combine {A B C} (f : A -> C) (xs : list A) (ys : list B) :
  length xs = length ys ->
  map (fun p : A * B => f (fst p)) (combine xs ys) = map f xs.
Proof.
  revert ys. induction xs as [|x xs IH]; intros [|y ys] H; try discriminate;
    [reflexivity|].
  simpl. f_equal. apply IH. simpl in H. lia.
Qed.

(** [df[name] = series] leaves the other columns as they are. *)
Lemma assign_column_getitem_other (name other : string) (vals : list value)
  (df : DataFrame) :
  other <> name -> well_formed df -> length vals = length (rows df) ->
  getitem (assign_column name vals df) other = getitem df other.
Proof.
  unfold well_formed, assign_column, getitem. intros Hne W Hlen.
  rewrite List.Forall_forall in W. apply String.eqb_neq in Hne.
  destruct (mem name (columns df)) eqn:M; simpl.
  - destruct (position other (columns df)) as [i|] eqn:P; [|reflexivity].
    f_equal. destruct (position_Some _ _ _ P) as [Hi Hn].
    rewrite map_map.
    rewrite <- (map_fst_combine (cell i) (rows df) vals) by now symmetry.
    apply map_ext_in. intros [row v] Hrow. simpl.
    apply in_combine_l in Hrow.
    rewrite (combine_cell name v) by auto. now rewrite Hn, Hne.
  - destruct (position other (columns df)) as [i|] eqn:P.
    + rewrite (position_app_l _ _ _ _ P). f_equal.
      rewrite map_map.
      rewrite <- (map_fst_combine (cell i) (rows df) vals) by now symmetry.
      apply map_ext_in. intros [row v] Hrow. simpl.
      apply in_combine_l in Hrow.
      apply cell_app_l. rewrite (W row Hrow). now apply position_Some in P.
    + apply position_None in P. rewrite position_app_r by exact P. simpl.
      now rewrite Hne.
Qed.

Lemma count_label_absent (x : string) (xs : list string) :
  ~ In x xs -> count_label x xs = 0.
Proof.
  unfold count_label. induction xs as [|c xs IH]; simpl; intros H;
    [reflexivity|].
  destruct (String.eqb x c) eqn:E.
  - apply String.eqb_eq in E. subst. tauto.
  - apply IH. tauto.
Qed.

(** X11: without the column PRE_GLB_RAW_VALUE the [KeyError] of line
    204 is caught: the table comes back as it was, and one record of
    level ERROR is logged. *)
Theorem thickness_missing_raw_column (py_float : string -> option Q)
  (df : DataFrame) :
  empty df = false -> ~ In "PRE_GLB_RAW_VALUE" (columns df) ->
  _cal_thk_from_raw_value py_float df
  = ([(ERROR, "PRE_GLB_STI_THK_70000和PST_GLB_CMP_THK_80000计算失败: 'PRE_GLB_RAW_VALUE'")],
     df).
Proof.
  intros Hne N. unfold _cal_thk_from_raw_value, split_raw. rewrite Hne.
  assert (C : count_label "PRE_GLB_RAW_VALUE" (columns df) = 0).
  { now apply count_label_absent. }
  rewrite C. simpl. unfold getitem.
  apply position_None in N. now rewrite N.
Qed.

Lemma thickness_missing_raw_column_witness :
  _cal_thk_from_raw_value float_of_decimal no_module_table
  = ([(ERROR, "PRE_GLB_STI_THK_70000和PST_GLB_CMP_THK_80000计算失败: 'PRE_GLB_RAW_VALUE'")],
     no_module_table).
Proof.
  apply (thickness_missing_raw_column float_of_decimal no_module_table).
  - reflexivity.
  - simpl. intuition discriminate.
Defined.

(** X12: whatever the outcome, the call leaves the table's own columns
    alone: the frame it returns has the rows of the input, and under
    every label other than the two list columns the cells of the
    input. *)
Theorem thickness_keeps_columns (py_float : string -> option Q)
  (df : DataFrame) :
  well_formed df ->
  let out := snd (_cal_thk_from_raw_value py_float df) in
  length (rows out) = length (rows df)
  /\ forall name,
       name <> "PRE_VALUE_LIST" -> name <> "PST_VALUE_LIST" ->
       getitem out name = getitem df name.
Proof.
  intros W. cbv zeta.
  set (keeps := fun d : DataFrame =>
         well_formed d /\ length (rows d) = length (rows df)
         /\ forall name,
              name <> "PRE_VALUE_LIST" -> name <> "PST_VALUE_LIST" ->
              getitem d name = getitem df name).
  assert (K0 : keeps df) by (repeat split; auto).
  assert (Kstep : forall d scratch vals,
             keeps d -> length vals = length (rows d) ->
             scratch = "PRE_VALUE_LIST" \/ scratch = "PST_VALUE_LIST" ->
             keeps (assign_column scratch vals d)).
  { intros d scratch vals (Wd & Ld & Gd) Lv Hs. split; [|split].
    - now apply assign_column_well_formed.
    - rewrite ThicknessFacts.assign_column_rows; congruence.
    - intros name N1 N2. rewrite assign_column_getitem_other; auto.
      destruct Hs; congruence. }
  assert (Kout : forall d, keeps d ->
             length (rows d) = length (rows df)
             /\ forall name,
                  name <> "PRE_VALUE_LIST" -> name <> "PST_VALUE_LIST" ->
                  getitem d name = getitem df name).
  { intros d (_ & L & G). auto. }
  unfold _cal_thk_from_raw_value.
  destruct (empty df) eqn:Hne; [now apply Kout|].
  destruct (split_raw df "PRE_GLB_RAW_VALUE") as [c1|e1] eqn:E1;
    [|now apply Kout].
  apply ThicknessFacts.split_raw_length in E1.
  pose proof (Kstep df "PRE_VALUE_LIST" c1 K0 E1 (or_introl eq_refl)) as K1.
  set (d1 := assign_column "PRE_VALUE_LIST" c1 df) in *.
  destruct (let* c := getitem d1 "PRE_VALUE_LIST" in
            apply_cells (parse_cell py_float) c) as [c2|e2] eqn:E2;
    [|now apply Kout].
  destruct (getitem d1 "PRE_VALUE_LIST") as [g2|] eqn:G2; [|discriminate].
  simpl in E2. apply ThicknessFacts.apply_cells_length in E2.
  apply getitem_length in G2.
  assert (L2 : length c2 = length (rows d1)) by congruence.
  pose proof (Kstep d1 "PRE_VALUE_LIST" c2 K1 L2 (or_introl eq_refl)) as K2.
  set (d2 := assign_column "PRE_VALUE_LIST" c2 d1) in *.
  destruct (split_raw d2 "PST_GLB_RAW_VALUE") as [c3|e3] eqn:E3;
    [|now apply Kout].
  apply ThicknessFacts.split_raw_length in E3.
  pose proof (Kstep d2 "PST_VALUE_LIST" c3 K2 E3 (or_intror eq_refl)) as K3.
  set (d3 := assign_column "PST_VALUE_LIST" c3 d2) in *.
  destruct (let* c := getitem d3 "PST_VALUE_LIST" in
            apply_cells (parse_cell py_float) c) as [c4|e4] eqn:E4;
    [|now apply Kout].
  destruct (getitem d3 "PST_VALUE_LIST") as [g4|] eqn:G4; [|discriminate].
  simpl in E4. apply ThicknessFacts.apply_cells_length in E4.
  apply getitem_length in G4.
  assert (L4 : length c4 = length (rows d3)) by congruence.
  pose proof (Kstep d3 "PST_VALUE_LIST" c4 K3 L4 (or_intror eq_refl)) as K4.
  set (d4 := assign_column "PST_VALUE_LIST" c4 d3) in *.
  destruct (let* c := getitem d4 "PRE_VALUE_LIST" in
            apply_cells mean_cell c) as [c5|e5] eqn:E5; [|now apply Kout].
  exfalso. destruct (getitem d4 "PRE_VALUE_LIST") as [g5|] eqn:G5;
    [|discriminate].
  simpl in E5. rewrite ThicknessFacts.apply_cells_mean_raises in E5;
    [discriminate|].
  apply getitem_length in G5. destruct K4 as (_ & L & _).
  intros ->. simpl in G5. unfold empty in Hne.
  destruct (columns df), (rows df); simpl in *; congruence.
Qed.

Lemma thickness_keeps_columns_witness :
  let out := snd (_cal_thk_from_raw_value float_of_decimal raw_malformed) in
  length (rows out) = length (rows raw_malformed)
  /\ forall name,
       name <> "PRE_VALUE_LIST" -> name <> "PST_VALUE_LIST" ->
       getitem out name = getitem raw_malformed name.
Proof.
  apply (thickness_keeps_columns float_of_decimal raw_malformed).
  apply List.Forall_cons; [reflexivity|apply List.Forall_nil].
Defined.

Lemma thickness_always_fails_witness :
  exists e df',
    _cal_thk_from_raw_value float_of_decimal raw_ok = thk_failed e df'
    /\ forall c, In c (columns df') ->
                 In c (columns raw_ok)
                 \/ c = "PRE_VALUE_LIST" \/ c = "PST_VALUE_LIST".
Proof.
  apply (ThicknessFacts.thickness_always_fails float_of_decimal raw_ok).
  reflexivity.
Defined.

End RenameExtra.

(** ** rename.py: [process] from end to end *)

Module ProcessExtra.
Import Pd PyStr Rename Spec PdFacts RenameFacts ProcessFacts.

Lemma snd_and_then {A B} (c : logged A) (k : A -> logged B) :
  snd (and_then c k)
  = match snd c with
    | Ok a => snd (k a)
    | Raise e => Raise e
    end.
Proof.
  unfold and_then. destruct c as [l [a|e]]; simpl; [|reflexivity].
  now destruct (k a).
Qed.

Lemma fst_and_then {A B} (c : logged A) (k : A -> logged B) :
  fst (and_then c k)
  = fst c ++ match snd c with
             | Ok a => fst (k a)
             | Raise e => []
             end.
Proof.
  unfold and_then. destruct c as [l [a|e]]; simpl.
  - now destruct (k a).
  - now rewrite app_nil_r.
Qed.

Lemma rename_columns_with_snd (para_info : para_table) (marker tag : string)
  (df : DataFrame) :
  snd (rename_columns_with para_info marker tag df)
  = Ok (if empty df || is_nil para_info then df
        else rename_columns (build_rename_dict marker para_info) df).
Proof.
  unfold rename_columns_with. now destruct (empty df || is_nil para_info).
Qed.

Lemma pair_modules_snd (label : string) (l r : DataFrame)
  (acc : list DataFrame) :
  snd (pair_modules label l r acc)
  = if negb (empty l) && negb (empty r) then
      let* m := merge_inner "WAFER_ID" l r in
      Ok (acc ++ [assign_const "POLISH" (VStr label) m])
    else Ok acc.
Proof.
  unfold pair_modules. destruct (negb (empty l) && negb (empty r));
    [|reflexivity].
  rewrite snd_and_then. simpl.
  now destruct (merge_inner "WAFER_ID" l r).
Qed.

Lemma empty_no_rows (df : DataFrame) : rows df = [] -> empty df = true.
Proof. unfold empty. intros ->. now destruct (columns df). Qed.

Lemma renamed_rows (para_info : para_table) (marker : string) (df : DataFrame) :
  rows (if empty df || is_nil para_info then df
        else rename_columns (build_rename_dict marker para_info) df)
  = rows df.
Proof. now destruct (empty df || is_nil para_info). Qed.

Lemma drop_columns_no_rows (names : list string) (df : DataFrame) :
  rows df = [] -> rows (drop_columns names df) = [].
Proof. unfold drop_columns. simpl. now intros ->. Qed.

Lemma subset_no_rows (marker : string) (col : list value) (data : DataFrame) :
  Forall (fun v => mentions marker v = false) col ->
  rows (module_subset marker
          (map (fun v => py_str (fillna (VStr "") v)) col) data) = [].
Proof.
  unfold module_subset, mask_rows. simpl. rewrite map_map.
  fold (mentions marker). intros F.
  generalize (rows data). induction F as [|v col Hv F IH]; intros rs;
    [reflexivity|].
  destruct rs as [|r rs]; [reflexivity|]. simpl.
  change (contains_nocase marker (py_str (fillna (VStr "") v)))
    with (mentions marker v).
  rewrite Hv. apply IH.
Qed.

(** The four renamed module frames of lines 75-99, and what [process]
    returns in terms of them. *)
Lemma process_snd (validate_input : DataFrame -> bool) (para_info : para_table)
  (data : DataFrame) (col : list value) :
  validate_input data = true ->
  count_label "MODULE" (columns data) <= 1 ->
  getitem data "MODULE" = Ok col ->
  let series := map (fun v => py_str (fillna (VStr "") v)) col in
  let frame marker letter :=
    let df := drop_columns ["MODULE"] (module_subset letter series data) in
    if empty df || is_nil para_info then df
    else rename_columns (build_rename_dict marker para_info) df in
  let a := frame "P1_" "PolishA" in
  let b := drop_columns base_col (frame "P2_" "PolishB") in
  let c := frame "P1_" "PolishC" in
  let d := drop_columns base_col (frame "P2_" "PolishD") in
  snd (process validate_input para_info data)
  = match snd (pair_modules "AB" a b []) with
    | Ok r1 =>
        match snd (pair_modules "CD" c d r1) with
        | Ok r2 => if is_nil r2 then Ok (Frame [] []) else concat_rows r2
        | Raise e => Raise e
        end
    | Raise e => Raise e
    end.
Proof.
  intros V C G. cbv zeta. unfold process. rewrite V.
  assert (M : mem "MODULE" (columns data) = true).
  { apply mem_In, position_In. unfold getitem in G.
    destruct (position "MODULE" (columns data)); [eauto|discriminate]. }
  rewrite M. cbn [negb].
  apply Nat.ltb_ge in C. rewrite C, G.
  rewrite snd_and_then. cbn [snd lift].
  rewrite snd_and_then. cbn [snd log].
  unfold _rename_columns_polishAC, _rename_columns_polishBD.
  rewrite snd_and_then, rename_columns_with_snd.
  rewrite snd_and_then, rename_columns_with_snd.
  rewrite snd_and_then, rename_columns_with_snd.
  rewrite snd_and_then, rename_columns_with_snd.
  rewrite snd_and_then.
  destruct (snd (pair_modules "AB" _ _ [])) as [r1|e]; [|reflexivity].
  rewrite snd_and_then.
  destruct (snd (pair_modules "CD" _ _ r1)) as [r2|e]; [|reflexivity].
  destruct (is_nil r2).
  - now rewrite snd_and_then.
  - rewrite snd_and_then. cbn [snd lift].
    destruct (concat_rows r2); [|reflexivity].
    now rewrite snd_and_then.
Qed.

(** X14: when no row of the table is tagged PolishB and none PolishD,
    nothing can be paired: [process] returns the empty table, whatever
    rows the groups A and C have. *)
Theorem process_without_partners (validate_input : DataFrame -> bool)
  (para_info : para_table) (data : DataFrame) (col : list value) :
  validate_input data = true ->
  count_label "MODULE" (columns data) <= 1 ->
  getitem data "MODULE" = Ok col ->
  Forall (fun v => mentions "PolishB" v = false) col ->
  Forall (fun v => mentions "PolishD" v = false) col ->
  snd (process validate_input para_info data) = Ok (Frame [] []).
Proof.
  intros V C G FB FD. rewrite (process_snd _ _ _ col V C G). cbv zeta.
  rewrite pair_modules_snd.
  assert (EB : forall marker letter,
             Forall (fun v => mentions letter v = false) col ->
             empty (drop_columns base_col
                      (let df := drop_columns ["MODULE"]
                                   (module_subset letter
                                      (map (fun v => py_str (fillna (VStr "") v))
                                           col) data) in
                       if empty df || is_nil para_info then df
                       else rename_columns
                              (build_rename_dict marker para_info) df))
             = true).
  { intros marker letter F. apply empty_no_rows, drop_columns_no_rows.
    cbv zeta. rewrite renamed_rows.
    now apply drop_columns_no_rows, subset_no_rows. }
  cbv zeta in EB.
  rewrite (EB "P2_" "PolishB" FB), andb_false_r. cbv beta iota.
  rewrite pair_modules_snd.
  rewrite (EB "P2_" "PolishD" FD), andb_false_r.
  reflexivity.
Qed.

Lemma process_without_partners_witness :
  snd (process accept_all mapping
         (Frame ["WAFER_ID"; "MODULE"; "THK"]
                [ [VStr "w1"; VStr "PolishA"; VInt 1];
                  [VStr "w2"; VStr "PolishC"; VInt 2] ]))
  = Ok (Frame [] []).
Proof.
  apply (process_without_partners accept_all mapping
           (Frame ["WAFER_ID"; "MODULE"; "THK"]
                  [ [VStr "w1"; VStr "PolishA"; VInt 1];
                    [VStr "w2"; VStr "PolishC"; VInt 2] ])
           [VStr "PolishA"; VStr "PolishC"]).
  - reflexivity.
  - vm_compute. lia.
  - reflexivity.
  - apply List.Forall_cons; [reflexivity|].
    apply List.Forall_cons; [reflexivity|apply List.Forall_nil].
  - apply List.Forall_cons; [reflexivity|].
    apply List.Forall_cons; [reflexivity|apply List.Forall_nil].
Defined.

Lemma renamed_columns_from (para_info : para_table) (marker : string)
  (df : DataFrame) (c' : string) :
  In c' (columns (if empty df || is_nil para_info then df
                  else rename_columns (build_rename_dict marker para_info) df)) ->
  exists c, In c (columns df) /\ (c' = c \/ contains marker c' = true).
Proof.
  destruct (empty df || is_nil para_info).
  - intros H. exists c'. auto.
  - unfold rename_columns. simpl. intros H.
    apply in_map_iff in H as (c & <- & Hc). exists c. split; [exact Hc|].
    destruct (build_rename_dict marker para_info !! c) as [v|] eqn:L; simpl.
    + right. now apply build_rename_dict_values in L.
    + now left.
Qed.

Lemma renamed_columns_to (para_info : para_table) (marker : string)
  (df : DataFrame) (c : string) :
  In c (columns df) ->
  exists c', In c' (columns (if empty df || is_nil para_info then df
                             else rename_columns
                                    (build_rename_dict marker para_info) df))
             /\ (c' = c \/ contains marker c' = true).
Proof.
  intros Hc. destruct (empty df || is_nil para_info).
  - exists c. auto.
  - exists (default c (build_rename_dict marker para_info !! c)). split.
    + unfold rename_columns. simpl. apply in_map_iff. now exists c.
    + destruct (build_rename_dict marker para_info !! c) as [v|] eqn:L; simpl.
      * right. now apply build_rename_dict_values in L.
      * now left.
Qed.

Lemma keep_cells_kept (f : string -> bool) (cols : list string) (c : string) :
  In c cols -> f c = true -> In c (keep_cells (map f cols) cols).
Proof.
  unfold keep_cells. induction cols as [|x cols IH]; simpl; [tauto|].
  intros [->|H] E.
  - rewrite E. now left.
  - destruct (f x); simpl; auto.
Qed.

Lemma drop_columns_keeps (names : list string) (df : DataFrame) (c : string) :
  In c (columns df) -> ~ In c names -> In c (columns (drop_columns names df)).
Proof.
  intros H N. unfold drop_columns. simpl. apply keep_cells_kept; [exact H|].
  apply negb_true_iff. now apply mem_false.
Qed.

Lemma subset_has_rows (marker : string) (col : list value) (data : DataFrame) :
  Exists (fun v => mentions marker v = true) col ->
  length col = length (rows data) ->
  rows (module_subset marker
          (map (fun v => py_str (fillna (VStr "") v)) col) data) <> [].
Proof.
  unfold module_subset, mask_rows. simpl. rewrite map_map.
  intros E. generalize (rows data).
  induction E as [v col Hv|v col E IH]; intros [|r rs] L; try discriminate;
    simpl;
    change (contains_nocase marker (py_str (fillna (VStr "") v)))
      with (mentions marker v).
  - rewrite Hv. discriminate.
  - destruct (mentions marker v); [discriminate|].
    apply IH. simpl in L. lia.
Qed.

Lemma drop_columns_rows (names : list string) (df : DataFrame) :
  rows df <> [] -> rows (drop_columns names df) <> [].
Proof.
  unfold drop_columns. simpl. destruct (rows df); [congruence|discriminate].
Qed.

Lemma not_empty (df : DataFrame) (c : string) :
  In c (columns df) -> rows df <> [] -> empty df = false.
Proof.
  unfold empty. destruct (columns df); [contradiction|].
  destruct (rows df); [congruence|reflexivity].
Qed.

Lemma base_col_unmarked (marker c : string) :
  marker = "P1_" \/ marker = "P2_" ->
  contains marker c = true -> ~ In c base_col.
Proof.
  intros [-> | ->] H Hin; simpl in Hin;
    repeat (destruct Hin as [<-|Hin]; [vm_compute in H; discriminate|]);
    exact Hin.
Qed.

(** X15: a table without a WAFER_ID column that has rows tagged PolishA
    and rows tagged PolishB cannot be merged: the [KeyError] of the
    merge on line 105 leaves [process] and reaches the caller. *)
Theorem process_missing_wafer_id (validate_input : DataFrame -> bool)
  (para_info : para_table) (data : DataFrame) (col : list value) (c : string) :
  validate_input data = true ->
  count_label "MODULE" (columns data) <= 1 ->
  getitem data "MODULE" = Ok col ->
  ~ In "WAFER_ID" (columns data) ->
  Exists (fun v => mentions "PolishA" v = true) col ->
  Exists (fun v => mentions "PolishB" v = true) col ->
  In c (columns data) -> c <> "MODULE" -> ~ In c base_col ->
  snd (process validate_input para_info data)
  = Raise (Exn KeyError "'WAFER_ID'").
Proof.
  intros V C G NW EA EB Hc Hm Hb.
  rewrite (process_snd _ _ _ col V C G). cbv zeta.
  rewrite pair_modules_snd.
  pose proof (getitem_length _ _ _ G) as L.
  assert (Hsub : forall letter,
             In c (columns (drop_columns ["MODULE"]
                              (module_subset letter
                                 (map (fun v => py_str (fillna (VStr "") v)) col)
                                 data)))).
  { intros letter. apply drop_columns_keeps; [exact Hc|].
    simpl. intuition congruence. }
  assert (Hrows : forall letter,
             Exists (fun v => mentions letter v = true) col ->
             rows (drop_columns ["MODULE"]
                     (module_subset letter
                        (map (fun v => py_str (fillna (VStr "") v)) col) data))
             <> []).
  { intros letter E. now apply drop_columns_rows, subset_has_rows. }
  set (a := if _ || _ then _ else _).
  assert (Ea : empty a = false).
  { destruct (renamed_columns_to para_info "P1_" _ c (Hsub "PolishA"))
      as (c' & Hc' & _).
    apply (not_empty _ c' Hc'). unfold a. rewrite renamed_rows. now apply Hrows. }
  assert (Na : position "WAFER_ID" (columns a) = None).
  { apply position_None. intros H.
    apply renamed_columns_from in H as (c0 & H0 & [<-|H']).
    - now apply drop_columns_columns in H0 as [H0 _].
    - vm_compute in H'. discriminate. }
  set (b := drop_columns base_col _).
  assert (Eb : empty b = false).
  { destruct (renamed_columns_to para_info "P2_" _ c (Hsub "PolishB"))
      as (c' & Hc' & Hcc).
    apply (not_empty _ c').
    - unfold b. apply drop_columns_keeps; [exact Hc'|].
      destruct Hcc as [->|Hcc]; [exact Hb|].
      apply (base_col_unmarked "P2_"); auto.
    - unfold b. apply drop_columns_rows. rewrite renamed_rows. now apply Hrows. }
  rewrite Ea, Eb. cbn [negb andb]. unfold merge_inner. rewrite Na.
  reflexivity.
Qed.

Lemma process_missing_wafer_id_witness :
  snd (process accept_all mapping
         (Frame ["MODULE"; "THK"]
                [ [VStr "PolishA"; VInt 1]; [VStr "PolishB"; VInt 2] ]))
  = Raise (Exn KeyError "'WAFER_ID'").
Proof.
  apply (process_missing_wafer_id accept_all mapping
           (Frame ["MODULE"; "THK"]
                  [ [VStr "PolishA"; VInt 1]; [VStr "PolishB"; VInt 2] ])
           [VStr "PolishA"; VStr "PolishB"] "THK").
  - reflexivity.
  - vm_compute. lia.
  - reflexivity.
  - simpl. intuition discriminate.
  - apply Exists_cons_hd. reflexivity.
  - apply Exists_cons_tl, Exists_cons_hd. reflexivity.
  - simpl. tauto.
  - discriminate.
  - simpl. intuition discriminate.
Defined.

End ProcessExtra.

(** ** rename.py: what a rename does to a table *)

Module LabelFacts.
Import Pd PyStr Rename Spec PdFacts RenameFacts ProcessFacts RenameExtra
  ProcessExtra.

(** X16: [_rename_columns_polishAC] and [_rename_columns_polishBD]
    always return a table, with the rows of the input and as many
    columns.  A column that no selected row of the mapping table names
    keeps its label; a label that changes becomes the canonical name of
    a row that names it, and that name contains the marker. *)
Theorem rename_keeps_data (para_info : para_table) (marker tag : string)
  (df : DataFrame) :
  exists out,
    snd (rename_columns_with para_info marker tag df) = Ok out
    /\ rows out = rows df
    /\ length (columns out) = length (columns df)
    /\ forall i c,
         nth_error (columns df) i = Some c ->
         exists c',
           nth_error (columns out) i = Some c'
           /\ (~ In c (source_fields (tagged_rows marker para_info)) -> c' = c)
           /\ (c' <> c ->
               contains marker c' = true
               /\ exists r, In r para_info /\ FROM_SRC_FIELD r = Some c
                            /\ PARA_NAME_WITH_CODE r = Some c').
Proof.
  rewrite rename_columns_with_snd. eexists. split; [reflexivity|].
  destruct (empty df || is_nil para_info).
  - split; [reflexivity|]. split; [reflexivity|].
    intros i c H. exists c. split; [exact H|]. split; [reflexivity|].
    congruence.
  - unfold rename_columns. cbn [rows columns].
    split; [reflexivity|]. split; [apply length_map|].
    intros i c H.
    exists (default c (build_rename_dict marker para_info !! c)).
    split; [now rewrite nth_error_map, H|].
    destruct (build_rename_dict marker para_info !! c) as [v|] eqn:L; simpl.
    + split.
      * intros N. exfalso. apply N.
        apply list_elem_of_In.
        rewrite <- (elem_of_list_to_set (C := gset string)).
        rewrite <- build_rename_dict_dom. apply elem_of_dom. eauto.
      * intros _. rewrite build_rename_dict_tagged in L.
        apply fold_insert_lookup in L as [L|L];
          [|now rewrite lookup_empty in L].
        apply tagged_pairs_In in L as (r & Hr & E1 & E2 & Hc). eauto.
    + split; [reflexivity|congruence].
Qed.

Lemma rename_keeps_data_witness :
  exists out,
    snd (rename_columns_with mapping "P1_" "P1" no_module_table) = Ok out
    /\ rows out = rows no_module_table
    /\ length (columns out) = length (columns no_module_table)
    /\ forall i c,
         nth_error (columns no_module_table) i = Some c ->
         exists c',
           nth_error (columns out) i = Some c'
           /\ (~ In c (source_fields (tagged_rows "P1_" mapping)) -> c' = c)
           /\ (c' <> c ->
               contains "P1_" c' = true
               /\ exists r, In r mapping /\ FROM_SRC_FIELD r = Some c
                            /\ PARA_NAME_WITH_CODE r = Some c').
Proof.
  apply (rename_keeps_data mapping "P1_" "P1" no_module_table).
Defined.

End LabelFacts.
(** ** rename.py: the wafers of the table that [process] returns *)

Module WaferFacts.
Import Pd PyStr Rename Spec PdFacts RenameFacts ProcessFacts ProcessExtra.

Lemma wafer_ids_In (df : DataFrame) (w : value) :
  In w (wafer_ids df)
  <-> exists row, In row (rows df) /\ lookup_cell "WAFER_ID" df row = Some w.
Proof.
  unfold wafer_ids, getitem, lookup_cell.
  destruct (position "WAFER_ID" (columns df)) as [i|]; simpl.
  - rewrite in_map_iff. split.
    + intros (row & <- & H). eauto.
    + intros (row & H & [= <-]). eauto.
  - split; [tauto|]. intros (row & _ & E). discriminate.
Qed.

(** A column that survives a drop keeps its cells. *)
Lemma keep_cells_cell (f : string -> bool) (cols : list string)
  (name : string) (i : nat) (row : list value) :
  length row = length cols ->
  position name (keep_cells (map f cols) cols) = Some i ->
  exists i0, position name cols = Some i0
             /\ cell i (keep_cells (map f cols) row) = cell i0 row.
Proof.
  revert row i. induction cols as [|c cols IH]; intros [|v row] i L;
    try discriminate L.
  - unfold keep_cells. simpl. discriminate.
  - unfold keep_cells in *. simpl in *. destruct (f c) eqn:F; simpl.
    + destruct (String.eqb name c) eqn:E.
      * intros [= <-]. now exists 0.
      * destruct (position name (map snd (List.filter fst (combine (map f cols) cols))))
          as [k|] eqn:P; [|discriminate].
        simpl. intros [= <-].
        destruct (IH row k) as (i0 & P0 & C); [lia|reflexivity|].
        exists (S i0). rewrite P0. split; [reflexivity|exact C].
    + intros P.
      destruct (String.eqb name c) eqn:E.
      * apply String.eqb_eq in E. subst c.
        assert (Hin : In name (keep_cells (map f cols) cols)).
        { apply position_In. unfold keep_cells. eauto. }
        apply keep_cells_labels in Hin as [_ Hf]. congruence.
      * destruct (IH row i) as (i0 & P0 & C); [lia|exact P|].
        exists (S i0). rewrite P0. split; [reflexivity|exact C].
Qed.

Lemma drop_columns_wafers (names : list string) (df : DataFrame) :
  well_formed df ->
  In "WAFER_ID" (columns (drop_columns names df)) ->
  wafer_ids (drop_columns names df) = wafer_ids df.
Proof.
  intros W H. apply position_In in H as [i P].
  rewrite (wafer_ids_eq _ i P).
  unfold drop_columns in *. cbn [columns rows] in *.
  destruct (rows df) as [|r0 rs] eqn:R.
  - simpl. unfold wafer_ids, getitem. rewrite R.
    now destruct (position "WAFER_ID" (columns df)).
  - assert (L0 : length r0 = length (columns df)).
    { unfold well_formed in W. rewrite R in W. now inversion W. }
    destruct (keep_cells_cell _ _ _ _ r0 L0 P) as (i0 & P0 & _).
    rewrite (wafer_ids_eq _ i0 P0), R, map_map.
    apply map_ext_in. intros row Hrow.
    assert (L : length row = length (columns df)).
    { unfold well_formed in W. rewrite List.Forall_forall in W.
      apply W. now rewrite R. }
    destruct (keep_cells_cell _ _ _ _ row L P) as (i1 & P1 & C).
    congruence.
Qed.

Lemma renamed_wafers (para_info : para_table) (marker : string)
  (df : DataFrame) :
  contains marker "WAFER_ID" = false ->
  let out := if empty df || is_nil para_info then df
             else rename_columns (build_rename_dict marker para_info) df in
  In "WAFER_ID" (columns out) ->
  wafer_ids out = wafer_ids df.
Proof.
  intros M. cbv zeta. destruct (empty df || is_nil para_info); [reflexivity|].
  intros H. unfold wafer_ids, getitem, rename_columns in *. cbn [columns rows] in *.
  rewrite position_map; [reflexivity|].
  intros c Hc.
  destruct (build_rename_dict marker para_info !! c) as [v|] eqn:L; simpl.
  - pose proof (build_rename_dict_values _ _ _ _ L) as Lv.
    split.
    + intros ->. congruence.
    + intros ->. exfalso.
      apply in_map_iff in H as (c0 & E0 & _).
      destruct (build_rename_dict marker para_info !! c0) as [v0|] eqn:L0;
        simpl in E0.
      * apply build_rename_dict_values in L0. congruence.
      * subst c0. congruence.
  - tauto.
Qed.

Lemma mask_filter {A} (h : A -> bool) (rs : list A) :
  map snd (List.filter fst (combine (map h rs) rs)) = List.filter h rs.
Proof.
  induction rs as [|r rs IH]; [reflexivity|].
  simpl. destruct (h r); simpl; now rewrite IH.
Qed.

Lemma subset_wafers (letter : string) (data : DataFrame) (col : list value)
  (w : value) :
  getitem data "MODULE" = Ok col ->
  In w (wafer_ids (module_subset letter
                     (map (fun v => py_str (fillna (VStr "") v)) col) data))
  <-> tagged_wafer letter data w.
Proof.
  intros G. apply getitem_Ok in G as (iM & PM & ->).
  unfold module_subset, mask_rows. rewrite !map_map.
  rewrite wafer_ids_In. cbn [rows].
  rewrite (mask_filter
             (fun row => contains_nocase letter
                           (py_str (fillna (VStr "") (cell iM row))))).
  unfold tagged_wafer, lookup_cell, mentions. cbn [columns]. rewrite PM.
  split.
  - intros (row & Hrow & Hw). apply filter_In in Hrow as [Hrow Hm].
    exists row, (cell iM row). auto.
  - intros (row & m & Hrow & Hw & [= <-] & Hm).
    exists row. split; [|exact Hw]. apply filter_In. auto.
Qed.

Lemma tagged_has_rows (letter : string) (data : DataFrame) (col : list value)
  (w : value) :
  getitem data "MODULE" = Ok col ->
  tagged_wafer letter data w ->
  In "WAFER_ID" (columns data)
  /\ rows (module_subset letter
             (map (fun v => py_str (fillna (VStr "") v)) col) data) <> [].
Proof.
  intros G T. split.
  - destruct T as (row & m & _ & Hw & _). unfold lookup_cell in Hw.
    apply position_In.
    destruct (position "WAFER_ID" (columns data)); [eauto|discriminate].
  - apply (subset_wafers letter data col w G), wafer_ids_In in T
      as (row & Hrow & _).
    intros E. now rewrite E in Hrow.
Qed.

Lemma concat_layout_complete (cols : list string) (dfs : list DataFrame)
  (acc parts : list (list value)) :
  for_each dfs
    (fun acc d =>
       if labels_eqb cols (columns d) then Ok (acc ++ rows d)
       else if is_unique (columns d)
            then Ok (acc ++ reindex_columns cols d)
            else Raise (Exn InvalidIndexError requires_unique_msg))
    acc = Ok parts ->
  (forall row, In row acc -> In row parts)
  /\ forall d, In d dfs ->
       (columns d = cols /\ forall row, In row (rows d) -> In row parts)
       \/ (forall row, In row (reindex_columns cols d) -> In row parts).
Proof.
  revert acc. induction dfs as [|d dfs IH]; intros acc; simpl.
  - intros [= <-]. split; [auto|]. intros d [].
  - destruct (labels_eqb cols (columns d)) eqn:E.
    + intros H. destruct (IH _ H) as [Hacc Hd]. split.
      * intros row Hrow. apply Hacc, in_or_app. auto.
      * intros d' [<-|Hd']; [|auto].
        left. apply labels_eqb_eq in E. split; [auto|].
        intros row Hrow. apply Hacc, in_or_app. auto.
    + destruct (is_unique (columns d)); [|discriminate].
      intros H. destruct (IH _ H) as [Hacc Hd]. split.
      * intros row Hrow. apply Hacc, in_or_app. auto.
      * intros d' [<-|Hd']; [|auto].
        right. intros row Hrow. apply Hacc, in_or_app. auto.
Qed.

(** Every row of every frame is a row of the concatenated frame, with
    the same cell under every label of its frame. *)
Lemma concat_rows_complete (dfs : list DataFrame) (out d : DataFrame)
  (row : list value) :
  concat_rows dfs = Ok out -> In d dfs -> In row (rows d) ->
  exists row',
    In row' (rows out)
    /\ forall name, In name (columns d) ->
                    lookup_cell name out row' = lookup_cell name d row.
Proof.
  unfold concat_rows. destruct dfs as [|first others]; [discriminate|].
  destruct (forallb _ others) eqn:All.
  - intros [= <-] Hd Hrow. exists row. cbn [rows]. split.
    + change (In row (flat_map rows (first :: others))).
      apply in_flat_map. eauto.
    + intros name _. unfold lookup_cell. cbn [columns].
      destruct Hd as [<-|Hd]; [reflexivity|].
      rewrite forallb_forall in All. now rewrite (labels_eqb_eq _ _ (All d Hd)).
  - remember (unique (flat_map columns (first :: others))) as cols eqn:Hcols.
    case_for_each E; [|discriminate].
    unfold bind. intros [= <-] Hd Hrow. cbn [rows columns].
    destruct (concat_layout_complete _ _ _ _ E) as [_ Hall].
    destruct (Hall d Hd) as [[Hc Hr]|Hr].
    + exists row. split; [auto|].
      intros name _. unfold lookup_cell. cbn [columns]. now rewrite Hc.
    + eexists. split.
      * apply Hr. unfold reindex_columns. apply in_map. exact Hrow.
      * intros name Hn. unfold lookup_cell. cbn [columns].
        assert (Hc : In name cols).
        { rewrite Hcols. apply unique_In, in_flat_map. now exists d. }
        apply position_In in Hc as [p P]. apply position_In in Hn as [q Q].
        rewrite P, Q. simpl. f_equal.
        destruct (position_Some _ _ _ P) as [Hp Hnth].
        rewrite (cell_map _ EmptyString) by exact Hp. now rewrite Hnth, Q.
Qed.

Lemma concat_rows_wafers (dfs : list DataFrame) (out : DataFrame) (w : value) :
  concat_rows dfs = Ok out ->
  Forall (fun d => In "WAFER_ID" (columns d)) dfs ->
  In w (wafer_ids out) <-> exists d, In d dfs /\ In w (wafer_ids d).
Proof.
  intros C F. rewrite List.Forall_forall in F. split.
  - intros H. apply wafer_ids_In in H as (row' & Hrow' & Hw).
    destruct (concat_rows_rows _ _ _ C Hrow') as (d & row & Hd & Hrow & Hn).
    exists d. split; [exact Hd|]. apply wafer_ids_In. exists row.
    split; [exact Hrow|]. now rewrite <- (Hn "WAFER_ID" (F d Hd)).
  - intros (d & Hd & H). apply wafer_ids_In in H as (row & Hrow & Hw).
    destruct (concat_rows_complete _ _ _ _ C Hd Hrow) as (row' & Hrow' & Hn).
    apply wafer_ids_In. exists row'. split; [exact Hrow'|].
    now rewrite (Hn "WAFER_ID" (F d Hd)).
Qed.

(** One pairing, in terms of the wafers of its two sides. *)
Lemma pairing_wafers (label : string) (l r : DataFrame)
  (acc out : list DataFrame) (TA TB : value -> Prop) :
  well_formed l -> well_formed r ->
  (In "WAFER_ID" (columns l) -> forall w, In w (wafer_ids l) <-> TA w) ->
  (In "WAFER_ID" (columns r) -> forall w, In w (wafer_ids r) <-> TB w) ->
  ((exists w, TA w) -> empty l = false) ->
  ((exists w, TB w) -> empty r = false) ->
  snd (pair_modules label l r acc) = Ok out ->
  exists produced,
    out = acc ++ produced
    /\ Forall (fun d => In "WAFER_ID" (columns d)) produced
    /\ forall w, (exists d, In d produced /\ In w (wafer_ids d))
                 <-> TA w /\ TB w.
Proof.
  intros Wl Wr Hl Hr El Er. rewrite pair_modules_snd.
  destruct (negb (empty l) && negb (empty r)) eqn:E.
  - destruct (merge_inner "WAFER_ID" l r) as [m|e] eqn:M; [|discriminate].
    simpl. intros [= <-].
    exists [assign_const "POLISH" (VStr label) m]. split; [reflexivity|].
    pose proof (merge_inner_well_formed _ _ _ _ Wl Wr M) as Wm.
    destruct (merge_inner_key_position "WAFER_ID" l r m) as
      (i & j & Pl & Pr & Pm & _); [discriminate|exact M|].
    assert (Hin : forall df k, position "WAFER_ID" (columns df) = Some k ->
                               In "WAFER_ID" (columns df)).
    { intros df k P. apply position_In. eauto. }
    assert (Wid : wafer_ids (assign_const "POLISH" (VStr label) m)
                  = wafer_ids m).
    { apply assign_const_wafer_ids; [discriminate|exact Wm]. }
    split.
    + apply List.Forall_cons; [|apply List.Forall_nil].
      apply position_In.
      destruct (position "WAFER_ID"
                  (columns (assign_const "POLISH" (VStr label) m)))
        as [k|] eqn:P; [eauto|].
      exfalso.
      assert (Hm : wafer_ids m = map (cell i) (rows m))
        by now apply wafer_ids_eq.
      unfold assign_const in P.
      destruct (mem "POLISH" (columns m)); cbn [columns] in P.
      * congruence.
      * apply position_None in P. apply P, in_or_app. left. eauto.
    + intros w. rewrite <- (Hl (Hin _ _ Pl) w), <- (Hr (Hin _ _ Pr) w).
      rewrite <- (merge_inner_wafers l r m w Wl M). split.
      * intros (d & [<-|[]] & H). now rewrite Wid in H.
      * intros H. eexists. split; [now left|]. now rewrite Wid.
  - intros [= <-]. exists []. split; [now rewrite app_nil_r|].
    split; [apply List.Forall_nil|].
    intros w. split.
    + intros (d & [] & _).
    + intros [HA HB]. rewrite El, Er in E by eauto. discriminate.
Qed.

(** The renamed frame of one module, as lines 75-99 make it: it is well
    formed, its wafers are those of the rows tagged with the module,
    and a tagged row keeps it, and what is left of it without the base
    columns, from being empty. *)
Lemma module_frame_wafers (para_info : para_table) (data : DataFrame)
  (col : list value) (marker letter : string) :
  well_formed data ->
  getitem data "MODULE" = Ok col ->
  marker = "P1_" \/ marker = "P2_" ->
  let df := drop_columns ["MODULE"]
              (module_subset letter
                 (map (fun v => py_str (fillna (VStr "") v)) col) data) in
  let fr := if empty df || is_nil para_info then df
            else rename_columns (build_rename_dict marker para_info) df in
  well_formed fr
  /\ (In "WAFER_ID" (columns fr) ->
      forall w, In w (wafer_ids fr) <-> tagged_wafer letter data w)
  /\ ((exists w, tagged_wafer letter data w) ->
      empty fr = false /\ empty (drop_columns base_col fr) = false).
Proof.
  intros W G Hmk df fr.
  assert (Mk : contains marker "WAFER_ID" = false)
    by (destruct Hmk as [-> | ->]; reflexivity).
  assert (Wsub : well_formed
                   (module_subset letter
                      (map (fun v => py_str (fillna (VStr "") v)) col) data))
    by now apply mask_rows_well_formed.
  assert (Wdf : well_formed df) by now apply drop_columns_well_formed.
  assert (Wfr : well_formed fr).
  { unfold fr. destruct (empty df || is_nil para_info); [exact Wdf|].
    now apply rename_columns_well_formed. }
  split; [exact Wfr|]. split.
  - intros H w.
    rewrite (renamed_wafers para_info marker df Mk H
             : wafer_ids fr = wafer_ids df).
    assert (Hdf : In "WAFER_ID" (columns df)).
    { apply renamed_columns_from in H as (c & Hc & [<-|E]); [exact Hc|].
      congruence. }
    rewrite (drop_columns_wafers _ _ Wsub Hdf : wafer_ids df = _).
    now apply subset_wafers.
  - intros [w T].
    destruct (tagged_has_rows letter data col w G T) as [Hw Hrows].
    assert (Hdf : In "WAFER_ID" (columns df)).
    { apply drop_columns_keeps; [exact Hw|]. simpl. intuition discriminate. }
    assert (Rdf : rows df <> []) by now apply drop_columns_rows.
    destruct (renamed_columns_to para_info marker df "WAFER_ID" Hdf)
      as (c' & Hc' & Hcc).
    fold fr in Hc'.
    assert (Rfr : rows fr <> []) by (unfold fr; now rewrite renamed_rows).
    split.
    + now apply (not_empty fr c').
    + apply (not_empty _ c').
      * apply drop_columns_keeps; [exact Hc'|].
        destruct Hcc as [->|Hcc].
        -- simpl. intuition discriminate.
        -- now apply (base_col_unmarked marker).
      * now apply drop_columns_rows.
Qed.

(** X17: the wafers of the table that [process] returns are exactly
    those with a row tagged PolishA and a row tagged PolishB, or with a
    row tagged PolishC and a row tagged PolishD. *)
Theorem process_pairs_wafers (validate_input : DataFrame -> bool)
  (para_info : para_table) (data out : DataFrame) :
  well_formed data ->
  validate_input data = true ->
  In "MODULE" (columns data) ->
  count_label "MODULE" (columns data) <= 1 ->
  snd (process validate_input para_info data) = Ok out ->
  forall w,
    In w (wafer_ids out)
    <-> (tagged_wafer "PolishA" data w /\ tagged_wafer "PolishB" data w)
        \/ (tagged_wafer "PolishC" data w /\ tagged_wafer "PolishD" data w).
Proof.
  intros W V HM C Hout w.
  apply position_In in HM as [iM PM].
  assert (G : getitem data "MODULE" = Ok (map (cell iM) (rows data)))
    by (apply getitem_Ok; eauto).
  rewrite (process_snd _ _ _ _ V C G) in Hout. cbv zeta in Hout.
  pose proof (fun marker letter =>
                module_frame_wafers para_info data _ marker letter W G) as FW.
  cbv zeta in FW.
  destruct (FW "P1_" "PolishA") as (Wa & Ha & Ea); [now left|].
  destruct (FW "P2_" "PolishB") as (Wb & Hb & Eb); [now right|].
  destruct (FW "P1_" "PolishC") as (Wc & Hc & Ec); [now left|].
  destruct (FW "P2_" "PolishD") as (Wd & Hd & Ed); [now right|].
  clear FW.
  set (a := if _ || _ then _ else _) in *.
  set (b := if _ || _ then _ else _) in Hout, Wb, Hb, Eb.
  set (c := if _ || _ then _ else _) in Hout, Wc, Hc, Ec.
  set (d := if _ || _ then _ else _) in Hout, Wd, Hd, Ed.
  assert (Side : forall fr letter,
             well_formed fr ->
             (In "WAFER_ID" (columns fr) ->
              forall w, In w (wafer_ids fr) <-> tagged_wafer letter data w) ->
             In "WAFER_ID" (columns (drop_columns base_col fr)) ->
             forall w, In w (wafer_ids (drop_columns base_col fr))
                       <-> tagged_wafer letter data w).
  { intros fr letter Wfr Hfr Hin w0.
    rewrite (drop_columns_wafers _ _ Wfr Hin).
    apply Hfr. now apply drop_columns_columns in Hin. }
  destruct (snd (pair_modules "AB" a (drop_columns base_col b) []))
    as [r1|e] eqn:PAB; [|discriminate].
  apply (pairing_wafers "AB" a (drop_columns base_col b) [] r1
           (tagged_wafer "PolishA" data) (tagged_wafer "PolishB" data))
    in PAB as (p1 & -> & F1 & H1);
    [|exact Wa|now apply drop_columns_well_formed|exact Ha
     |now apply Side|intros T; now apply Ea|intros T; now apply Eb].
  destruct (snd (pair_modules "CD" c (drop_columns base_col d) ([] ++ p1)))
    as [r2|e] eqn:PCD; [|discriminate].
  apply (pairing_wafers "CD" c (drop_columns base_col d) ([] ++ p1) r2
           (tagged_wafer "PolishC" data) (tagged_wafer "PolishD" data))
    in PCD as (p2 & -> & F2 & H2);
    [|exact Wc|now apply drop_columns_well_formed|exact Hc
     |now apply Side|intros T; now apply Ec|intros T; now apply Ed].
  rewrite <- (H1 w), <- (H2 w). simpl in Hout.
  destruct (is_nil (p1 ++ p2)) eqn:N.
  - injection Hout as <-.
    destruct p1; [|discriminate]. destruct p2; [|discriminate].
    split.
    + intros [].
    + intros [(d0 & [] & _)|(d0 & [] & _)].
  - rewrite (concat_rows_wafers _ _ w Hout)
      by (apply Forall_app; split; assumption).
    split.
    + intros (d0 & Hd0 & Hw). apply in_app_or in Hd0 as [Hd0|Hd0]; eauto.
    + intros [(d0 & Hd0 & Hw)|(d0 & Hd0 & Hw)];
        exists d0; (split; [apply in_or_app; auto|exact Hw]).
Qed.

(** A tag written with a long s counts as PolishA: the row is paired
    with the PolishB row of its wafer. *)
Lemma long_s_is_paired :
  mentions "PolishA" (VStr "PoliſhA") = true
  /\ snd (process accept_all [] long_s_table)
     = Ok (Frame ["WAFER_ID"; "THK_x"; "THK_y"; "POLISH"]
                 [ [VStr "w1"; VInt 1; VInt 2; VStr "AB"] ]).
Proof. split; vm_compute; reflexivity. Qed.

Lemma process_pairs_wafers_witness :
  In (VStr "w2") (wafer_ids modules_out)
  <-> (tagged_wafer "PolishA" modules_table (VStr "w2")
       /\ tagged_wafer "PolishB" modules_table (VStr "w2"))
      \/ (tagged_wafer "PolishC" modules_table (VStr "w2")
          /\ tagged_wafer "PolishD" modules_table (VStr "w2")).
Proof.
  apply (process_pairs_wafers accept_all mapping modules_table modules_out).
  - exact modules_table_well_formed.
  - reflexivity.
  - simpl. tauto.
  - vm_compute. lia.
  - vm_compute. reflexivity.
Defined.

End WaferFacts.

(** ** area.py: the keys of the combined table *)

Module CombineFacts.
Import Pd PyStr Area Spec PdFacts AreaFacts.

Lemma key_eqb_eq (a b : key) : key_eqb a b = true <-> a = b.
Proof.
  destruct a as [v z], b as [v' z']. unfold key_eqb. simpl.
  rewrite andb_true_iff, value_eqb_eq, Z.eqb_eq.
  split; [intros [-> ->]; reflexivity|intros [= -> ->]; now split].
Qed.

Lemma key_mem_In (k : key) (idx : list key) : key_mem k idx = true <-> In k idx.
Proof.
  unfold key_mem. rewrite existsb_exists. split.
  - intros (k' & H & E). apply key_eqb_eq in E. now subst.
  - intros H. exists k. split; [exact H|now apply key_eqb_eq].
Qed.

Lemma key_count_In (k : key) (idx : list key) : 0 < key_count k idx <-> In k idx.
Proof.
  unfold key_count. induction idx as [|x idx IH]; simpl; [lia|].
  destruct (key_eqb k x) eqn:E; simpl.
  - apply key_eqb_eq in E. subst. split; [auto|lia].
  - rewrite IH. split; [auto|]. intros [->|H]; [|exact H].
    assert (key_eqb k k = true) by now apply key_eqb_eq. congruence.
Qed.

Lemma index_unique_from_In (seen idx : list key) (k : key) :
  In k (index_unique_from seen idx) <-> In k idx /\ ~ In k seen.
Proof.
  revert seen. induction idx as [|x idx IH]; intros seen; simpl; [tauto|].
  destruct (key_mem x seen) eqn:M.
  - apply key_mem_In in M. rewrite IH. split.
    + tauto.
    + intros [[<-|H] Hs]; tauto.
  - assert (Hx : ~ In x seen).
    { intros H. apply key_mem_In in H. congruence. }
    simpl. rewrite IH. simpl. split.
    + intros [<-|[H Hs]]; tauto.
    + intros [[<-|H] Hs]; [tauto|].
      destruct (key_eqb x k) eqn:E.
      * apply key_eqb_eq in E. tauto.
      * right. split; [exact H|]. intros [->|H']; [|tauto].
        assert (key_eqb k k = true) by now apply key_eqb_eq. congruence.
Qed.

Lemma index_eqb_eq (a b : list key) : index_eqb a b = true -> a = b.
Proof.
  unfold index_eqb. rewrite andb_true_iff, Nat.eqb_eq.
  revert b. induction a as [|x a IH]; intros [|y b] [Hlen H];
    try discriminate; [reflexivity|].
  simpl in *. apply andb_true_iff in H as [E H].
  apply key_eqb_eq in E. subst. f_equal. apply IH. split; [lia|exact H].
Qed.

(** The union of two indexes has the keys of both and no other. *)
Lemma index_union_In (self other : list key) (k : key) :
  In k (index_union self other) <-> In k self \/ In k other.
Proof.
  unfold index_union.
  destruct (is_nil other || index_eqb self other) eqn:E1.
  - apply orb_true_iff in E1 as [E1|E1].
    + destruct other; [simpl; tauto|discriminate].
    + apply index_eqb_eq in E1. subst. tauto.
  - destruct (is_nil self) eqn:E2.
    + destruct self; [simpl; tauto|discriminate].
    + destruct (has_duplicates other).
      * rewrite in_flat_map. split.
        -- intros (x & Hx & Hr). apply repeat_spec in Hr. subst x.
           apply index_unique_from_In in Hx as [Hx _]. now apply in_app_or.
        -- intros H. exists k. split.
           ++ apply index_unique_from_In. split; [now apply in_or_app|tauto].
           ++ assert (0 < Nat.max (key_count k self) (key_count k other)).
              { destruct H as [H|H]; apply key_count_In in H; lia. }
              destruct (Nat.max _ _); [lia|now left].
      * rewrite in_app_iff, filter_In. split.
        -- tauto.
        -- intros [H|H]; [tauto|].
           destruct (key_mem k self) eqn:M.
           ++ apply key_mem_In in M. tauto.
           ++ right. split; [exact H|reflexivity].
Qed.

Lemma fold_index_union_In (ls : list (list key)) (a : list key) (k : key) :
  In k (fold_left index_union ls a) <-> In k a \/ exists l, In l ls /\ In k l.
Proof.
  revert a. induction ls as [|l ls IH]; intros a; simpl.
  - split; [auto|]. intros [H|(l & [] & _)]. exact H.
  - rewrite IH, index_union_In. split.
    + intros [[H|H]|(l' & Hl' & H)]; eauto.
    + intros [H|(l' & [<-|Hl'] & H)]; eauto.
Qed.

Lemma concat_columns_names (idx : list key) (frames : list MetricFrame)
  (acc cols : list (string * list value)) :
  for_each frames
    (fun acc m =>
       if index_eqb idx (mf_index m) then
         Ok (acc ++ [(mf_name m, mf_values m)])
       else if has_duplicates (mf_index m) then
         Raise (Exn InvalidIndexError requires_unique_msg)
       else
         Ok (acc ++ [(mf_name m, map (fun k => lookup_key k m) idx)]))
    acc = Ok cols ->
  map fst cols = map fst acc ++ map mf_name frames.
Proof.
  revert acc. induction frames as [|m frames IH]; intros acc; simpl.
  - intros [= <-]. now rewrite app_nil_r.
  - destruct (index_eqb idx (mf_index m)).
    + intros H. apply IH in H. rewrite H, map_app, <- app_assoc. reflexivity.
    + destruct (has_duplicates (mf_index m)); [discriminate|].
      intros H. apply IH in H. rewrite H, map_app, <- app_assoc. reflexivity.
Qed.

(** X18: when the combine of lines 52-56 succeeds, the table has the
    columns WAFER_ID and AREA followed by one column per metric frame,
    in their order; every (WAFER_ID, AREA) key of every frame is the
    key of a row, and every row is keyed by a key of some frame: no
    measurement's key is lost and none is invented. *)
Theorem combine_metrics_keys (frames : list MetricFrame) (out : DataFrame) :
  combine_metrics frames = Ok out ->
  columns out = "WAFER_ID" :: "AREA" :: map mf_name frames
  /\ (forall m k, In m frames -> In k (mf_index m) ->
        exists row, In row (rows out)
                    /\ cell 0 row = fst k /\ cell 1 row = VInt (snd k))
  /\ (forall row, In row (rows out) ->
        exists m k, In m frames /\ In k (mf_index m)
                    /\ cell 0 row = fst k /\ cell 1 row = VInt (snd k)).
Proof.
  rewrite combine_metrics_eq, copies_are_equal.
  destruct (concat_reset frames) as [d|e] eqn:E; [|discriminate].
  intros [= <-]. revert E. unfold concat_reset, concat_axis1.
  destruct frames as [|first others]; [discriminate|].
  remember (fold_left index_union (map mf_index others) (mf_index first))
    as idx eqn:Hidx.
  case_for_each F; [|discriminate].
  apply concat_columns_names in F. simpl in F.
  cbn [bind]. unfold reset_index. cbn [cb_columns cb_index].
  destruct (mem "AREA" _); [discriminate|].
  destruct (mem "WAFER_ID" _); [discriminate|].
  intros [= <-]. cbn [columns rows].
  assert (Hkeys : forall k, In k idx
                            <-> exists m, In m (first :: others)
                                          /\ In k (mf_index m)).
  { intros k. rewrite Hidx, fold_index_union_In. split.
    - intros [H|(l & Hl & H)].
      + exists first. split; [now left|exact H].
      + apply in_map_iff in Hl as (m & <- & Hm). exists m.
        split; [now right|exact H].
    - intros (m & [<-|Hm] & H); [now left|].
      right. exists (mf_index m). split; [now apply in_map|exact H]. }
  split; [now rewrite F|]. split.
  - intros m k Hm Hk.
    assert (Hin : In k idx) by (apply Hkeys; eauto).
    apply list_elem_of_In, list_elem_of_lookup in Hin as [i Hi].
    eexists. split.
    + apply list_elem_of_In, elem_of_lookup_imap. exists i, k.
      split; [reflexivity|exact Hi].
    + split; reflexivity.
  - intros row Hrow.
    apply list_elem_of_In, elem_of_lookup_imap in Hrow as (i & k & -> & Hi).
    assert (Hin : In k idx).
    { apply list_elem_of_In, list_elem_of_lookup. eauto. }
    apply Hkeys in Hin as (m & Hm & Hk).
    exists m, k. repeat split; assumption.
Qed.

Lemma combine_metrics_keys_witness :
  let frames := [ MkMetric "X_" [(VStr "W1", 1%Z); (VStr "W1", 2%Z)]
                           [VInt 10; VInt 20];
                  MkMetric "Y_" [(VStr "W1", 1%Z); (VStr "W1", 2%Z)]
                           [VInt 5; VInt 6] ] in
  let out := Frame ["WAFER_ID"; "AREA"; "X_"; "Y_"]
                   [ [VStr "W1"; VInt 1; VInt 10; VInt 5];
                     [VStr "W1"; VInt 2; VInt 20; VInt 6] ] in
  columns out = "WAFER_ID" :: "AREA" :: map mf_name frames
  /\ (forall m k, In m frames -> In k (mf_index m) ->
        exists row, In row (rows out)
                    /\ cell 0 row = fst k /\ cell 1 row = VInt (snd k))
  /\ (forall row, In row (rows out) ->
        exists m k, In m frames /\ In k (mf_index m)
                    /\ cell 0 row = fst k /\ cell 1 row = VInt (snd k)).
Proof.
  intros frames out.
  apply (combine_metrics_keys frames out).
  vm_compute. reflexivity.
Defined.

End CombineFacts.
